(** * VietForeign: the orchestration core of the audio localisation pipeline

    A shallow embedding of the Python sources
      - backend/utils.py, backend/dependencies.py,
      - backend/routers/{audios,transcript,conversion}.py,
      - ai_service/{transcript,translation,conversion}_service.py
    and the properties of the pipeline that its specification states.

    Python [str] values are lists of Unicode code points, so that [len]
    counts characters.  The two process-wide dictionaries and the file
    system are fields of an explicit [world]; a request handler is a
    computation in a state-and-exception monad over that world.  The
    machine-learning models and the other library calls are opaque
    capabilities: fields of a type class, each invocation of a model
    recorded in the world's call log.

    What the model leaves out: requests run one at a time (the await
    points of the handlers are not interleaved); the file system maps
    paths to file contents, without directories, so [os.makedirs] has no
    counterpart, and a write to it always succeeds; logging and printing
    are dropped. *)

From Stdlib Require Import String Ascii NArith List Bool Lia DecimalString.
From stdpp Require Import base option list gmap.

Set Default Proof Using "Type".

(** ** Strings *)

Abbreviation char := N (only parsing).
Abbreviation str := (list N) (only parsing).
Abbreviation bytes := (list N) (only parsing).

(** A literal of the source, read code point by code point (ASCII only). *)
Definition lit (s : string) : str := N_of_ascii <$> list_ascii_of_string s.
Arguments lit : simpl never.

(** [str.isspace] for one character, as CPython's [Py_UNICODE_ISSPACE]. *)
Definition isspace (c : char) : bool :=
  ((9 <=? c) && (c <=? 13) || (28 <=? c) && (c <=? 32)
   || (c =? 133) || (c =? 160) || (c =? 5760)
   || (8192 <=? c) && (c <=? 8202)
   || (c =? 8232) || (c =? 8233) || (c =? 8239) || (c =? 8287)
   || (c =? 12288))%N.

Fixpoint lstrip (s : str) : str :=
  match s with
  | [] => []
  | c :: t => if isspace c then lstrip t else s
  end.

Fixpoint rstrip (s : str) : str :=
  match s with
  | [] => []
  | c :: t =>
      match rstrip t with
      | [] => if isspace c then [] else [c]
      | r => c :: r
      end
  end.

(** [s.strip()] *)
Definition strip (s : str) : str := rstrip (lstrip s).
Arguments strip : simpl never.

(** [s.lstrip(".")]: leading occurrences of one character removed. *)
Fixpoint lstrip_char (d : char) (s : str) : str :=
  match s with
  | [] => []
  | c :: t => if (c =? d)%N then lstrip_char d t else s
  end.

Definition str_eqb (a b : str) : bool := bool_decide (a = b).

(** [s.startswith(p)] *)
Fixpoint startswith (s p : str) {struct p} : bool :=
  match p, s with
  | [], _ => true
  | _ :: _, [] => false
  | a :: p', b :: s' => (a =? b)%N && startswith s' p'
  end.

(** [s.endswith(p)] *)
Definition endswith (s p : str) : bool := startswith (reverse s) (reverse p).

(** [p in s] for strings: [p] occurs in [s] as a substring. *)
Fixpoint contains (s p : str) : bool :=
  startswith s p || match s with [] => false | _ :: t => contains t p end.

(** [s.replace(old, new)] for a non-empty [old]: occurrences are replaced
    left to right without overlap; [skip] counts the characters of a
    match that are still to be passed over. *)
Fixpoint replace_from (old new : str) (skip : nat) (s : str) : str :=
  match s with
  | [] => []
  | c :: t =>
      match skip with
      | S k => replace_from old new k t
      | O => if startswith s old
             then new ++ replace_from old new (length old - 1) t
             else c :: replace_from old new 0 t
      end
  end.

Definition replace (old new s : str) : str := replace_from old new 0 s.
Arguments replace : simpl never.

(** Truthiness of a [str], and of a value that may be [None]. *)
Definition truthy (s : str) : bool := negb (str_eqb s []).

Definition truthy_opt (o : option str) : bool :=
  match o with Some s => truthy s | None => false end.

(** [a or b], where [a] may be [None] and [b] is a [str]. *)
Definition py_or (a : option str) (b : str) : str :=
  match a with
  | Some s => if truthy s then s else b
  | None => b
  end.

(** [d.get(k)] for a dict literal, kept as the list of its items in
    the order they are written; the keys of the dicts here are distinct. *)
Fixpoint dict_get {V} (d : list (str * V)) (k : str) : option V :=
  match d with
  | [] => None
  | (k', v) :: r => if str_eqb k k' then Some v else dict_get r k
  end.

(** [", ".join(l)] and the [repr] of a list of plain strings. *)
Fixpoint join (sep : str) (l : list str) : str :=
  match l with
  | [] => []
  | [x] => x
  | x :: r => x ++ sep ++ join sep r
  end.

Definition repr_str (s : str) : str := lit "'" ++ s ++ lit "'".

Definition repr_list (l : list str) : str :=
  lit "[" ++ join (lit ", ") (repr_str <$> l) ++ lit "]".

(** ** Values that are not always strings

    The result of [fast_langdetect.detect] is used as a [str]
    ([detected_lang in ['VI', 'VIE']], [detected_lang.upper()]), while
    the library documents a dict (or a list of dicts).  A [pyobject] is a
    [str] or an object of another type, of which the name of the type is
    kept. *)

Inductive pyobject :=
| PyStr (s : str)
| PyObject (type_name : str).

(** [o in l] for a list [l] of strings: an object that is not a [str]
    equals none of them. *)
Definition py_in (o : pyobject) (l : list str) : bool :=
  match o with
  | PyStr s => bool_decide (s ∈ l)
  | PyObject _ => false
  end.

(** ** Exceptions

    The classes the sources raise or catch by name.  [OSError msg] is an
    [OSError] of another subclass than the two named ones
    ([PermissionError] and the like).  [Raised cls msg] is an exception
    of any other class, as a library may raise it; [msg] is its [str()]. *)

Inductive exn :=
| HTTPException (status_code : N) (detail : str)
| UnsupportedFileFormatException (detail : str)
| FileNotFoundError (msg : str)
| FileExistsError (msg : str)
| OSError (msg : str)
| ValueError (msg : str)
| RuntimeError (msg : str)
| Raised (cls msg : str).

(** dependencies.py: [UnsupportedFileFormatException] derives from
    [HTTPException] and always carries status 415. *)
Definition is_HTTPException (e : exn) : bool :=
  match e with
  | HTTPException _ _ | UnsupportedFileFormatException _ => true
  | _ => false
  end.

Definition http_status (e : exn) : option N :=
  match e with
  | HTTPException c _ => Some c
  | UnsupportedFileFormatException _ => Some 415%N
  | _ => None
  end.

Definition is_FileNotFoundError (e : exn) : bool :=
  match e with FileNotFoundError _ => true | _ => false end.

(** [except OSError]: the class itself and its subclasses. *)
Definition is_OSError (e : exn) : bool :=
  match e with
  | FileNotFoundError _ | FileExistsError _ | OSError _ => true
  | _ => false
  end.

Inductive result (A : Type) :=
| Ok (a : A)
| Raise (e : exn).
Arguments Ok {A} a.
Arguments Raise {A} e.

Definition is_Ok {A} (r : result A) : bool :=
  match r with Ok _ => true | Raise _ => false end.

(** ** The data model *)

(** An entry of [audio_storage] (utils.py, [save_audio_in_memory_and_disk]);
    only that function writes entries, always with these six keys. *)
Record audio_data := AudioData {
  audio_id : str;
  filename : option str;
  content : bytes;
  content_type : option str;
  file_path : str;
  upload_time : N
}.

(** A value of [voice_conversions]. *)
Record conversion_record := ConversionRecord {
  audio_path : str;
  text : str;
  audio_url : str
}.

(** An entry of [transcript_storage]: a dict whose keys may each be absent. *)
Record session := Session {
  raw_transcript : option str;
  corrected_transcript : option str;
  status : option str;
  translated_transcript : option str;
  voice_conversions : option (gmap str conversion_record)
}.

(** The empty dict [{}]. *)
Definition empty_session : session := Session None None None None None.

(** One invocation of an opaque capability. *)
Inductive call :=
| CallDetect (text : str)
| CallTranslator (text src_lang tgt_lang : str)
| CallCorrector (text : str)
| CallASR (audio : bytes)
| CallLatents (audio_path : str)
| CallInference (text language : str)
| CallVoiceConversion (target_wav file_path : str).

Record world := World {
  fs : gmap str bytes;                       (* path to file content *)
  audio_storage : gmap str audio_data;
  transcript_storage : gmap str session;
  calls : list call;                         (* capability invocations, oldest first *)
  tick : nat                                 (* draws taken from the environment *)
}.

Definition set_fs (f : gmap str bytes -> gmap str bytes) (w : world) : world :=
  World (f (fs w)) (audio_storage w) (transcript_storage w) (calls w) (tick w).

Definition set_audio_storage
    (f : gmap str audio_data -> gmap str audio_data) (w : world) : world :=
  World (fs w) (f (audio_storage w)) (transcript_storage w) (calls w) (tick w).

Definition set_transcript_storage
    (f : gmap str session -> gmap str session) (w : world) : world :=
  World (fs w) (audio_storage w) (f (transcript_storage w)) (calls w) (tick w).

Definition log_call (c : call) (w : world) : world :=
  World (fs w) (audio_storage w) (transcript_storage w) (calls w ++ [c]) (tick w).

Definition next_tick (w : world) : world :=
  World (fs w) (audio_storage w) (transcript_storage w) (calls w) (S (tick w)).

(** ** The monad of request handlers: state with exceptions.

    A raised exception keeps the world as it is at the raise, as in
    Python. *)

Definition M (A : Type) : Type := world -> result A * world.

Definition ret {A} (a : A) : M A := fun w => (Ok a, w).

Definition bind {A B} (m : M A) (k : A -> M B) : M B :=
  fun w => match m w with
           | (Ok a, w') => k a w'
           | (Raise e, w') => (Raise e, w')
           end.

Definition raise {A} (e : exn) : M A := fun w => (Raise e, w).

Definition gets {A} (f : world -> A) : M A := fun w => (Ok (f w), w).

Definition modify (f : world -> world) : M unit := fun w => (Ok tt, f w).

(** [try: m  except Exception as e: h e] *)
Definition try_except {A} (m : M A) (h : exn -> M A) : M A :=
  fun w => match m w with
           | (Ok a, w') => (Ok a, w')
           | (Raise e, w') => h e w'
           end.

(** The value of an opaque call: returned, or raised. *)
Definition lift {A} (r : exn + A) : M A :=
  match r with inl e => raise e | inr a => ret a end.

Declare Scope py_scope.
Delimit Scope py_scope with py.
Notation "x <- m ;; k" := (bind m (fun x => k))
  (at level 100, m at next level, right associativity) : py_scope.
Notation "m ;;; k" := (bind m (fun _ => k))
  (at level 100, right associativity) : py_scope.
Open Scope py_scope.

(** ** The environment

    What the Python runtime and the operating system decide.  The case
    mappings follow the Unicode tables of the interpreter; the identifiers
    and temporary names are random, the [n]-th draw being [_ n]. *)
Class Runtime := {
  lower : str -> str;                 (* str.lower *)
  lower_nil : lower [] = [];          (* "".lower() == "" *)
  upper : str -> str;                 (* str.upper *)
  suffix : str -> str;                (* pathlib.Path(p).suffix *)
  http_str : N -> str -> str;         (* str() of an HTTPException *)
  uuid4 : nat -> str;                 (* uuid.uuid4().hex *)
  temp_name : nat -> str;             (* candidate names of tempfile *)
  TMP_MAX : nat;                      (* tempfile.TMP_MAX *)
  now : nat -> N;                     (* datetime.now() *)
  gettempdir : str;                   (* tempfile.gettempdir() *)
  remove_error : str -> option str    (* os.remove of an existing file:
                                         the OSError it raises, if any *)
}.

(** ** The opaque capabilities (models and codecs). *)
Class Capabilities := {
  (* fast_langdetect.detect *)
  detect : str -> exn + pyobject;
  (* the NLLB pipeline, [result[0]["translation_text"]] *)
  translator : str -> str -> str -> exn + str;
  (* the correction pipeline, [[0]["generated_text"]] *)
  corrector : str -> exn + str;
  (* pydub: AudioSegment.from_file on a file's content, and export as WAV *)
  from_file : bytes -> str -> exn + bytes;
  export_wav : bytes -> exn + bytes;
  (* soundfile.read on a file's content, with its [frames] argument *)
  sf_read : bytes -> option nat -> exn + bytes;
  (* mono mix, resampling, normalisation, Whisper generate and decode *)
  asr : bytes -> exn + str;
  (* XTTS conditioning latents of a reference file's content *)
  get_conditioning_latents : bytes -> exn + bytes;
  (* XTTS inference: text, language, latents *)
  inference : str -> str -> bytes -> exn + bytes;
  (* voice conversion to a file: what it wrote, if anything, and whether
     it raised *)
  voice_conversion_to_file : bytes -> bytes -> option bytes * option exn
}.

(** ** Operating-system and runtime helpers *)

Section Helpers.
Context `{Runtime}.

(** [str(e)] *)
Definition exn_str (e : exn) : str :=
  match e with
  | HTTPException c d => http_str c d
  | UnsupportedFileFormatException d => http_str 415 d
  | FileNotFoundError m | FileExistsError m | OSError m | ValueError m
  | RuntimeError m | Raised _ m => m
  end.

(** [a / b] and [os.path.join(a, b)] for a relative [b]. *)
Definition path_join (a b : str) : str := a ++ lit "/" ++ b.

(** [os.path.exists(p)]; the file system holds files only, so this is
    [os.path.isfile(p)] as well. *)
Definition os_path_exists (p : str) : M bool :=
  gets (fun w => bool_decide (is_Some (fs w !! p))).

(** [os.path.getsize(p)] *)
Definition os_path_getsize (p : str) : M nat :=
  files <- gets fs;;
  match files !! p with
  | Some b => ret (length b)
  | None => raise (FileNotFoundError p)
  end.

(** [os.remove(p)]: the operating system may refuse to remove a file
    that exists (one that is in use, or not the caller's); the file then
    stays. *)
Definition os_remove (p : str) : M unit :=
  files <- gets fs;;
  match files !! p with
  | Some _ =>
      match remove_error p with
      | Some msg => raise (OSError msg)
      | None => modify (set_fs (delete p))
      end
  | None => raise (FileNotFoundError p)
  end.

(** [with open(p, "wb") as f: f.write(b)].  A path is the string that the
    program passes: the model resolves neither [.] nor [..] nor links, so
    two strings that name one file are two keys.  The properties below
    therefore say of a write that it removes no file, and never that it
    leaves the files at other path strings as they were; the one
    exception is a name that tempfile has just created, which names a new
    file. *)
Definition write_file (p : str) (b : bytes) : M unit :=
  modify (set_fs (insert p b)).

(** One draw from the environment: the current tick, then advanced. *)
Definition draw : M nat :=
  n <- gets tick;; modify next_tick;;; ret n.

(** [str(uuid.uuid4())]: the hexadecimal digits in groups 8-4-4-4-12. *)
Definition uuid_str (h : str) : str :=
  take 8 h ++ lit "-" ++ take 4 (drop 8 h) ++ lit "-" ++ take 4 (drop 12 h)
    ++ lit "-" ++ take 4 (drop 16 h) ++ lit "-" ++ drop 20 h.

(** tempfile: candidate names are tried in turn, at most [TMP_MAX] of
    them, and the first that does not exist yet is created empty. *)
Fixpoint mkstemp (fuel : nat) (sfx : str) : M str :=
  match fuel with
  | O => raise (FileExistsError (lit "No usable temporary file name found"))
  | S fuel' =>
      n <- draw;;
      let name := path_join gettempdir (lit "tmp" ++ temp_name n ++ sfx) in
      taken <- os_path_exists name;;
      if taken : bool then mkstemp fuel' sfx
      else write_file name [];;; ret name
  end.

(** [tempfile.NamedTemporaryFile(delete=False, suffix=sfx).name] *)
Definition NamedTemporaryFile (sfx : str) : M str := mkstemp TMP_MAX sfx.

End Helpers.

(** ** backend/utils.py *)

Module utils.
Section utils.
Context `{Runtime} `{Capabilities}.

Definition ALLOWED_EXTS : list str :=
  lit <$> [".wav"; ".mp3"; ".m4a"; ".flac"; ".ogg"; ".aac"; ".webm"]%string.

Definition TEMP_AUDIO_DIR : str := path_join gettempdir (lit "audio_uploads").

Definition get_audio_file (audio_id : str) : M str :=
  audios <- gets audio_storage;;
  match audios !! audio_id with
  | None =>
      raise (FileNotFoundError
               (lit "Audio with ID " ++ audio_id ++ lit " not found"))
  | Some audio_data =>
      let file_path := file_path audio_data in
      present <- os_path_exists file_path;;
      if negb present then
        raise (FileNotFoundError
                 (lit "Audio file not found on disk: " ++ file_path))
      else ret file_path
  end.

Definition generate_audio_id : M str :=
  n <- draw;; ret (uuid_str (uuid4 n)).

Definition supported_formats : list str :=
  lit <$> [".wav"; ".mp3"; ".m4a"; ".flac"; ".ogg"; ".aac"; ".webm"]%string.

Definition check_audio_format (filename : str) : M unit :=
  if negb (existsb (fun fmt => endswith (lower filename) fmt) supported_formats)
  then raise (UnsupportedFileFormatException
                (lit "Unsupported file format. Supported formats: "
                   ++ join (lit ", ") supported_formats))
  else ret tt.

(** [audio] is the upload: its [filename] and [content_type]. *)
Definition save_audio_in_memory_and_disk
    (audio_filename audio_content_type : option str) (contents : bytes)
    : M str :=
  audio_id <- generate_audio_id;;
  let temp_dir := TEMP_AUDIO_DIR in
  let file_extension := suffix (py_or audio_filename (lit "audio.wav")) in
  let temp_file_path := path_join temp_dir (audio_id ++ file_extension) in
  write_file temp_file_path contents;;;
  t <- draw;;
  modify (set_audio_storage
            (insert audio_id
               (AudioData audio_id audio_filename contents
                  audio_content_type temp_file_path (now t))));;;
  ret audio_id.

(** [detect] is consulted through the call log. *)
Definition call_detect (text : str) : M pyobject :=
  modify (log_call (CallDetect text));;; lift (detect text).

(** [detected_lang.upper()]: an object that is not a [str] has no such
    method. *)
Definition py_upper (o : pyobject) : M str :=
  match o with
  | PyStr s => ret (upper s)
  | PyObject type_name =>
      raise (Raised (lit "AttributeError")
               (lit "'" ++ type_name ++ lit "' object has no attribute 'upper'"))
  end.

Definition is_vietnamese_transcript (transcript : str) : M (bool * pyobject) :=
  if negb (truthy transcript) || (length (strip transcript) <? 10)%nat
  then ret (false, PyStr (lit "text_too_short"))
  else
    try_except
      (detected_lang <- call_detect (strip transcript);;
       let is_vietnamese := py_in detected_lang [lit "VI"; lit "VIE"] in
       ret (is_vietnamese, detected_lang))
      (fun e => ret (false, PyStr (lit "detection_failed"))).

(** The Session record holds the keys that the routers write;
    "original_transcript" and "transcript" are written nowhere, so the
    two [get]s on them find nothing. *)
Definition get_transcript (id : str) : M str :=
  storage <- gets transcript_storage;;
  match storage !! id with
  | None =>
      raise (FileNotFoundError
               (lit "Transcript with ID " ++ id ++ lit " not found"))
  | Some transcript_data =>
      let original_transcript : option str := None in
      let transcript : option str := None in
      (* Try to get the corrected transcript first, then fall back to original *)
      let transcript_text :=
        py_or (corrected_transcript transcript_data)
              (py_or original_transcript (default [] transcript)) in
      if negb (truthy transcript_text)
      then raise (FileNotFoundError
                    (lit "No transcript content found for ID " ++ id))
      else ret transcript_text
  end.

End utils.
End utils.

(** ** ai_service/transcript_service.py *)

Module transcript_service.

(** The two loading flags of a [TranscriptService] instance. *)
Record TranscriptService := {
  asr_loaded : bool;
  correction_loaded : bool
}.

(** The dict that [process_audio] returns. *)
Record process_result := ProcessResult {
  res_raw_transcript : str;
  res_corrected_transcript : str;
  res_status : str;
  res_error : option str
}.

Section transcript_service.
Context `{Runtime} `{Capabilities}.
Variable self : TranscriptService.

(** [soundfile.read(audio_path, frames=frames)] *)
Definition soundfile_read (audio_path : str) (frames : option nat) : M bytes :=
  files <- gets fs;;
  match files !! audio_path with
  | Some b => lift (sf_read b frames)
  | None =>
      raise (Raised (lit "LibsndfileError")
               (lit "Error opening " ++ audio_path))
  end.

(** [AudioSegment.from_file(path, format=format)] *)
Definition AudioSegment_from_file (path format : str) : M bytes :=
  files <- gets fs;;
  match files !! path with
  | Some b => lift (from_file b format)
  | None => raise (FileNotFoundError path)
  end.

(** [audio_seg.export(name, format="wav")] *)
Definition AudioSegment_export (audio_seg : bytes) (name : str) : M unit :=
  wav <- lift (export_wav audio_seg);; write_file name wav.

Definition _validate_audio_file (audio_path : str) : M bool :=
  try_except
    (present <- os_path_exists audio_path;;
     if negb present then ret false
     else
       size <- os_path_getsize audio_path;;
       if (size =? 0)%nat then ret false
       else
         try_except
           (soundfile_read audio_path (Some 1%nat);;; ret true)
           (fun e => ret false))
    (fun e => ret false).

Definition call_asr (audio : bytes) : M str :=
  modify (log_call (CallASR audio));;; lift (asr audio).

Definition call_corrector (text : str) : M str :=
  modify (log_call (CallCorrector text));;; lift (corrector text).

Definition transcribe (audio_path : str) : M str :=
  try_except
    ((if negb (asr_loaded self)
      then raise (RuntimeError (lit "ASR model not loaded")) else ret tt);;;
     (* 1) If not WAV, convert to a temp WAV file *)
     let orig_path := audio_path in
     let suffix := lower (suffix orig_path) in
     audio_path <-
       (if negb (str_eqb suffix (lit ".wav")) then
          try_except
            (audio_seg <- AudioSegment_from_file orig_path
                            (lstrip_char 46 suffix);;
             tmp_wav_path <- NamedTemporaryFile (lit ".wav");;
             AudioSegment_export audio_seg tmp_wav_path;;;
             ret tmp_wav_path)
            (fun e =>
               raise (ValueError (lit "Cannot convert " ++ suffix
                                    ++ lit " to WAV: " ++ exn_str e)))
        else ret audio_path);;
     (* 2) Validate the (possibly converted) file *)
     valid <- _validate_audio_file audio_path;;
     (if negb valid
      then raise (ValueError (lit "Invalid audio file: " ++ audio_path))
      else ret tt);;;
     (* 3) Load via soundfile *)
     audio <- soundfile_read audio_path None;;
     (* 4) Clean up temp WAV if we made one *)
     (if negb (str_eqb suffix (lit ".wav")) then
        try_except (os_remove audio_path)
          (fun e => if is_OSError e then ret tt else raise e)
      else ret tt);;;
     (* 5), 6) preprocessing and Whisper inference *)
     raw_transcript <- call_asr audio;;
     ret (strip raw_transcript))
    (fun e => raise e).

Definition correct_text (raw_text : str) : M str :=
  try_except
    (if negb (truthy (strip raw_text)) then ret []
     else if negb (correction_loaded self) then ret raw_text
     else
       output <- call_corrector raw_text;;
       ret (strip output))
    (fun e => ret raw_text).

Definition process_audio (audio_path : str) : M process_result :=
  try_except
    (if negb (asr_loaded self) then
       let error_msg := lit "ASR model not loaded - cannot process audio" in
       ret (ProcessResult [] [] (lit "error") (Some error_msg))
     else
       (* Step 1: Transcribe *)
       r <- try_except
              (raw_transcript <- transcribe audio_path;;
               ret (inr raw_transcript))
              (fun e => ret (inl (lit "Transcription failed: " ++ exn_str e)));;
       match r with
       | inl error_msg =>
           ret (ProcessResult [] [] (lit "error") (Some error_msg))
       | inr raw_transcript =>
           (* Step 2: Correct *)
           corrected_transcript <-
             try_except (correct_text raw_transcript)
               (fun e => ret raw_transcript);;
           ret (ProcessResult raw_transcript corrected_transcript
                  (lit "success") None)
       end)
    (fun e =>
       let error_msg := lit "Audio processing failed: " ++ exn_str e in
       ret (ProcessResult [] [] (lit "error") (Some error_msg))).

End transcript_service.
End transcript_service.

(** ** ai_service/translation_service.py *)

Module translation_service.

Record TranslatorService := {
  supported_languages : list (str * str);
  src_lang : str
}.

(** The attributes that [__init__] sets. *)
Definition TranslatorService_init : TranslatorService :=
  {| supported_languages :=
       [ (lit "en", lit "eng_Latn");
         (lit "ja", lit "jpn_Jpan");
         (lit "fr", lit "fra_Latn") ];
     src_lang := lit "vie_Latn" |}.

Section translation_service.
Context `{Runtime} `{Capabilities}.
Variable self : TranslatorService.

Definition call_translator (text src tgt : str) : M str :=
  modify (log_call (CallTranslator text src tgt));;;
  lift (translator text src tgt).

Definition translate (text target_lang : str) : M str :=
  match dict_get (supported_languages self) target_lang with
  | None =>
      let error_msg :=
        lit "Unsupported target language '" ++ target_lang
          ++ lit "'. Choose from: "
          ++ repr_list (fst <$> supported_languages self) in
      raise (ValueError error_msg)
  | Some tgt_lang =>
      try_except
        (translated_text <- call_translator text (src_lang self) tgt_lang;;
         ret translated_text)
        (fun e => raise e)
  end.

End translation_service.
End translation_service.

(** ** ai_service/conversion_service.py *)

Module conversion_service.

(** The class attribute [VoiceSynthesisService.SUPPORTED_LANGUAGES], in
    the order of the dict literal; 231 is the c with cedilla. *)
Definition SUPPORTED_LANGUAGES : list (str * str) :=
  [ (lit "en", lit "en");
    (lit "english", lit "en");
    (lit "ja", lit "ja");
    (lit "japanese", lit "ja");
    (lit "jp", lit "ja");
    (lit "fr", lit "fr");
    (lit "french", lit "fr");
    (lit "fran" ++ [231%N] ++ lit "ais", lit "fr") ].

(** The loop over [SUPPORTED_LANGUAGES.items()]: the value of the first
    key that begins the input or that the input begins. *)
Fixpoint partial_match (items : list (str * str)) (language_lower : str)
    : option str :=
  match items with
  | [] => None
  | (key, value) :: rest =>
      if startswith language_lower key || startswith key language_lower
      then Some value
      else partial_match rest language_lower
  end.

Section conversion_service.
Context `{Runtime} `{Capabilities}.

Definition _normalize_language_code (language : str) : str :=
  if negb (truthy language) then lit "en"
  else
    let language_lower := strip (lower language) in
    match dict_get SUPPORTED_LANGUAGES language_lower with
    | Some code => code
    | None =>
        match partial_match SUPPORTED_LANGUAGES language_lower with
        | Some value => value
        | None => lit "en"
        end
    end.

Definition call_latents (audio_path : str) : M bytes :=
  modify (log_call (CallLatents audio_path));;;
  files <- gets fs;;
  match files !! audio_path with
  | Some b => lift (get_conditioning_latents b)
  | None => raise (FileNotFoundError audio_path)
  end.

Definition call_inference (text language : str) (latents : bytes) : M bytes :=
  modify (log_call (CallInference text language));;;
  lift (inference text language latents).

(** [vc_model.voice_conversion_to_file(source_wav, target_wav, file_path)]:
    the file it writes, if any, is in place before it returns or raises. *)
Definition call_voice_conversion
    (source_wav : bytes) (target_wav file_path : str) : M unit :=
  modify (log_call (CallVoiceConversion target_wav file_path));;;
  files <- gets fs;;
  match files !! target_wav with
  | None => raise (FileNotFoundError target_wav)
  | Some ref =>
      let '(written, raised) := voice_conversion_to_file source_wav ref in
      match written with
      | Some b => write_file file_path b
      | None => ret tt
      end;;;
      match raised with
      | Some e => raise e
      | None => ret tt
      end
  end.

Definition synthesize
    (text reference_audio_path output_path language : str) : M str :=
  (* Normalize language code *)
  let normalized_language := _normalize_language_code language in
  try_except
    ((* 1) Latent extraction for this specific audio *)
     present <- os_path_exists reference_audio_path;;
     (if negb present
      then raise (FileNotFoundError
                    (lit "Reference audio file not found: "
                       ++ reference_audio_path))
      else ret tt);;;
     latents <- call_latents reference_audio_path;;
     (* 2) TTS inference with specified language *)
     out_wav <- call_inference text normalized_language latents;;
     (* 3) Voice conversion *)
     call_voice_conversion out_wav reference_audio_path output_path;;;
     ret output_path)
    (fun e => raise e).

End conversion_service.
End conversion_service.

(** ** backend/routers/audios.py *)

Module audios.

(** The request's [UploadFile]: its name, declared type and bytes. *)
Record UploadFile := {
  upload_filename : option str;
  upload_content_type : option str;
  upload_body : bytes
}.

(** The dict that a successful upload returns. *)
Record upload_response := UploadResponse {
  resp_id : str;
  resp_filename : option str;
  resp_message : str;
  resp_size : nat
}.

Section audios.
Context `{Runtime} `{Capabilities}.

Definition upload_audio (file : UploadFile) : M upload_response :=
  try_except
    ((* Check format first *)
     utils.check_audio_format (py_or (upload_filename file) []);;;
     (* Read file content once *)
     let contents := upload_body file in
     (* Validate content is not empty *)
     (if (length contents =? 0)%nat
      then raise (HTTPException 400 (lit "Empty file uploaded"))
      else ret tt);;;
     (* Save to both memory and disk *)
     audio_id <- utils.save_audio_in_memory_and_disk
                   (upload_filename file) (upload_content_type file) contents;;
     ret (UploadResponse audio_id (upload_filename file)
            (lit "Audio uploaded successfully") (length contents)))
    (fun e =>
       match e with
       | UnsupportedFileFormatException _ =>
           raise (HTTPException 415 (exn_str e))
       | _ =>
           raise (HTTPException 500 (lit "Upload failed: " ++ exn_str e))
       end).

(** [try: m  finally: f]: [f] runs whatever [m] did, and an exception it
    raises replaces the outcome of [m]. *)
Definition try_finally {A} (m : M A) (f : result A -> M unit) : M A :=
  fun w =>
    let '(r, w1) := m w in
    match f r w1 with
    | (Ok _, w2) => (r, w2)
    | (Raise e, w2) => (Raise e, w2)
    end.

(** In [download_audio] the local [audio] is bound to the [Path] that
    [get_audio_file] returns and stays unbound when that call raises.  The
    [finally] clause evaluates [audio.file.close()]: a [Path] has no
    attribute [file], and reading an unbound local raises as well. *)
Definition download_audio (id : str) : M (str * str) :=
  try_finally
    (try_except
       (utils.get_audio_file id)
       (fun e =>
          if is_FileNotFoundError e
          then raise (HTTPException 404 (lit "Audio file not found"))
          else raise e))
    (fun outcome =>
       (* the try body binds [audio] exactly when it does not raise *)
       match outcome with
       | Ok _ =>
           raise (Raised (lit "AttributeError")
                    (lit "'PosixPath' object has no attribute 'file'"))
       | Raise _ =>
           raise (Raised (lit "UnboundLocalError")
                    (lit "cannot access local variable 'audio' where it is not associated with a value"))
       end);;;
  ret (id, lit "Audio download successful").

End audios.
End audios.

(** ** backend/routers/transcript.py *)

Module transcript.

Record TranscriptResponse := {
  tr_id : str;
  tr_raw_transcript : option str;
  tr_corrected_transcript : str;
  tr_status : str;
  tr_message : str
}.

Section transcript.
Context `{Runtime} `{Capabilities}.

(** [except HTTPException: raise] followed by
    [except Exception as e: raise HTTPException(500, str(e))]. *)
Definition reraise_http {A} (e : exn) : M A :=
  if is_HTTPException e then raise e
  else raise (HTTPException 500 (exn_str e)).

(** [transcript_storage[id].update({...})] *)
Definition session_update (new_transcript : str) (s : session) : session :=
  Session (raw_transcript s) (Some new_transcript) (Some (lit "updated"))
    (translated_transcript s) (voice_conversions s).

Definition update_transcript (id : str) (request_transcript : str)
    : M TranscriptResponse :=
  try_except
    (audios <- gets audio_storage;;
     (if negb (bool_decide (is_Some (audios !! id)))
      then raise (HTTPException 404 (lit "Audio not found")) else ret tt);;;
     let new_transcript := strip request_transcript in
     (if negb (truthy new_transcript)
      then raise (HTTPException 400 (lit "Transcript cannot be empty"))
      else ret tt);;;
     (* Check if transcript is Vietnamese *)
     checked <- utils.is_vietnamese_transcript new_transcript;;
     let '(is_vn, detected_lang) := checked in
     (if negb is_vn
      then detected <- utils.py_upper detected_lang;;
           raise (HTTPException 400
                    (lit "Transcript is not in Vietnamese. Detected: "
                       ++ detected
                       ++ lit ". Please provide Vietnamese text."))
      else ret tt);;;
     (* Update transcript *)
     storage <- gets transcript_storage;;
     (if negb (bool_decide (is_Some (storage !! id)))
      then modify (set_transcript_storage (insert id empty_session))
      else ret tt);;;
     modify (set_transcript_storage (alter (session_update new_transcript) id));;;
     storage <- gets transcript_storage;;
     ret {| tr_id := id;
            tr_raw_transcript := storage !! id ≫= raw_transcript;
            tr_corrected_transcript := new_transcript;
            tr_status := lit "updated";
            tr_message := lit "Transcript updated successfully" |})
    reraise_http.

End transcript.

Section get_transcript.
Context `{Runtime} `{Capabilities}.
(** The instance that [get_transcript_service()] returns. *)
Variable service : transcript_service.TranscriptService.

Definition process_audio_sync (audio_path : str)
    : M transcript_service.process_result :=
  try_except
    (transcript_service.process_audio service audio_path)
    (fun e =>
       ret (transcript_service.ProcessResult [] [] (lit "error")
              (Some (exn_str e)))).

(** [result["error"]]: a [KeyError] when the key is absent. *)
Definition result_error (result : transcript_service.process_result) : M str :=
  match transcript_service.res_error result with
  | Some error => ret error
  | None => raise (Raised (lit "KeyError") (repr_str (lit "error")))
  end.

Definition get_transcript (id : str) : M TranscriptResponse :=
  try_except
    (audios <- gets audio_storage;;
     storage <- gets transcript_storage;;
     (* Return cached transcript if exists *)
     match storage !! id with
     | Some stored =>
         (* Re-check language for cached transcripts *)
         let corrected_transcript := default [] (corrected_transcript stored) in
         (if truthy corrected_transcript then
            checked <- utils.is_vietnamese_transcript corrected_transcript;;
            let '(is_vn, detected_lang) := checked in
            if negb is_vn
            then detected <- utils.py_upper detected_lang;;
                 raise (HTTPException 400
                          (lit "Transcript is not in Vietnamese. Detected: "
                             ++ detected
                             ++ lit ". Please provide Vietnamese transcript."))
            else ret tt
          else ret tt);;;
         ret {| tr_id := id;
                tr_raw_transcript := raw_transcript stored;
                tr_corrected_transcript := corrected_transcript;
                tr_status := default (lit "completed") (status stored);
                tr_message := lit "Transcript retrieved successfully" |}
     | None =>
         (* Check audio exists *)
         (if negb (bool_decide (is_Some (audios !! id)))
          then raise (HTTPException 404 (lit "Audio not found")) else ret tt);;;
         (* Get audio file and process *)
         audio_file_path <- utils.get_audio_file id;;
         present <- os_path_exists audio_file_path;;
         (if negb present
          then raise (HTTPException 404 (lit "Audio file not found"))
          else ret tt);;;
         (* Process audio *)
         result <- process_audio_sync audio_file_path;;
         (* Handle language error *)
         (if str_eqb (transcript_service.res_status result) (lit "language_error")
          then error <- result_error result;;
               raise (HTTPException 400 error)
          else ret tt);;;
         (if str_eqb (transcript_service.res_status result) (lit "error")
          then error <- result_error result;;
               raise (HTTPException 500 error)
          else ret tt);;;
         (* Store successful result *)
         modify (set_transcript_storage
                   (insert id
                      (Session
                         (Some (transcript_service.res_raw_transcript result))
                         (Some (transcript_service.res_corrected_transcript result))
                         (Some (lit "completed")) None None)));;;
         ret {| tr_id := id;
                tr_raw_transcript :=
                  Some (transcript_service.res_raw_transcript result);
                tr_corrected_transcript :=
                  transcript_service.res_corrected_transcript result;
                tr_status := lit "completed";
                tr_message := lit "Transcript generated successfully" |}
     end)
    reraise_http.

End get_transcript.
End transcript.

(** ** backend/routers/conversion.py *)

Module conversion.

Record TranslationResponse := {
  tl_id : str;
  tl_translated_text : str;
  tl_message : str
}.

Record VoiceConversionResponse := {
  vc_id : str;
  vc_converted_audio_url : str;
  vc_audio_file_path : str;
  vc_target_language : str;
  vc_synthesized_text : str;
  vc_message : str
}.

(** [transcripts[id]["translated_transcript"] = translated] *)
Definition set_translated (translated : str) (s : session) : session :=
  Session (raw_transcript s) (corrected_transcript s) (status s)
    (Some translated) (voice_conversions s).

(** [transcripts[id]["voice_conversions"] = {}] when the key is absent,
    then [transcripts[id]["voice_conversions"][language] = record]. *)
Definition set_voice_conversion
    (language : str) (record : conversion_record) (s : session) : session :=
  Session (raw_transcript s) (corrected_transcript s) (status s)
    (translated_transcript s)
    (Some (<[language := record]> (default ∅ (voice_conversions s)))).

(** [transcripts[id]]: a [KeyError] when the id is absent. *)
Definition get_item (id : str) : M session :=
  transcripts <- gets transcript_storage;;
  match transcripts !! id with
  | Some s => ret s
  | None => raise (Raised (lit "KeyError") (repr_str id))
  end.

(** The output path that [synthesize_voice] builds from the hexadecimal
    digits of a fresh uuid: the file name under the static directory for
    converted audio, with forward slashes. *)
Definition converted_output_path (hex language : str) : str :=
  let static_dir := lit "static/converted" in
  let filename :=
    lit "converted_" ++ take 8 hex ++ lit "_" ++ language ++ lit ".wav" in
  replace [92%N] [47%N] (path_join static_dir filename).

Section conversion.
Context `{Runtime} `{Capabilities}.
(** The instance that [get_translation_service()] returns. *)
Variable translation_service : translation_service.TranslatorService.

Definition translate_sync (vietnamese_text target_lang : str) : M str :=
  translation_service.translate translation_service vietnamese_text target_lang.

Definition synthesize_voice (audio_path text language : str) : M str :=
  (* Generate unique filename *)
  n <- draw;;
  let output_path := converted_output_path (uuid4 n) language in
  try_except
    (result_path <- conversion_service.synthesize text audio_path
                      output_path language;;
     (* Normalize the result path *)
     let result_path := replace [92%N] [47%N] result_path in
     (* Verify file exists *)
     present <- os_path_exists result_path;;
     (if negb present
      then raise (FileNotFoundError
                    (lit "Synthesized audio file not created: " ++ result_path))
      else ret tt);;;
     (* Get file size for verification *)
     file_size <- os_path_getsize result_path;;
     ret result_path)
    (fun e => raise e).

Definition translate_text_only (id : str) (target_language : str)
    : M TranslationResponse :=
  transcripts <- gets transcript_storage;;
  match transcripts !! id with
  | None => raise (HTTPException 404 (lit "Transcript not found"))
  | Some stored =>
      let vietnamese_text :=
        py_or (corrected_transcript stored)
              (default [] (raw_transcript stored)) in
      if negb (truthy vietnamese_text)
      then raise (HTTPException 400 (lit "No transcript to translate"))
      else
        try_except
          (translated <- translate_sync vietnamese_text target_language;;
           (* Store translated text *)
           get_item id;;;
           modify (set_transcript_storage (alter (set_translated translated) id));;;
           ret {| tl_id := id;
                  tl_translated_text := translated;
                  tl_message := lit "Translation successful" |})
          (fun e => raise (HTTPException 500 (lit "Translation failed")))
  end.

Definition convert_voice_with_language
    (id : str) (target_language : str) (request_text : option str)
    : M VoiceConversionResponse :=
  transcripts <- gets transcript_storage;;
  audios <- gets audio_storage;;
  match transcripts !! id with
  | None => raise (HTTPException 404 (lit "Transcript not found"))
  | Some stored =>
      if negb (bool_decide (is_Some (audios !! id)))
      then raise (HTTPException 404 (lit "Audio not found"))
      else
        (* Determine text to synthesize *)
        let text_to_synthesize :=
          if truthy_opt request_text then default [] request_text
          else
            (* Try to get translated text first *)
            let translated_text := translated_transcript stored in
            if truthy_opt translated_text then default [] translated_text
            else
              (* Fallback to original transcript *)
              py_or (corrected_transcript stored)
                    (default [] (raw_transcript stored)) in
        if negb (truthy text_to_synthesize)
        then raise (HTTPException 400
                      (lit "No text available for synthesis. Please provide text or translate first."))
        else
          try_except
            ((* Get original audio file *)
             audio_path <- utils.get_audio_file id;;
             (* Synthesize voice with translated text and target language *)
             synth_path <- synthesize_voice audio_path text_to_synthesize
                             target_language;;
             present <- os_path_exists synth_path;;
             (if negb present
              then raise (HTTPException 500 (lit "Synthesized audio not found"))
              else ret tt);;;
             (* Create a URL for the converted audio *)
             let relative_path :=
               replace [92%N] [47%N] (replace (lit "static/") [] synth_path) in
             let converted_audio_url := lit "/static/" ++ relative_path in
             (* Verify the file is accessible *)
             file_size <- os_path_getsize synth_path;;
             (* Store synthesis info *)
             get_item id;;;
             modify (set_transcript_storage
                       (alter (set_voice_conversion target_language
                                 (ConversionRecord synth_path text_to_synthesize
                                    converted_audio_url)) id));;;
             ret {| vc_id := id;
                    vc_converted_audio_url := converted_audio_url;
                    vc_audio_file_path := synth_path;
                    vc_target_language := target_language;
                    vc_synthesized_text := text_to_synthesize;
                    vc_message := lit "Voice conversion successful" |})
            (fun e =>
               if is_FileNotFoundError e
               then raise (HTTPException 404 (lit "Audio file not found on disk"))
               else raise (HTTPException 500
                             (lit "Voice conversion failed: " ++ exn_str e)))
  end.

End conversion.
End conversion.

(** ** The specification's wording, for comparison with the code *)

Module spec.

(** Language-code normalisation as a three-step policy over a table:
    exact match, else the first entry that [matches], else the baseline. *)
Definition normalize (lower : str -> str) (matches : str -> str -> bool)
    (table : list (str * str)) (language : str) : str :=
  let input := strip (lower language) in
  match List.find (fun '(key, _) => str_eqb input key) table with
  | Some (_, code) => code
  | None =>
      match List.find (fun '(key, _) => matches input key) table with
      | Some (_, code) => code
      | None => lit "en"
      end
  end.

(** A prefix match: the input begins with the key (a locale suffix
    follows), or the key begins with the input (a partial name). *)
Definition prefix_match (input key : str) : bool :=
  startswith input key || startswith key input.

(** A prefix or contains match: one of the two occurs in the other. *)
Definition prefix_or_contains_match (input key : str) : bool :=
  prefix_match input key || contains input key || contains key input.

(** The text a voice conversion speaks: the first non-empty one of the
    caller's text, the stored translation, the corrected and the raw
    transcript. *)
Definition text_priority (request_text : option str) (stored : session) : str :=
  default []
    (head (filter (fun t => t ≠ [])
             (omap id [request_text; translated_transcript stored;
                       corrected_transcript stored; raw_transcript stored]))).

(** The extension of a file name is what follows its last dot; it is
    allow-listed when, in lower case, the name ends in a dot and one of
    the seven extensions. *)
Definition allowed_extensions : list str :=
  lit <$> ["wav"; "mp3"; "m4a"; "flac"; "ogg"; "aac"; "webm"]%string.

Definition has_allowed_extension (lower : str -> str) (filename : str) : Prop :=
  ∃ stem ext, lower filename = stem ++ lit "." ++ ext ∧ ext ∈ allowed_extensions.

(** The texts that a stretch of the call log gave to XTTS inference. *)
Definition inference_texts (l : list call) : list str :=
  omap (fun c => match c with CallInference t _ => Some t | _ => None end) l.

(** Every stored artifact holds some bytes. *)
Definition artifacts_nonempty (w : world) : Prop :=
  ∀ id a, audio_storage w !! id = Some a → content a ≠ [].

End spec.

(** ** A concrete environment, for running the model *)

Module demo.

Definition lower_char (c : char) : char :=
  if ((65 <=? c) && (c <=? 90) || (192 <=? c) && (c <=? 222) && negb (c =? 215))%N
  then (c + 32)%N else c.

Definition upper_char (c : char) : char :=
  if ((97 <=? c) && (c <=? 122) || (224 <=? c) && (c <=? 254) && negb (c =? 247))%N
  then (c - 32)%N else c.

Fixpoint take_while (f : char -> bool) (s : str) : str :=
  match s with
  | [] => []
  | c :: t => if f c then c :: take_while f t else []
  end.

(** [PurePosixPath(p).suffix]: of the last path component, from its last
    dot on, unless that dot is its first or its last character. *)
Definition posix_suffix (p : str) : str :=
  let name := reverse (take_while (fun c => negb (c =? 47)%N) (reverse p)) in
  let ext := reverse (take_while (fun c => negb (c =? 46)%N) (reverse name)) in
  if (0 <? length ext)%nat && (S (length ext) <? length name)%nat
  then 46%N :: ext else [].

Definition digit (n : nat) : char := N.of_nat (48 + n mod 10).

(** Case mapping of Basic Latin and Latin-1, POSIX paths, and fixed
    streams of identifiers. *)
Definition runtime : Runtime := {|
  lower := map lower_char;
  lower_nil := eq_refl;
  upper := map upper_char;
  suffix := posix_suffix;
  http_str := fun c d => lit (NilZero.string_of_uint (N.to_uint c)) ++ lit ": " ++ d;
  uuid4 := fun n => digit n :: lit "f3a91c07d2b4e1a8c5f60718293a4b5";
  temp_name := fun n => lit "k3x9q_v" ++ [digit n];
  TMP_MAX := 100;
  now := fun n => (1700000000 + N.of_nat n)%N;
  gettempdir := lit "/tmp";
  remove_error := fun p => None
|}.

(** The same runtime on a system that refuses to remove files. *)
Definition locking : Runtime := {|
  lower := @lower runtime;
  lower_nil := @lower_nil runtime;
  upper := @upper runtime;
  suffix := @suffix runtime;
  http_str := @http_str runtime;
  uuid4 := @uuid4 runtime;
  temp_name := @temp_name runtime;
  TMP_MAX := @TMP_MAX runtime;
  now := @now runtime;
  gettempdir := @gettempdir runtime;
  remove_error := fun p =>
    Some (lit "[WinError 32] The process cannot access the file because it is being used by another process")
|}.

(** Stand-ins for the models.  Detection answers EN for text that begins
    with "hello" and fails on text that begins with "?"; translation into
    Japanese fails; correction always fails; the decoders accept RIFF
    content only; XTTS renders the non-blank characters of the text, and
    the voice conversion behaves as [vc] says. *)
Definition capabilities
    (vc : bytes -> bytes -> option bytes * option exn) : Capabilities := {|
  detect := fun t =>
    if startswith t (lit "hello") then inr (PyStr (lit "EN"))
    else if startswith t (lit "?") then inl (RuntimeError (lit "no model"))
    else inr (PyStr (lit "VI"));
  translator := fun t src tgt =>
    if str_eqb tgt (lit "jpn_Jpan")
    then inl (RuntimeError (lit "CUDA out of memory"))
    else inr (lit "bonjour tout le monde");
  corrector := fun t => inl (RuntimeError (lit "CUDA out of memory"));
  from_file := fun b fmt => inr b;
  export_wav := fun b => inr b;
  sf_read := fun b frames =>
    if startswith b (lit "RIFF") then inr b
    else inl (Raised (lit "LibsndfileError") (lit "Format not recognised"));
  asr := fun b => inr (lit " xin chao cac ban ");
  get_conditioning_latents := fun b => inr b;
  inference := fun t l lat => inr (filter (fun c => isspace c = false) t);
  voice_conversion_to_file := vc
|}.

(** A voice conversion that writes its source waveform, one that writes
    nothing and reports no error, and one that raises. *)
Definition vc_writes (source_wav ref : bytes) : option bytes * option exn :=
  (Some source_wav, None).

Definition vc_silent (source_wav ref : bytes) : option bytes * option exn :=
  (None, None).

Definition vc_raises (source_wav ref : bytes) : option bytes * option exn :=
  (None, Some (RuntimeError (lit "CUDA out of memory"))).

Definition empty_world : world := World ∅ ∅ ∅ [] 0.

(** One uploaded artifact [a1] with its backing file, and its session. *)
Definition artifact_path (name : string) : str :=
  lit "/tmp/audio_uploads/" ++ lit name.

Definition one_artifact (name : string) (body : bytes) (s : session) : world :=
  World {[ artifact_path name := body ]}
        {[ lit "a1" := AudioData (lit "a1") (Some (lit name)) body
                         (Some (lit "audio/wav")) (artifact_path name) 1700000000 ]}
        {[ lit "a1" := s ]}
        [] 0.

Definition completed (raw corrected : string) : session :=
  Session (Some (lit raw)) (Some (lit corrected)) (Some (lit "completed")) None None.

(** The same stand-ins with an ASR model that hears a short utterance. *)
Definition short_speech : Capabilities := {|
  detect := @detect (capabilities vc_writes);
  translator := @translator (capabilities vc_writes);
  corrector := @corrector (capabilities vc_writes);
  from_file := @from_file (capabilities vc_writes);
  export_wav := @export_wav (capabilities vc_writes);
  sf_read := @sf_read (capabilities vc_writes);
  asr := fun b => inr (lit "xin chao");
  get_conditioning_latents := @get_conditioning_latents (capabilities vc_writes);
  inference := @inference (capabilities vc_writes);
  voice_conversion_to_file := vc_writes
|}.


Definition loaded : transcript_service.TranscriptService :=
  {| transcript_service.asr_loaded := true;
     transcript_service.correction_loaded := true |}.

End demo.

(** ** backend/main.py: the routes of the three routers

    [app.include_router] mounts the handlers of audios.py, transcript.py
    and conversion.py; a request is one of their six routes with its
    parameters.  The routes that main.py defines itself (the root, the
    health check and the cleanup, which like the shutdown hook empties
    directories and the audio storage of the module [backend.utils]) are
    not part of the model. *)

Module main.

Inductive request :=
| PostAudio (file : audios.UploadFile)
| GetConversion (id : str)
| GetTranscript (id : str)
| PutTranscript (id transcript : str)
| PostTranslate (id target_language : str)
| PostVoiceConversion (id target_language : str) (text : option str).

Section main.
Context `{Runtime} `{Capabilities}.
Variable transcript_service : transcript_service.TranscriptService.
Variable translation_service : translation_service.TranslatorService.

(** The world after a request has been handled, whatever it answered. *)
Definition serve (req : request) (w : world) : world :=
  match req with
  | PostAudio file => (audios.upload_audio file w).2
  | GetConversion id => (audios.download_audio id w).2
  | GetTranscript id => (transcript.get_transcript transcript_service id w).2
  | PutTranscript id text => (transcript.update_transcript id text w).2
  | PostTranslate id lang =>
      (conversion.translate_text_only translation_service id lang w).2
  | PostVoiceConversion id lang text =>
      (conversion.convert_voice_with_language id lang text w).2
  end.

(** Requests handled one after the other. *)
Definition serve_all (reqs : list request) (w : world) : world :=
  fold_left (fun w req => serve req w) reqs w.

End main.
End main.

(** ** Predicates on worlds and call logs, for the properties below *)

Module facts.

(** Every Session belongs to a stored Artifact. *)
Definition sessions_have_artifacts (w : world) : Prop :=
  ∀ id, is_Some (transcript_storage w !! id) → is_Some (audio_storage w !! id).

(** A file that exists in [w] is in [w'] with the same content. *)
Definition keeps_files (w w' : world) : Prop :=
  ∀ p b, fs w !! p = Some b → fs w' !! p = Some b.

(** The two worlds hold the same stores and files; the call log and the
    count of draws may differ. *)
Definition same_state (w w' : world) : Prop :=
  fs w' = fs w ∧ audio_storage w' = audio_storage w
  ∧ transcript_storage w' = transcript_storage w.

Definition is_model_call (c : call) : bool :=
  match c with
  | CallASR _ | CallCorrector _ | CallTranslator _ _ _ | CallLatents _
  | CallInference _ _ | CallVoiceConversion _ _ => true
  | CallDetect _ => false
  end.

End facts.

(** * Properties *)

(** ** Strings *)

Lemma lstrip_idem (s : str) : lstrip (lstrip s) = lstrip s.
Proof.
  induction s as [|c t IH]; simpl; [done|].
  destruct (isspace c) eqn:Hc; [done|]. simpl. by rewrite Hc.
Qed.

Lemma lstrip_head (s : str) :
  lstrip s = [] ∨ ∃ c t, lstrip s = c :: t ∧ isspace c = false.
Proof.
  induction s as [|c t IH]; simpl; [by left|].
  destruct (isspace c) eqn:Hc; [done|]. right. by exists c, t.
Qed.

Lemma rstrip_cons_nonspace (c : char) (t : str) :
  isspace c = false → rstrip (c :: t) = c :: rstrip t.
Proof. intros Hc. simpl. rewrite Hc. by destruct (rstrip t). Qed.

Lemma lstrip_rstrip_lstrip (s : str) : lstrip (rstrip (lstrip s)) = rstrip (lstrip s).
Proof.
  destruct (lstrip_head s) as [->|(c & t & -> & Hc)]; [done|].
  rewrite rstrip_cons_nonspace by done. simpl. by rewrite Hc.
Qed.

Lemma rstrip_idem (s : str) : rstrip (rstrip s) = rstrip s.
Proof.
  induction s as [|c t IH]; [done|]. simpl.
  destruct (rstrip t) as [|d r] eqn:Hr.
  - destruct (isspace c) eqn:Hc; [done|]. simpl. by rewrite Hc.
  - change (rstrip (c :: d :: r) = c :: d :: r).
    simpl. simpl in IH. destruct (rstrip r) eqn:Hr'.
    + destruct (isspace d); [done|]. by inversion IH.
    + by inversion IH.
Qed.

(** Trimming twice is trimming once. *)
Lemma strip_idem (s : str) : strip (strip s) = strip s.
Proof. unfold strip. by rewrite lstrip_rstrip_lstrip, rstrip_idem. Qed.

Lemma truthy_false (s : str) : truthy s = false ↔ s = [].
Proof.
  unfold truthy, str_eqb. rewrite negb_false_iff. apply bool_decide_eq_true.
Qed.

Lemma truthy_true (s : str) : truthy s = true ↔ s ≠ [].
Proof.
  unfold truthy, str_eqb. rewrite negb_true_iff. apply bool_decide_eq_false.
Qed.

Lemma startswith_spec (s p : str) : startswith s p = true ↔ ∃ t, s = p ++ t.
Proof.
  revert s. induction p as [|a p IH]; intros s; simpl.
  - split; [by exists s|done].
  - destruct s as [|b s]; [split; [done|by intros [t ?]]|].
    rewrite andb_true_iff, N.eqb_eq, IH. split.
    + intros [-> [t ->]]. by exists t.
    + intros [t Ht]. inversion Ht; subst. eauto.
Qed.

Lemma endswith_spec (s p : str) : endswith s p = true ↔ ∃ t, s = t ++ p.
Proof.
  unfold endswith. rewrite startswith_spec. split.
  - intros [t Ht]. exists (reverse t).
    apply (inj reverse). by rewrite Ht, reverse_app, reverse_involutive.
  - intros [t ->]. exists (reverse t). by rewrite reverse_app.
Qed.

(** Unfolds the monad so that a handler becomes a nest of matches. *)
Ltac run :=
  unfold bind, ret, raise, gets, modify, try_except, lift in *; cbn in *.

(** ** The monad *)

Lemma bind_Ok {A B} (m : M A) (k : A → M B) (w w' : world) (b : B) :
  bind m k w = (Ok b, w') → ∃ a w1, m w = (Ok a, w1) ∧ k a w1 = (Ok b, w').
Proof. unfold bind. destruct (m w) as [[a|e] w1]; [eauto|done]. Qed.

Lemma bind_run {A B} (m : M A) (k : A → M B) (w w1 : world) (a : A) :
  m w = (Ok a, w1) → bind m k w = k a w1.
Proof. unfold bind. by intros ->. Qed.

Lemma bind_raise {A B} (m : M A) (k : A → M B) (w w1 : world) (e : exn) :
  m w = (Raise e, w1) → bind m k w = (Raise e, w1).
Proof. unfold bind. by intros ->. Qed.

Lemma try_except_reraise {A} (m : M A) (w : world) :
  try_except m (λ e, raise e) w = m w.
Proof. unfold try_except, raise. by destruct (m w) as [[a|e] w1]. Qed.

(** ** C1: the short-text policy of the Language Guard *)

Section language_guard.
Context `{Runtime} `{Capabilities}.

(** For a text of ten characters or more after trimming, the detector
    is consulted exactly once, on the trimmed text: the call log is how
    the model observes a consultation. *)
Lemma guard_consults_detector_on_long_text (transcript : str) (w : world) :
  10 ≤ length (strip transcript) →
  calls (utils.is_vietnamese_transcript transcript w).2
    = calls w ++ [CallDetect (strip transcript)].
Proof.
  intros Hlen. unfold utils.is_vietnamese_transcript.
  assert (transcript ≠ []) as Hne by (intros ->; simpl in Hlen; lia).
  apply truthy_true in Hne. rewrite Hne. simpl.
  destruct (Nat.ltb_spec (length (strip transcript)) 10) as [?|_]; [lia|].
  unfold try_except, utils.call_detect, bind, modify, lift. simpl.
  by destruct (detect (strip transcript)).
Qed.

(** C1. A text whose trimmed length is below ten characters, the empty
    text included, is classified (false, "text_too_short") whatever it
    contains, and the world is returned as it was: in particular the
    call log has no new entry, so the detector was not consulted. *)
Theorem guard_rejects_short_text (transcript : str) (w : world) :
  length (strip transcript) < 10 →
  utils.is_vietnamese_transcript transcript w
    = (Ok (false, PyStr (lit "text_too_short")), w).
Proof.
  intros Hlen. unfold utils.is_vietnamese_transcript.
  destruct (Nat.ltb_spec (length (strip transcript)) 10) as [_|?]; [|lia].
  by rewrite orb_true_r.
Qed.

End language_guard.

(** "xin chao" has eight characters, padded with blanks here. *)
Lemma guard_rejects_short_text_witness :
  length (strip (lit "  xin chao   ")) < 10 ∧
  @utils.is_vietnamese_transcript (demo.capabilities demo.vc_writes)
      (lit "  xin chao   ") demo.empty_world
    = (Ok (false, PyStr (lit "text_too_short")), demo.empty_world).
Proof.
  split; [vm_compute; lia|].
  apply guard_rejects_short_text. vm_compute; lia.
Defined.

(** ** C2: a failed stage writes nothing *)

Section failed_stage.
Context `{Runtime} `{Capabilities}.
Variable service : translation_service.TranslatorService.

(** The guard never raises and only the call log can change. *)
Lemma guard_frame (t : str) (w : world) :
  ∃ b c w', utils.is_vietnamese_transcript t w = (Ok (b, c), w')
    ∧ fs w' = fs w ∧ audio_storage w' = audio_storage w
    ∧ transcript_storage w' = transcript_storage w ∧ tick w' = tick w.
Proof.
  unfold utils.is_vietnamese_transcript.
  destruct (_ || _); [by eexists _, _, _|].
  unfold utils.call_detect. run.
  destruct (detect (strip t)); by eexists _, _, _.
Qed.

Lemma update_transcript_failure (id text : str) (w w' : world) (e : exn) :
  transcript.update_transcript id text w = (Raise e, w') →
  is_HTTPException e = true ∧ transcript_storage w' = transcript_storage w
  ∧ audio_storage w' = audio_storage w ∧ fs w' = fs w.
Proof.
  unfold transcript.update_transcript, transcript.reraise_http. run.
  destruct (negb (bool_decide (is_Some (audio_storage w !! id)))).
  { by intros [= <- <-]. }
  destruct (negb (truthy (strip text))).
  { by intros [= <- <-]. }
  destruct (guard_frame (strip text) w) as (b & c & w1 & -> & Hfs & Ha & Ht & Hk).
  destruct b; simpl.
  - destruct (negb _); simpl; intros [=].
  - unfold utils.py_upper. by destruct c; run; intros [= <- <-].
Qed.

(** The service's [translate] only adds to the call log. *)
Lemma translate_frame (text target : str) (w : world) :
  let '(_, w') := translation_service.translate service text target w in
  fs w' = fs w ∧ audio_storage w' = audio_storage w
  ∧ transcript_storage w' = transcript_storage w ∧ tick w' = tick w.
Proof.
  unfold translation_service.translate.
  destruct (dict_get _ _); [|done].
  unfold translation_service.call_translator. run.
  by destruct (translator _ _ _).
Qed.

Lemma translate_text_only_failure (id lang : str) (w w' : world) (e : exn) :
  conversion.translate_text_only service id lang w = (Raise e, w') →
  is_HTTPException e = true ∧ transcript_storage w' = transcript_storage w
  ∧ audio_storage w' = audio_storage w ∧ fs w' = fs w.
Proof.
  unfold conversion.translate_text_only, conversion.translate_sync,
    conversion.get_item.
  unfold bind at 1. unfold gets at 1.
  destruct (transcript_storage w !! id) as [stored|] eqn:Hid.
  2:{ by intros [= <- <-]. }
  destruct (negb (truthy _)).
  { by intros [= <- <-]. }
  pose proof (translate_frame
    (py_or (corrected_transcript stored) (default [] (raw_transcript stored)))
    lang w) as Hfr.
  run.
  destruct (translation_service.translate _ _ _ w) as [[translated|e0] w1].
  - destruct Hfr as (? & ? & Ht & ?). rewrite Ht, Hid. simpl. intros [=].
  - intros [= <- <-]. by destruct Hfr as (? & ? & ? & ?).
Qed.

(** Rejection by the guard is such a failure: status 400, with the
    detected code in the detail. *)
Lemma update_transcript_rejected (id text code : str) (w w1 : world) :
  is_Some (audio_storage w !! id) →
  strip text ≠ [] →
  utils.is_vietnamese_transcript (strip text) w = (Ok (false, PyStr code), w1) →
  transcript.update_transcript id text w
    = (Raise (HTTPException 400
                (lit "Transcript is not in Vietnamese. Detected: "
                   ++ upper code ++ lit ". Please provide Vietnamese text.")),
       w1).
Proof.
  intros Ha Hne Hg.
  unfold transcript.update_transcript, transcript.reraise_http. run.
  rewrite bool_decide_true by done. simpl.
  apply truthy_true in Hne. rewrite Hne. simpl. by rewrite Hg.
Qed.

(** A failing translation capability is such a failure: status 500. *)
Lemma translate_text_only_capability_failure
    (id lang tgt : str) (stored : session) (e : exn) (w : world) :
  let text := py_or (corrected_transcript stored)
                (default [] (raw_transcript stored)) in
  transcript_storage w !! id = Some stored →
  text ≠ [] →
  dict_get
    (translation_service.supported_languages service) lang = Some tgt →
  translator text (translation_service.src_lang service) tgt = inl e →
  conversion.translate_text_only service id lang w
    = (Raise (HTTPException 500 (lit "Translation failed")),
       log_call (CallTranslator text (translation_service.src_lang service) tgt) w).
Proof.
  intros text Hid Hne Hl He.
  unfold conversion.translate_text_only, conversion.translate_sync,
    translation_service.translate, translation_service.call_translator.
  run. rewrite Hid. fold text. apply truthy_true in Hne. rewrite Hne. simpl.
  by rewrite Hl, He.
Qed.

(** C2. Whenever an update-transcript request or a translate request
    fails, for whatever reason (a rejection by the Language Guard and a
    failing translation capability among them), the error is an
    HTTPException, and the Session store is the one the request found:
    every field of every Session has its prior value.  The Artifact store
    and the files are untouched as well. *)
Theorem failed_stage_leaves_session_untouched
    (id text lang : str) (w w' : world) (e : exn) :
  transcript.update_transcript id text w = (Raise e, w')
  ∨ conversion.translate_text_only service id lang w = (Raise e, w') →
  is_HTTPException e = true
  ∧ transcript_storage w' = transcript_storage w
  ∧ audio_storage w' = audio_storage w
  ∧ fs w' = fs w.
Proof.
  intros [Hu|Ht].
  - by apply update_transcript_failure in Hu.
  - by apply translate_text_only_failure in Ht.
Qed.

End failed_stage.

(** English text on the existing id [a1], and a translation into Japanese
    that the capability fails: both requests raise and the stored Session
    is the one they found. *)
Lemma failed_stage_leaves_session_untouched_witness :
  let R := demo.runtime in
  let C := demo.capabilities demo.vc_writes in
  let service := translation_service.TranslatorService_init in
  let w := demo.one_artifact "a.wav" (lit "RIFF")
             (demo.completed "xin chao cac ban" "xin chao cac ban.") in
  let rejected :=
    HTTPException 400
      (lit "Transcript is not in Vietnamese. Detected: EN. Please provide Vietnamese text.") in
  let w1 := log_call (CallDetect (lit "hello, how are you today")) w in
  let failed := HTTPException 500 (lit "Translation failed") in
  let w2 := log_call (CallTranslator (lit "xin chao cac ban.") (lit "vie_Latn")
                        (lit "jpn_Jpan")) w in
  (transcript.update_transcript (lit "a1") (lit "hello, how are you today") w
     = (Raise rejected, w1)
   ∧ transcript_storage w1 = transcript_storage w)
  ∧ (conversion.translate_text_only service (lit "a1") (lit "ja") w
       = (Raise failed, w2)
     ∧ transcript_storage w2 = transcript_storage w).
Proof.
  intros R C service w rejected w1 failed w2.
  assert (transcript.update_transcript (lit "a1") (lit "hello, how are you today") w
     = (Raise rejected, w1)) as Hu by (vm_compute; reflexivity).
  assert (conversion.translate_text_only service (lit "a1") (lit "ja") w
       = (Raise failed, w2)) as Ht by (vm_compute; reflexivity).
  split; (split; [assumption|]).
  - apply (failed_stage_leaves_session_untouched service
             (lit "a1") (lit "hello, how are you today") (lit "ja") w w1 rejected).
    by left.
  - apply (failed_stage_leaves_session_untouched service
             (lit "a1") (lit "hello") (lit "ja") w w2 failed).
    by right.
Defined.

(** ** C3: the post-condition of the Synthesis Stage *)

Lemma replace_char (a b : char) (s : str) :
  replace [a] [b] s = (λ c, if (a =? c)%N then b else c) <$> s.
Proof.
  unfold replace. induction s as [|c t IH]; [done|].
  simpl. rewrite andb_true_r. destruct (a =? c)%N; simpl; by rewrite IH.
Qed.

Lemma replace_slash_idem (s : str) :
  replace [92%N] [47%N] (replace [92%N] [47%N] s) = replace [92%N] [47%N] s.
Proof.
  rewrite !replace_char, <- list_fmap_compose. apply list_fmap_ext.
  intros _ c _. unfold compose. destruct (92 =? c)%N eqn:E; [done|]. by rewrite E.
Qed.

Section synthesis.
Context `{Runtime} `{Capabilities}.

(** The service returns the output path it was given, unchecked. *)
Lemma synthesize_returns_output_path
    (text ref out language p : str) (w w' : world) :
  conversion_service.synthesize text ref out language w = (Ok p, w') → p = out.
Proof.
  unfold conversion_service.synthesize, conversion_service.call_latents,
    conversion_service.call_inference, conversion_service.call_voice_conversion,
    os_path_exists, write_file.
  run. intros Hs. by repeat (case_match; run; simplify_eq).
Qed.

(** C3, as the code has it.  A successful [synthesize_voice] returns the
    output path it built and a file exists there; its size is read but
    not compared with zero.  When synthesis raised nothing and no file is
    at the output path, the stage raises FileNotFoundError "Synthesized
    audio file not created: <path>", and an exception raised during
    synthesis is re-raised as it is. *)
Theorem synthesize_voice_postcondition
    (audio_path text language : str) (w : world) :
  let out := conversion.converted_output_path (uuid4 (tick w)) language in
  let missing :=
    FileNotFoundError (lit "Synthesized audio file not created: " ++ out) in
  (∀ p w', conversion.synthesize_voice audio_path text language w = (Ok p, w') →
           p = out ∧ is_Some (fs w' !! out))
  ∧ (∀ r w',
       conversion_service.synthesize text audio_path out language (next_tick w)
         = (Ok r, w') →
       fs w' !! out = None →
       conversion.synthesize_voice audio_path text language w = (Raise missing, w'))
  ∧ (∀ e w',
       conversion_service.synthesize text audio_path out language (next_tick w)
         = (Raise e, w') →
       conversion.synthesize_voice audio_path text language w = (Raise e, w')).
Proof.
  intros out missing. subst missing.
  assert (replace [92%N] [47%N] out = out) as Hout
    by apply replace_slash_idem.
  unfold conversion.synthesize_voice, draw, os_path_exists, os_path_getsize.
  run. fold out. clearbody out.
  destruct (conversion_service.synthesize text audio_path out language
              (next_tick w)) as [[r|e] w1] eqn:Hs.
  - apply synthesize_returns_output_path in Hs as ->. rewrite Hout.
    destruct (fs w1 !! out) as [b|] eqn:Hf.
    + rewrite bool_decide_true by eauto. cbn. rewrite Hf. cbn.
      split; [|split]; [|congruence|congruence].
      intros p w' [= <- <-]. rewrite Hf. eauto.
    + rewrite bool_decide_false by (by intros [? ?]). cbn.
      split; [|split]; [congruence| |congruence].
      by intros r w' [= _ <-] _.
  - split; [|split]; [congruence|congruence|].
    by intros e' w' [= <- <-].
Qed.
End synthesis.

(** The claim as stated fails: for a blank text the stand-in XTTS renders
    an empty waveform, the voice conversion writes it, and the stage
    succeeds with an empty file at the output path. *)
Lemma synthesize_voice_accepts_empty_output :
  let R := demo.runtime in
  let C := demo.capabilities demo.vc_writes in
  let w := demo.one_artifact "a.wav" (lit "RIFF")
             (demo.completed "xin chao cac ban" "xin chao cac ban.") in
  let out := lit "static/converted/converted_0f3a91c0_fr.wav" in
  let res := conversion.synthesize_voice (demo.artifact_path "a.wav")
               (lit " ") (lit "fr") w in
  res.1 = Ok out ∧ fs res.2 !! out = Some [].
Proof. vm_compute. split; reflexivity. Qed.

(** A voice conversion that writes nothing and raises nothing: the stage
    fails with its own FileNotFoundError; one that writes: a file exists. *)
Lemma synthesize_voice_postcondition_witness :
  let R := demo.runtime in
  let w := demo.one_artifact "a.wav" (lit "RIFF")
             (demo.completed "xin chao cac ban" "xin chao cac ban.") in
  let ref := demo.artifact_path "a.wav" in
  let out := lit "static/converted/converted_0f3a91c0_fr.wav" in
  let w' := World (fs w) (audio_storage w) (transcript_storage w)
              [CallLatents ref; CallInference (lit "bonjour") (lit "fr");
               CallVoiceConversion ref out] 1 in
  fs w' !! out = None
  ∧ @conversion.synthesize_voice R (demo.capabilities demo.vc_silent)
        ref (lit "bonjour") (lit "fr") w
      = (Raise (FileNotFoundError
                  (lit "Synthesized audio file not created: " ++ out)), w')
  ∧ is_Some (fs (@conversion.synthesize_voice R (demo.capabilities demo.vc_writes)
                   ref (lit "bonjour") (lit "fr") w).2 !! out).
Proof.
  intros R w ref out w'.
  assert (fs w' !! out = None) as Hnone by (vm_compute; reflexivity).
  split; [exact Hnone|]. split.
  - apply (proj1 (proj2 (@synthesize_voice_postcondition R
             (demo.capabilities demo.vc_silent) ref (lit "bonjour") (lit "fr") w))
             out w'); [vm_compute; reflexivity|exact Hnone].
  - eapply (proj1 (@synthesize_voice_postcondition R
              (demo.capabilities demo.vc_writes) ref (lit "bonjour") (lit "fr") w)
              out).
    vm_compute. reflexivity.
Defined.

(** ** C4: language-code normalisation *)

Lemma dict_get_find {V} (d : list (str * V)) (k : str) :
  dict_get d k
    = snd <$> List.find (λ '(key, _), str_eqb k key) d.
Proof.
  induction d as [|[key v] d IH]; [done|]. simpl.
  by destruct (str_eqb k key).
Qed.

Lemma partial_match_find (d : list (str * str)) (l : str) :
  conversion_service.partial_match d l
    = snd <$> List.find (λ '(key, _), spec.prefix_match l key) d.
Proof.
  induction d as [|[key v] d IH]; [done|]. simpl. unfold spec.prefix_match at 1.
  by destruct (_ || _).
Qed.

Lemma find_value_in {V} (f : str * V → bool) (d : list (str * V)) (kv : str * V) :
  List.find f d = Some kv → kv.2 ∈ d.*2.
Proof.
  intros Hf. apply find_some in Hf as [Hin _].
  apply list_elem_of_fmap. exists kv. split; [done|]. by apply list_elem_of_In.
Qed.

Lemma supported_codes (c : str) :
  c ∈ conversion_service.SUPPORTED_LANGUAGES.*2 → c ∈ [lit "en"; lit "ja"; lit "fr"].
Proof.
  revert c. apply Forall_forall. apply (bool_decide_unpack _). by vm_compute.
Qed.

(** C4, as the code has it.  For every input and every case mapping,
    [_normalize_language_code] is the three-step policy in which the
    second step is a prefix match in either direction, taken in table
    order; it is a total function and its value is one of en, ja, fr. *)
Theorem normalize_language_code_policy `{Runtime} (language : str) :
  conversion_service._normalize_language_code language
    = spec.normalize lower spec.prefix_match
        conversion_service.SUPPORTED_LANGUAGES language
  ∧ conversion_service._normalize_language_code language
      ∈ [lit "en"; lit "ja"; lit "fr"].
Proof.
  assert (conversion_service._normalize_language_code language
    = spec.normalize lower spec.prefix_match
        conversion_service.SUPPORTED_LANGUAGES language) as Heq.
  { unfold conversion_service._normalize_language_code, spec.normalize.
    destruct (truthy language) eqn:Ht; cbn [negb].
    - rewrite dict_get_find, partial_match_find.
      destruct (List.find _ _) as [[? ?]|]; [done|].
      cbn [fmap option_fmap option_map].
      by destruct (List.find _ _) as [[? ?]|].
    - apply truthy_false in Ht as ->. rewrite lower_nil. by vm_compute. }
  split; [done|]. rewrite Heq. unfold spec.normalize.
  destruct (List.find (λ '(key, _), str_eqb _ key) _) as [[k c]|] eqn:He.
  { apply supported_codes. by apply find_value_in in He. }
  destruct (List.find (λ '(key, _), spec.prefix_match _ key) _)
    as [[k c]|] eqn:Hp.
  { apply supported_codes. by apply find_value_in in Hp. }
  constructor.
Qed.

(** The claim as stated fails on the contains match: "xja" contains the
    key "ja", so a policy with a contains match answers ja, while the code
    finds no key that begins "xja" or that "xja" begins, and answers en. *)
Lemma normalize_language_code_ignores_contained_key :
  let R := demo.runtime in
  spec.normalize lower spec.prefix_or_contains_match
      conversion_service.SUPPORTED_LANGUAGES (lit "xja") = lit "ja"
  ∧ conversion_service._normalize_language_code (lit "xja") = lit "en".
Proof. vm_compute. split; reflexivity. Qed.

(** ** C5: a failing correction degrades to the raw transcript *)

Section transcription.
Context `{Runtime} `{Capabilities}.
Variable self : transcript_service.TranscriptService.

(** A transcript that [transcribe] returns comes from a loaded ASR model
    and is trimmed. *)
Lemma transcribe_ok (audio_path raw : str) (w w1 : world) :
  transcript_service.transcribe self audio_path w = (Ok raw, w1) →
  transcript_service.asr_loaded self = true ∧ strip raw = raw.
Proof.
  unfold transcript_service.transcribe. rewrite try_except_reraise.
  intros Ht. apply bind_Ok in Ht as ([] & w0 & Hl & Ht). split.
  { by destruct (transcript_service.asr_loaded self). }
  do 5 (apply bind_Ok in Ht as (? & ? & _ & Ht)).
  apply bind_Ok in Ht as (r & ? & _ & Ht).
  injection Ht as <- _. apply strip_idem.
Qed.

(** C5. When the ASR step returns a raw transcript and the correction
    model is not loaded, or its invocation on that transcript raises,
    [process_audio] returns status "success" with the raw transcript,
    unmodified, as the corrected transcript. *)
Theorem correction_failure_degrades_to_raw
    (audio_path raw : str) (w w1 : world) :
  transcript_service.transcribe self audio_path w = (Ok raw, w1) →
  transcript_service.correction_loaded self = false
    ∨ (∃ e, corrector raw = inl e) →
  ∃ w2,
    transcript_service.process_audio self audio_path w
      = (Ok (transcript_service.ProcessResult raw raw (lit "success") None), w2)
    ∧ (w2 = w1 ∨ w2 = log_call (CallCorrector raw) w1).
Proof.
  intros Ht Hc. destruct (transcribe_ok _ _ _ _ Ht) as [Hasr Hstrip].
  unfold transcript_service.process_audio, transcript_service.correct_text,
    transcript_service.call_corrector.
  run. rewrite Hasr. cbn. rewrite Ht. cbn. rewrite Hstrip.
  destruct (truthy raw) eqn:Hraw; cbn.
  2:{ apply truthy_false in Hraw as ->. eauto. }
  destruct (transcript_service.correction_loaded self) eqn:Hl; cbn; [|eauto].
  destruct Hc as [?|[e He]]; [done|]. rewrite He. cbn. eauto.
Qed.

End transcription.

(** Both models are loaded, the transcript is "xin chao cac ban", and the
    stand-in corrector raises: the result is a success with that text
    twice. *)
Lemma correction_failure_degrades_to_raw_witness :
  let R := demo.runtime in
  let C := demo.capabilities demo.vc_writes in
  let self := {| transcript_service.asr_loaded := true;
                 transcript_service.correction_loaded := true |} in
  let w := demo.one_artifact "a.wav" (lit "RIFF") empty_session in
  let w1 := log_call (CallASR (lit "RIFF")) w in
  let raw := lit "xin chao cac ban" in
  transcript_service.transcribe self (demo.artifact_path "a.wav") w = (Ok raw, w1)
  ∧ (∃ e, corrector raw = inl e)
  ∧ ∃ w2,
      transcript_service.process_audio self (demo.artifact_path "a.wav") w
        = (Ok (transcript_service.ProcessResult raw raw (lit "success") None), w2)
      ∧ (w2 = w1 ∨ w2 = log_call (CallCorrector raw) w1).
Proof.
  intros R C self w w1 raw.
  assert (transcript_service.transcribe self (demo.artifact_path "a.wav") w
          = (Ok raw, w1)) as Ht by (vm_compute; reflexivity).
  assert (∃ e, corrector raw = inl e) as Hc
    by (exists (RuntimeError (lit "CUDA out of memory")); reflexivity).
  split; [exact Ht|]. split; [exact Hc|].
  apply (correction_failure_degrades_to_raw self _ raw w w1 Ht). by right.
Defined.

(** ** C6: the target-language gate of the Translation Stage *)

Section translation.
Context `{Runtime} `{Capabilities}.

(** C6. For a target code outside en, ja, fr, [translate] raises a
    ValueError whose message names the code and the three allowed ones,
    and the world, call log included, is as it was: the capability is not
    invoked.  For a code of the set, the capability is invoked exactly
    once, with the source code vie_Latn, and its outcome is the call's. *)
Theorem translate_target_gate (text target : str) (w : world) :
  let self := translation_service.TranslatorService_init in
  (target ∉ [lit "en"; lit "ja"; lit "fr"] →
   translation_service.translate self text target w
     = (Raise (ValueError (lit "Unsupported target language '" ++ target
                             ++ lit "'. Choose from: ['en', 'ja', 'fr']")), w))
  ∧ (target ∈ [lit "en"; lit "ja"; lit "fr"] →
     ∃ tgt_lang,
       (target, tgt_lang) ∈ translation_service.supported_languages self
       ∧ translation_service.translate self text target w
         = (match translator text (lit "vie_Latn") tgt_lang with
            | inr translated => Ok translated
            | inl e => Raise e
            end,
            log_call (CallTranslator text (lit "vie_Latn") tgt_lang) w)).
Proof.
  intros self.
  assert (lit "'. Choose from: "
            ++ repr_list (translation_service.supported_languages self).*1
          = lit "'. Choose from: ['en', 'ja', 'fr']") as Hmsg by reflexivity.
  unfold translation_service.translate, translation_service.call_translator.
  split.
  - intros Hn.
    assert (dict_get
              (translation_service.supported_languages self) target = None) as ->.
    { cbn. unfold str_eqb.
      rewrite !bool_decide_false; [done|..]; intros ->; apply Hn;
        repeat constructor. }
    by rewrite Hmsg.
  - intros Hin. apply list_elem_of_In in Hin.
    destruct Hin as [<-|[<-|[<-|[]]]].
    + exists (lit "eng_Latn"). split; [by repeat constructor|].
      change (dict_get _ (lit "en")) with (Some (lit "eng_Latn")).
      run. by destruct (translator _ _ _).
    + exists (lit "jpn_Jpan"). split; [by repeat constructor|].
      change (dict_get _ (lit "ja")) with (Some (lit "jpn_Jpan")).
      run. by destruct (translator _ _ _).
    + exists (lit "fra_Latn"). split; [by repeat constructor|].
      change (dict_get _ (lit "fr")) with (Some (lit "fra_Latn")).
      run. by destruct (translator _ _ _).
Qed.
End translation.

(** The code de is refused without a call; fr is translated by one call. *)
Lemma translate_target_gate_witness :
  let R := demo.runtime in
  let C := demo.capabilities demo.vc_writes in
  let self := translation_service.TranslatorService_init in
  translation_service.translate self (lit "xin chao cac ban") (lit "de")
      demo.empty_world
    = (Raise (ValueError
                (lit "Unsupported target language 'de'. Choose from: ['en', 'ja', 'fr']")),
       demo.empty_world)
  ∧ ∃ tgt_lang,
      (lit "fr", tgt_lang) ∈ translation_service.supported_languages self
      ∧ translation_service.translate self (lit "xin chao cac ban") (lit "fr")
          demo.empty_world
        = (match translator (lit "xin chao cac ban") (lit "vie_Latn") tgt_lang with
           | inr translated => Ok translated
           | inl e => Raise e
           end,
           log_call (CallTranslator (lit "xin chao cac ban") (lit "vie_Latn")
                       tgt_lang) demo.empty_world).
Proof.
  intros R C self. split.
  - apply (proj1 (translate_target_gate (lit "xin chao cac ban") (lit "de")
                    demo.empty_world)).
    apply (bool_decide_unpack _). by vm_compute.
  - apply (proj2 (translate_target_gate (lit "xin chao cac ban") (lit "fr")
                    demo.empty_world)).
    apply (bool_decide_unpack _). by vm_compute.
Defined.

(** ** C7 and C10: the upload gate *)

Section upload.
Context `{Runtime} `{Capabilities}.

(** The code's test on the end of the lower-cased name is the
    specification's test on the extension. *)
Lemma check_format_spec (name : str) :
  existsb (λ fmt, endswith (lower name) fmt) utils.supported_formats = true
  ↔ spec.has_allowed_extension lower name.
Proof.
  change utils.supported_formats
    with ((λ ext, lit "." ++ ext) <$> spec.allowed_extensions).
  rewrite existsb_exists. unfold spec.has_allowed_extension. split.
  - intros (fmt & Hin & He). apply list_elem_of_In, list_elem_of_fmap in Hin
      as (ext & -> & Hext).
    apply endswith_spec in He as [stem Hs]. by exists stem, ext.
  - intros (stem & ext & Hs & Hext). exists (lit "." ++ ext). split.
    + apply list_elem_of_In, list_elem_of_fmap. by exists ext.
    + apply endswith_spec. by exists stem.
Qed.


Lemma check_audio_format_accepts (name : str) (w : world) :
  spec.has_allowed_extension lower name →
  utils.check_audio_format name w = (Ok tt, w).
Proof.
  intros Hn. unfold utils.check_audio_format.
  apply check_format_spec in Hn. by rewrite Hn.
Qed.


Lemma check_audio_format_frame (name : str) (w : world) :
  (utils.check_audio_format name w).2 = w.
Proof. unfold utils.check_audio_format. by destruct (negb _). Qed.

(** The upload path keeps every stored artifact non-empty. *)
Lemma upload_audio_keeps_artifacts_nonempty
    (file : audios.UploadFile) (w w' : world) (r : result audios.upload_response) :
  audios.upload_audio file w = (r, w') →
  spec.artifacts_nonempty w → spec.artifacts_nonempty w'.
Proof.
  unfold audios.upload_audio, try_except at 1. intros Hu Hinv.
  pose proof (check_audio_format_frame
                (py_or (audios.upload_filename file) []) w) as Hf.
  destruct (utils.check_audio_format _ w) as [[[]|e] w0] eqn:Hc;
    cbn in Hf; subst w0.
  - rewrite (bind_run _ _ _ _ _ Hc) in Hu.
    unfold utils.save_audio_in_memory_and_disk, utils.generate_audio_id,
      draw, write_file in Hu.
    destruct (audios.upload_body file) as [|b body] eqn:Hb; run;
      simplify_eq; [done|].
    intros id a. cbn. rewrite lookup_insert. case_decide; [|apply Hinv].
    by intros [= <-].
  - rewrite (bind_raise _ _ _ _ _ Hc) in Hu. by destruct e; run; simplify_eq.
Qed.

(** An artifact that an upload creates holds the uploaded bytes, which
    are not empty, and its backing file holds the same bytes. *)
Lemma upload_audio_creates_backed_artifact
    (file : audios.UploadFile) (w w' : world) (resp : audios.upload_response) :
  audios.upload_audio file w = (Ok resp, w') →
  ∃ entry,
    audio_storage w' !! audios.resp_id resp = Some entry
    ∧ content entry = audios.upload_body file
    ∧ content entry ≠ []
    ∧ fs w' !! file_path entry = Some (content entry).
Proof.
  unfold audios.upload_audio, try_except at 1. intros Hu.
  pose proof (check_audio_format_frame
                (py_or (audios.upload_filename file) []) w) as Hf.
  destruct (utils.check_audio_format _ w) as [[[]|e] w0] eqn:Hc;
    cbn in Hf; subst w0.
  - rewrite (bind_run _ _ _ _ _ Hc) in Hu.
    unfold utils.save_audio_in_memory_and_disk, utils.generate_audio_id,
      draw, write_file in Hu.
    destruct (audios.upload_body file) as [|b body] eqn:Hb; run;
      simplify_eq.
    eexists. cbn. split; [apply lookup_insert_eq|]. cbn.
    split; [done|]. split; [done|]. apply lookup_insert_eq.
  - rewrite (bind_raise _ _ _ _ _ Hc) in Hu. by destruct e; run; simplify_eq.
Qed.

(** C10, the code at an empty upload.  With an allow-listed extension
    and no content, the handler raises HTTPException 400 "Empty file
    uploaded" inside its own try block; the clause for Exception catches
    it and the request ends with status 500.  The world is as it was. *)
Theorem empty_upload_is_a_server_error (file : audios.UploadFile) (w : world) :
  spec.has_allowed_extension lower (py_or (audios.upload_filename file) []) →
  audios.upload_body file = [] →
  audios.upload_audio file w
    = (Raise (HTTPException 500
                (lit "Upload failed: " ++ http_str 400 (lit "Empty file uploaded"))),
       w).
Proof.
  intros Hy Hb. unfold audios.upload_audio, try_except at 1.
  rewrite (bind_run _ _ _ _ _ (check_audio_format_accepts _ w Hy)).
  by rewrite Hb.
Qed.

End upload.



(** Song.MP3 with no bytes: status 500. *)
Lemma empty_upload_is_a_server_error_witness :
  let R := demo.runtime in
  let C := demo.capabilities demo.vc_writes in
  let empty := {| audios.upload_filename := Some (lit "Song.MP3");
                  audios.upload_content_type := Some (lit "audio/mpeg");
                  audios.upload_body := [] |} in
  audios.upload_audio empty demo.empty_world
    = (Raise (HTTPException 500 (lit "Upload failed: 400: Empty file uploaded")),
       demo.empty_world).
Proof.
  intros R C empty.
  rewrite (empty_upload_is_a_server_error empty demo.empty_world).
  - vm_compute. reflexivity.
  - apply check_format_spec. vm_compute. reflexivity.
  - reflexivity.
Defined.

(** ** The text that a voice conversion speaks *)

(** The nested conditionals of the handler choose the first non-empty
    text in the order of the specification. *)
Lemma text_to_synthesize_priority (request_text : option str) (stored : session) :
  (if truthy_opt request_text then default [] request_text
   else if truthy_opt (translated_transcript stored)
        then default [] (translated_transcript stored)
        else py_or (corrected_transcript stored)
               (default [] (raw_transcript stored)))
  = spec.text_priority request_text stored.
Proof.
  unfold spec.text_priority.
  destruct request_text as [[|? ?]|],
    (translated_transcript stored) as [[|? ?]|],
    (corrected_transcript stored) as [[|? ?]|],
    (raw_transcript stored) as [[|? ?]|]; reflexivity.
Qed.

Section voice_conversion.
Context `{Runtime} `{Capabilities}.

(** What [synthesize] adds to the call log: inference is given [text]
    and nothing else, and a successful synthesis has called it. *)
Lemma synthesize_calls (text ref out language : str) (w w' : world)
    (r : result str) :
  conversion_service.synthesize text ref out language w = (r, w') →
  ∃ l, calls w' = calls w ++ l
       ∧ (spec.inference_texts l = [] ∨ spec.inference_texts l = [text])
       ∧ (is_Ok r = true → spec.inference_texts l = [text])
       ∧ transcript_storage w' = transcript_storage w
       ∧ audio_storage w' = audio_storage w.
Proof.
  unfold conversion_service.synthesize, conversion_service.call_latents,
    conversion_service.call_inference, conversion_service.call_voice_conversion,
    os_path_exists, write_file.
  run. intros Hs.
  repeat (case_match; run; simplify_eq); cbn; rewrite <- ?app_assoc;
    first [ exists []; rewrite app_nil_r; split; [reflexivity|]
          | eexists; split; [reflexivity|] ];
    cbn; repeat split; eauto; discriminate.
Qed.

Lemma synthesize_voice_calls (ref text language : str) (w w' : world)
    (r : result str) :
  conversion.synthesize_voice ref text language w = (r, w') →
  ∃ l, calls w' = calls w ++ l
       ∧ (spec.inference_texts l = [] ∨ spec.inference_texts l = [text])
       ∧ (is_Ok r = true → spec.inference_texts l = [text])
       ∧ transcript_storage w' = transcript_storage w
       ∧ audio_storage w' = audio_storage w.
Proof.
  unfold conversion.synthesize_voice, draw, os_path_exists, os_path_getsize.
  run.
  destruct (conversion_service.synthesize _ _ _ _ (next_tick w))
    as [r0 w0] eqn:Hs.
  apply synthesize_calls in Hs as (l & Hl & Hcases & Hok & Ht & Ha).
  intros Hv. exists l.
  assert (w' = w0) as ->.
  { by destruct r0; repeat (case_match; run; simplify_eq); simplify_eq. }
  repeat split; try done.
  intros Hr. apply Hok. destruct r0; [done|].
  cbn in Hv. by simplify_eq.
Qed.

Lemma get_audio_file_frame (id : str) (w w' : world) (r : result str) :
  utils.get_audio_file id w = (r, w') → w' = w.
Proof.
  unfold utils.get_audio_file, os_path_exists. run.
  intros Hg. by repeat (case_match; run; simplify_eq).
Qed.

End voice_conversion.

(** The scenario of the specification, run: the stored French text is
    spoken, the URL begins with /static/, and the record is stored. *)
Example voice_conversion_scenario :
  let R := demo.runtime in
  let C := demo.capabilities demo.vc_writes in
  let translated :=
    Session (Some (lit "xin chao cac ban")) (Some (lit "xin chao cac ban."))
      (Some (lit "completed")) (Some (lit "bonjour tout le monde")) None in
  let w := demo.one_artifact "a.wav" (lit "RIFF") translated in
  let out := lit "static/converted/converted_0f3a91c0_fr.wav" in
  let res := conversion.convert_voice_with_language (lit "a1") (lit "fr") None w in
  res.1 = Ok {| conversion.vc_id := lit "a1";
                conversion.vc_converted_audio_url :=
                  lit "/static/converted/converted_0f3a91c0_fr.wav";
                conversion.vc_audio_file_path := out;
                conversion.vc_target_language := lit "fr";
                conversion.vc_synthesized_text := lit "bonjour tout le monde";
                conversion.vc_message := lit "Voice conversion successful" |}
  ∧ calls res.2
    = [CallLatents (demo.artifact_path "a.wav");
       CallInference (lit "bonjour tout le monde") (lit "fr");
       CallVoiceConversion (demo.artifact_path "a.wav") out]
  ∧ fs res.2 !! out = Some (lit "bonjourtoutlemonde").
Proof. vm_compute. repeat split; reflexivity. Qed.

(** ** C8: the temporary WAV of a format conversion *)

Section temporary_wav.
Context `{Runtime} `{Capabilities}.
Variable self : transcript_service.TranscriptService.

(** Validation reads only: it returns a verdict, never raises, and
    leaves the world as it is. *)
Lemma validate_audio_file_frame (audio_path : str) (w : world) :
  ∃ valid, transcript_service._validate_audio_file audio_path w = (Ok valid, w).
Proof.
  unfold transcript_service._validate_audio_file,
    transcript_service.soundfile_read, os_path_exists, os_path_getsize.
  run. repeat (case_match; run; simplify_eq); eauto.
Qed.

(** The name that tempfile settles on did not exist, and exists, empty,
    afterwards. *)
Lemma mkstemp_creates (fuel : nat) (sfx tmp : str) (w w1 : world) :
  mkstemp fuel sfx w = (Ok tmp, w1) →
  fs w !! tmp = None ∧ fs w1 = <[tmp := []]> (fs w).
Proof.
  revert w. induction fuel as [|fuel IH]; intros w; [done|].
  cbn [mkstemp]. unfold draw, os_path_exists, write_file. run.
  destruct (bool_decide _) eqn:Ht.
  - intros Hm. by apply IH in Hm.
  - intros [= <- <-]. apply bool_decide_eq_false in Ht. cbn.
    split; [|done]. by apply eq_None_not_Some.
Qed.

(** C8, the code on the failing paths.  For an input that is not a WAV
    file and that the format conversion turns into the temporary file
    [tmp], when validation rejects the converted file, or loading its
    samples raises, [transcribe] raises and returns the world in which
    [tmp], created by this call, still exists with the converted audio:
    the removal in step 4 is not reached. *)
Theorem transcribe_leaves_temp_wav_on_failure
    (audio_path tmp : str) (seg wav : bytes) (w w1 : world) :
  let suffix := lower (suffix audio_path) in
  let w2 := set_fs (insert tmp wav) w1 in
  transcript_service.asr_loaded self = true →
  suffix ≠ lit ".wav" →
  transcript_service.AudioSegment_from_file audio_path (lstrip_char 46 suffix) w
    = (Ok seg, w) →
  NamedTemporaryFile (lit ".wav") w = (Ok tmp, w1) →
  export_wav seg = inr wav →
  transcript_service._validate_audio_file tmp w2 = (Ok false, w2)
    ∨ (∃ e, transcript_service.soundfile_read tmp None w2 = (Raise e, w2)) →
  ∃ e, transcript_service.transcribe self audio_path w = (Raise e, w2)
       ∧ fs w !! tmp = None
       ∧ fs w2 !! tmp = Some wav.
Proof.
  intros suffix w2 Hasr Hsfx Hseg Htmp Hexp Hfail.
  apply mkstemp_creates in Htmp as Hfresh. destruct Hfresh as [Hfresh _].
  assert (transcript_service.AudioSegment_export seg tmp w1 = (Ok tt, w2)) as Hwr.
  { unfold transcript_service.AudioSegment_export. by rewrite Hexp. }
  unfold transcript_service.transcribe. rewrite try_except_reraise.
  fold suffix. rewrite Hasr. cbn [negb].
  assert (str_eqb suffix (lit ".wav") = false) as ->
    by (by apply bool_decide_eq_false).
  cbn [negb]. unfold bind at 1, ret at 1.
  unfold bind at 1, try_except at 1.
  rewrite (bind_run _ _ _ _ _ Hseg), (bind_run _ _ _ _ _ Htmp),
    (bind_run _ _ _ _ _ Hwr).
  unfold ret at 1.
  destruct (validate_audio_file_frame tmp w2) as [valid Hv].
  rewrite (bind_run _ _ _ _ _ Hv).
  destruct Hfail as [Hf|[e He]].
  - rewrite Hv in Hf. injection Hf as ->. cbn [negb].
    eexists. split; [reflexivity|]. split; [done|]. apply lookup_insert_eq.
  - destruct valid; cbn [negb].
    + unfold bind at 1, ret at 1. rewrite (bind_raise _ _ _ _ _ He).
      eexists. split; [reflexivity|]. split; [done|]. apply lookup_insert_eq.
    + eexists. split; [reflexivity|]. split; [done|]. apply lookup_insert_eq.
Qed.

End temporary_wav.

(** An a.mp3 whose converted audio soundfile does not recognise: the
    call raises and /tmp/tmpk3x9q_v0.wav remains. *)
Lemma transcribe_leaves_temp_wav_on_failure_witness :
  let R := demo.runtime in
  let C := demo.capabilities demo.vc_writes in
  let self := {| transcript_service.asr_loaded := true;
                 transcript_service.correction_loaded := true |} in
  let w := demo.one_artifact "a.mp3" (lit "ID3") empty_session in
  let tmp := lit "/tmp/tmpk3x9q_v0.wav" in
  let w1 := World (<[tmp := []]> (fs w)) (audio_storage w)
              (transcript_storage w) (calls w) 1 in
  let w2 := set_fs (insert tmp (lit "ID3")) w1 in
  ∃ e, transcript_service.transcribe self (demo.artifact_path "a.mp3") w
         = (Raise e, w2)
       ∧ fs w !! tmp = None
       ∧ fs w2 !! tmp = Some (lit "ID3").
Proof.
  intros R C self w tmp w1 w2.
  apply (transcribe_leaves_temp_wav_on_failure self
           (demo.artifact_path "a.mp3") tmp (lit "ID3") (lit "ID3") w w1).
  - reflexivity.
  - vm_compute. discriminate.
  - vm_compute. reflexivity.
  - vm_compute. reflexivity.
  - reflexivity.
  - left. vm_compute. reflexivity.
Defined.

(** The same call, run: the error is the ValueError of step 2 and the
    temporary file is on disk when the call has returned. *)
Example transcribe_leaves_temp_wav_run :
  let R := demo.runtime in
  let C := demo.capabilities demo.vc_writes in
  let self := {| transcript_service.asr_loaded := true;
                 transcript_service.correction_loaded := true |} in
  let w := demo.one_artifact "a.mp3" (lit "ID3") empty_session in
  let tmp := lit "/tmp/tmpk3x9q_v0.wav" in
  let res := transcript_service.transcribe self (demo.artifact_path "a.mp3") w in
  res.1 = Raise (ValueError (lit "Invalid audio file: /tmp/tmpk3x9q_v0.wav"))
  ∧ fs w !! tmp = None
  ∧ fs res.2 !! tmp = Some (lit "ID3").
Proof. vm_compute. repeat split; reflexivity. Qed.

(** On a WAV input that is valid, by contrast, no temporary file is made
    and the transcript is returned trimmed. *)
Example transcribe_wav_run :
  let R := demo.runtime in
  let C := demo.capabilities demo.vc_writes in
  let self := {| transcript_service.asr_loaded := true;
                 transcript_service.correction_loaded := true |} in
  let w := demo.one_artifact "a.wav" (lit "RIFF") empty_session in
  transcript_service.transcribe self (demo.artifact_path "a.wav") w
    = (Ok (lit "xin chao cac ban"), log_call (CallASR (lit "RIFF")) w).
Proof. vm_compute. reflexivity. Qed.

(** When the converted file is accepted, step 4 is reached and the
    temporary file is gone when the call returns. *)
Example transcribe_removes_temp_wav_run :
  let R := demo.runtime in
  let C := demo.capabilities demo.vc_writes in
  let self := {| transcript_service.asr_loaded := true;
                 transcript_service.correction_loaded := true |} in
  let w := demo.one_artifact "a.mp3" (lit "RIFF") empty_session in
  let tmp := lit "/tmp/tmpk3x9q_v0.wav" in
  let res := transcript_service.transcribe self (demo.artifact_path "a.mp3") w in
  res.1 = Ok (lit "xin chao cac ban")
  ∧ fs res.2 !! tmp = None
  ∧ fs res.2 !! demo.artifact_path "a.mp3" = Some (lit "RIFF").
Proof. vm_compute. repeat split; reflexivity. Qed.

(** * Further properties of the code *)

(** ** The Transcription Stage and the file system *)

Section transcription_files.
Context `{Runtime} `{Capabilities}.
Variable self : transcript_service.TranscriptService.

(** Whatever tempfile does, it touches the files only by creating one
    empty file under a name that did not exist. *)
Lemma mkstemp_outcome (fuel : nat) (sfx : str) (w w1 : world) (r : result str) :
  mkstemp fuel sfx w = (r, w1) →
  audio_storage w1 = audio_storage w
  ∧ transcript_storage w1 = transcript_storage w
  ∧ calls w1 = calls w
  ∧ match r with
    | Ok tmp => fs w !! tmp = None ∧ fs w1 = <[tmp := []]> (fs w)
    | Raise _ => fs w1 = fs w
    end.
Proof.
  revert w. induction fuel as [|fuel IH]; intros w.
  { cbn. by intros [= <- <-]. }
  cbn [mkstemp]. unfold draw, os_path_exists, write_file. run.
  destruct (bool_decide _) eqn:Ht.
  - intros Hm. by apply IH in Hm.
  - intros [= <- <-]. apply bool_decide_eq_false in Ht. cbn.
    repeat split; try done. by apply eq_None_not_Some.
Qed.

(** What [transcribe] can do to the files: nothing, or leave one file
    under a name that did not exist, the temporary WAV of an input that
    is not WAV, when the call fails or when the removal of that file is
    refused.  The stores are never touched. *)
Lemma transcribe_files (audio_path : str) (w w' : world) (r : result str) :
  transcript_service.transcribe self audio_path w = (r, w') →
  audio_storage w' = audio_storage w
  ∧ transcript_storage w' = transcript_storage w
  ∧ (fs w' = fs w
     ∨ (lower (suffix audio_path) ≠ lit ".wav"
        ∧ ∃ tmp b, fs w !! tmp = None ∧ fs w' = <[tmp := b]> (fs w)
                   ∧ (is_Ok r = false ∨ is_Some (remove_error tmp)))).
Proof.
  unfold transcript_service.transcribe. rewrite try_except_reraise.
  unfold transcript_service.AudioSegment_from_file,
    transcript_service.AudioSegment_export, transcript_service.soundfile_read,
    transcript_service.call_asr, os_remove, write_file, NamedTemporaryFile.
  intros Ht. run.
  repeat (case_match; run; simplify_eq);
  repeat match goal with
  | Hv : transcript_service._validate_audio_file ?p ?w0 = _ |- _ =>
      destruct (validate_audio_file_frame p w0) as [? Hvf];
      rewrite Hvf in Hv; simplify_eq
  | Hm : mkstemp _ _ _ = _ |- _ =>
      apply mkstemp_outcome in Hm as (? & ? & ? & ?)
  end; cbn in *.
  all: try (by repeat split; try done; left).
  all: repeat match goal with
       | Hc : _ ∧ _ |- _ => destruct Hc as [? Hc]
       end.
  all: repeat split; try done.
  all: try match goal with
       | Hf : fs ?w5 = <[?t := []]> (fs ?w2) |- delete _ _ = _ ∨ _ =>
           left; rewrite Hf, insert_insert_eq; by apply delete_insert_id
       end.
  all: right; split;
    [ intros Heq; match goal with
         | Hs : negb (str_eqb _ _) = true |- _ =>
             rewrite Heq in Hs; unfold str_eqb in Hs;
             by rewrite bool_decide_true in Hs
         end
    | ].
  all: match goal with
       | Hf : fs ?w5 = <[?t := []]> (fs ?w2) |- _ =>
           eexists _, _; split; [eassumption|];
           split; [by rewrite ?Hf, ?insert_insert_eq|]
       end.
  all: first [by left | right; eauto].
Qed.

Lemma transcribe_files_kept
    (audio_path : str) (w w' : world) (r : result str) :
  transcript_service.transcribe self audio_path w = (r, w') →
  facts.keeps_files w w'.
Proof.
  intros Ht p b Hp.
  apply transcribe_files in Ht
    as (_ & _ & [->|(_ & tmp & c & Hn & -> & _)]); [done|].
  rewrite lookup_insert_ne; [done|]. intros ->. congruence.
Qed.

(** X1. [transcribe] never changes or deletes a file that existed when
    it was called, the uploaded audio included, whatever its outcome. *)
Theorem transcribe_keeps_existing_files
    (audio_path : str) (w w' : world) (r : result str) :
  transcript_service.transcribe self audio_path w = (r, w') →
  facts.keeps_files w w'.
Proof. apply transcribe_files_kept. Qed.

(** X2. The files after [transcribe].  For a WAV input they are exactly
    the files before the call: no temporary file is made.  After a
    successful call on another input they are the files before it too,
    unless the operating system refused to remove the temporary WAV: the
    refusal is swallowed, the call still succeeds, and that one file,
    under a name that did not exist, is left.  Where removals are never
    refused, a success leaves no file behind. *)
Theorem transcribe_restores_files
    (audio_path : str) (w w' : world) (r : result str) :
  transcript_service.transcribe self audio_path w = (r, w') →
  (lower (suffix audio_path) = lit ".wav" → fs w' = fs w)
  ∧ (is_Ok r = true →
     fs w' = fs w
     ∨ ∃ tmp b, is_Some (remove_error tmp) ∧ fs w !! tmp = None
                ∧ fs w' = <[tmp := b]> (fs w))
  ∧ ((∀ p, remove_error p = None) → is_Ok r = true → fs w' = fs w).
Proof.
  intros Ht.
  apply transcribe_files in Ht
    as (_ & _ & [->|(Hs & tmp & b & Hn & -> & Hc)]); [by repeat split; eauto|].
  split; [done|].
  assert (is_Ok r = true → is_Some (remove_error tmp)) as Hrefused.
  { intros Hok. destruct Hc as [?|?]; [congruence|done]. }
  split.
  - intros Hok. right. exists tmp, b. by split; [apply Hrefused|].
  - intros Hnever Hok. apply Hrefused in Hok as [m Hm].
    rewrite Hnever in Hm. discriminate.
Qed.

(** [correct_text] never raises.  It consults the corrector at most once,
    and not at all for blank text or when the model is not loaded; what
    it returns is the input itself or a trimmed text. *)
Lemma correct_text_outcome (raw_text : str) (w : world) :
  ∃ c w',
    transcript_service.correct_text self raw_text w = (Ok c, w')
    ∧ (w' = w ∨ w' = log_call (CallCorrector raw_text) w)
    ∧ (c = raw_text ∨ strip c = c)
    ∧ (strip raw_text = [] → c = [] ∧ w' = w)
    ∧ (transcript_service.correction_loaded self = false → w' = w).
Proof.
  unfold transcript_service.correct_text, transcript_service.call_corrector.
  run.
  destruct (truthy (strip raw_text)) eqn:Hb; cbn.
  2:{ apply truthy_false in Hb. eexists _, _. split; [done|].
      repeat split; eauto. }
  apply truthy_true in Hb.
  destruct (transcript_service.correction_loaded self); cbn.
  2:{ eexists _, _. split; [done|]. repeat split; eauto; done. }
  destruct (corrector raw_text) as [e|c]; cbn;
    (eexists _, _; split; [done|]); repeat split; eauto; try done.
  right. apply strip_idem.
Qed.

(** X3. [correct_text] never raises.  It consults the corrector at most
    once, and not at all for blank text or when the model is not loaded;
    blank text gives the empty string, and otherwise the result is the
    input itself or a trimmed text. *)
Theorem correct_text_never_raises (raw_text : str) (w : world) :
  ∃ c w',
    transcript_service.correct_text self raw_text w = (Ok c, w')
    ∧ (w' = w ∨ w' = log_call (CallCorrector raw_text) w)
    ∧ (c = raw_text ∨ strip c = c)
    ∧ (strip raw_text = [] → c = [] ∧ w' = w)
    ∧ (transcript_service.correction_loaded self = false → w' = w).
Proof. apply correct_text_outcome. Qed.

Lemma process_audio_outcome (audio_path : str) (w : world) :
  ∃ res w',
    transcript_service.process_audio self audio_path w = (Ok res, w')
    ∧ (transcript_service.res_status res = lit "success"
         ∧ transcript_service.res_error res = None
       ∨ transcript_service.res_status res = lit "error"
         ∧ is_Some (transcript_service.res_error res)
         ∧ transcript_service.res_raw_transcript res = []
         ∧ transcript_service.res_corrected_transcript res = [])
    ∧ audio_storage w' = audio_storage w
    ∧ transcript_storage w' = transcript_storage w
    ∧ facts.keeps_files w w'.
Proof.
  unfold transcript_service.process_audio.
  destruct (transcript_service.asr_loaded self); cbn [negb].
  2:{ eexists _, _. split; [reflexivity|]. cbn. split; [right; eauto|].
      repeat split; try done. by intros ? ?. }
  unfold try_except at 1. unfold bind at 1. unfold try_except at 1.
  unfold bind at 1.
  destruct (transcript_service.transcribe self audio_path w)
    as [[raw|e] w1] eqn:Ht.
  - pose proof (transcribe_files_kept _ _ _ _ Ht) as Hk.
    apply transcribe_files in Ht as (Ha & Hs & _).
    destruct (correct_text_outcome raw w1) as (c & w2 & Hc & Hw & _).
    cbn. unfold bind at 1, try_except at 1. rewrite Hc. cbn.
    eexists _, _. split; [reflexivity|]. cbn. split; [by left|].
    destruct Hw as [->| ->]; by repeat split.
  - pose proof (transcribe_files_kept _ _ _ _ Ht) as Hk.
    apply transcribe_files in Ht as (Ha & Hs & _).
    cbn. eexists _, _. split; [reflexivity|]. cbn.
    split; [right; eauto|]. by repeat split.
Qed.

(** X4. [process_audio] never raises: it returns a tagged result whose
    status is "success", with no error, or "error", with an error
    message and both transcripts empty.  It leaves the two stores alone
    and keeps every file that existed. *)
Theorem process_audio_returns_tagged_result (audio_path : str) (w : world) :
  ∃ res w',
    transcript_service.process_audio self audio_path w = (Ok res, w')
    ∧ (transcript_service.res_status res = lit "success"
         ∧ transcript_service.res_error res = None
       ∨ transcript_service.res_status res = lit "error"
         ∧ is_Some (transcript_service.res_error res)
         ∧ transcript_service.res_raw_transcript res = []
         ∧ transcript_service.res_corrected_transcript res = [])
    ∧ audio_storage w' = audio_storage w
    ∧ transcript_storage w' = transcript_storage w
    ∧ facts.keeps_files w w'.
Proof. apply process_audio_outcome. Qed.

End transcription_files.

(** An a.mp3 that fails validation: the upload is still there afterwards. *)
Lemma transcribe_keeps_existing_files_witness :
  let R := demo.runtime in
  let C := demo.capabilities demo.vc_writes in
  let self := {| transcript_service.asr_loaded := true;
                 transcript_service.correction_loaded := true |} in
  let w := demo.one_artifact "a.mp3" (lit "ID3") empty_session in
  let res := transcript_service.transcribe self (demo.artifact_path "a.mp3") w in
  is_Ok res.1 = false ∧ facts.keeps_files w res.2.
Proof.
  intros R C self w res. split; [vm_compute; reflexivity|].
  apply (transcribe_keeps_existing_files self (demo.artifact_path "a.mp3")
           w res.2 res.1).
  vm_compute. reflexivity.
Defined.

(** An a.mp3 that converts to readable audio, on a system that removes
    the temporary file and on one that refuses to: the call succeeds on
    both, and on the second /tmp/tmpk3x9q_v0.wav is left. *)
Lemma transcribe_restores_files_witness :
  let C := demo.capabilities demo.vc_writes in
  let self := {| transcript_service.asr_loaded := true;
                 transcript_service.correction_loaded := true |} in
  let w := demo.one_artifact "a.mp3" (lit "RIFF") empty_session in
  let tmp := lit "/tmp/tmpk3x9q_v0.wav" in
  let res := @transcript_service.transcribe demo.runtime C self
               (demo.artifact_path "a.mp3") w in
  let left := @transcript_service.transcribe demo.locking C self
                (demo.artifact_path "a.mp3") w in
  (res.1 = Ok (lit "xin chao cac ban") ∧ fs res.2 = fs w)
  ∧ (left.1 = Ok (lit "xin chao cac ban")
     ∧ fs left.2 !! tmp = Some (lit "RIFF")
     ∧ (fs left.2 = fs w
        ∨ ∃ tmp b, is_Some (@remove_error demo.locking tmp) ∧ fs w !! tmp = None
                   ∧ fs left.2 = <[tmp := b]> (fs w))).
Proof.
  intros C self w tmp res left. split.
  - split; [vm_compute; reflexivity|].
    apply (@transcribe_restores_files demo.runtime C self
             (demo.artifact_path "a.mp3") w res.2 res.1).
    + vm_compute. reflexivity.
    + done.
    + vm_compute. reflexivity.
  - split; [vm_compute; reflexivity|]. split; [vm_compute; reflexivity|].
    apply (@transcribe_restores_files demo.locking C self
             (demo.artifact_path "a.mp3") w left.2 left.1).
    + vm_compute. reflexivity.
    + vm_compute. reflexivity.
Defined.

(** ** Files of the Artifact Store *)

Section artifact_files.
Context `{Runtime} `{Capabilities}.

(** X5. [_validate_audio_file] never raises and changes nothing; it
    accepts a path exactly when a file is there, is not empty, and
    soundfile can read its first frame. *)
Theorem validate_audio_file_accepts (audio_path : str) (w : world) :
  ∃ valid,
    transcript_service._validate_audio_file audio_path w = (Ok valid, w)
    ∧ (valid = true ↔
       ∃ b a, fs w !! audio_path = Some b ∧ b ≠ []
              ∧ sf_read b (Some 1%nat) = inr a).
Proof.
  unfold transcript_service._validate_audio_file,
    transcript_service.soundfile_read, os_path_exists, os_path_getsize.
  run.
  destruct (fs w !! audio_path) as [b|] eqn:Hf.
  2:{ rewrite bool_decide_false by (by intros [? ?]). cbn.
      exists false. split; [done|]. split; [done|]. by intros (? & ? & ? & _). }
  rewrite bool_decide_true by eauto. cbn. rewrite Hf. cbn.
  destruct b as [|c b]; cbn.
  { exists false. split; [done|]. split; [done|].
    by intros (? & ? & [= <-] & ? & _). }
  rewrite Hf.
  destruct (sf_read (c :: b) (Some 1%nat)) as [e|a] eqn:Hr; cbn.
  - exists false. split; [done|]. split; [done|].
    intros (? & ? & [= <-] & _ & Hr'). congruence.
  - exists true. split; [done|]. split; [|done]. intros _. by exists (c :: b), a.
Qed.

(** X6. [get_audio_file] changes nothing.  It returns the stored path of
    an id whose file exists, and raises FileNotFoundError when the id is
    not in the store or its file is not on disk. *)
Theorem get_audio_file_outcome (id : str) (w w' : world) (r : result str) :
  utils.get_audio_file id w = (r, w') →
  w' = w
  ∧ match r with
    | Ok p => ∃ a, audio_storage w !! id = Some a ∧ file_path a = p
                   ∧ is_Some (fs w !! p)
    | Raise e =>
        is_FileNotFoundError e = true
        ∧ (audio_storage w !! id = None
           ∨ ∃ a, audio_storage w !! id = Some a ∧ fs w !! file_path a = None)
    end.
Proof.
  unfold utils.get_audio_file, os_path_exists. run.
  destruct (audio_storage w !! id) as [a|] eqn:Ha; cbn.
  2:{ intros [= <- <-]. split; [done|]. split; [done|]. by left. }
  destruct (bool_decide (is_Some (fs w !! file_path a))) eqn:Hb; cbn;
    intros [= <- <-]; (split; [done|]).
  - apply bool_decide_eq_true in Hb. by exists a.
  - apply bool_decide_eq_false in Hb. split; [done|]. right. exists a.
    split; [done|]. by apply eq_None_not_Some.
Qed.

(** X7. Round trip: after a successful upload, [get_audio_file] on the
    returned id gives a path whose file holds exactly the uploaded
    bytes. *)
Theorem upload_then_get_audio_file
    (file : audios.UploadFile) (w w1 : world) (resp : audios.upload_response) :
  audios.upload_audio file w = (Ok resp, w1) →
  ∃ p, utils.get_audio_file (audios.resp_id resp) w1 = (Ok p, w1)
       ∧ fs w1 !! p = Some (audios.upload_body file).
Proof.
  intros Hu.
  apply upload_audio_creates_backed_artifact in Hu as (a & Ha & Hc & _ & Hf).
  exists (file_path a). unfold utils.get_audio_file, os_path_exists. run.
  rewrite Ha. cbn. rewrite bool_decide_true by eauto. cbn.
  split; [done|]. by rewrite Hf, Hc.
Qed.

(** X8. [download_audio] never returns: its [finally] clause raises for
    every id, after a successful lookup and after a failed one, so the
    error that leaves the handler is not an HTTPException (the 404 of
    the except clause is replaced).  Nothing is changed. *)
Theorem download_audio_always_raises (id : str) (w : world) :
  ∃ e, audios.download_audio id w = (Raise e, w)
       ∧ is_HTTPException e = false.
Proof.
  unfold audios.download_audio, audios.try_finally.
  unfold bind at 1. unfold try_except at 1.
  destruct (utils.get_audio_file id w) as [[p|e] w1] eqn:Hg;
    apply get_audio_file_frame in Hg as ->.
  - cbn. eauto.
  - destruct (is_FileNotFoundError e); cbn; eauto.
Qed.

(** X9. [utils.get_transcript] changes nothing.  What it returns is the
    stored corrected transcript, which is then not empty; it raises
    FileNotFoundError when the id has no Session or when the corrected
    transcript is absent or empty, whatever the raw transcript holds. *)
Theorem utils_get_transcript_outcome (id : str) (w w' : world) (r : result str) :
  utils.get_transcript id w = (r, w') →
  w' = w
  ∧ match r with
    | Ok t => ∃ s, transcript_storage w !! id = Some s
                   ∧ corrected_transcript s = Some t ∧ t ≠ []
    | Raise e =>
        is_FileNotFoundError e = true
        ∧ (transcript_storage w !! id = None
           ∨ ∃ s, transcript_storage w !! id = Some s
                  ∧ truthy_opt (corrected_transcript s) = false)
    end.
Proof.
  unfold utils.get_transcript. run.
  destruct (transcript_storage w !! id) as [s|] eqn:Hs; cbn.
  2:{ intros [= <- <-]. split; [done|]. split; [done|]. by left. }
  destruct (corrected_transcript s) as [[|c t]|] eqn:Hc; cbn;
    intros [= <- <-]; (split; [done|]).
  - split; [done|]. right. exists s. by rewrite Hc.
  - exists s. by rewrite Hc.
  - split; [done|]. right. exists s. by rewrite Hc.
Qed.

End artifact_files.

(** Song.MP3 with three bytes, uploaded and fetched. *)
Lemma upload_then_get_audio_file_witness :
  let R := demo.runtime in
  let C := demo.capabilities demo.vc_writes in
  let mp3 := {| audios.upload_filename := Some (lit "Song.MP3");
                audios.upload_content_type := Some (lit "audio/mpeg");
                audios.upload_body := lit "ID3" |} in
  let res := audios.upload_audio mp3 demo.empty_world in
  let id := lit "0f3a91c0-7d2b-4e1a-8c5f-60718293a4b5" in
  ∃ resp, res.1 = Ok resp
    ∧ audios.resp_id resp = id
    ∧ ∃ p, utils.get_audio_file (audios.resp_id resp) res.2 = (Ok p, res.2)
           ∧ fs res.2 !! p = Some (lit "ID3").
Proof.
  intros R C mp3 res id.
  exists {| audios.resp_id := id;
            audios.resp_filename := Some (lit "Song.MP3");
            audios.resp_message := lit "Audio uploaded successfully";
            audios.resp_size := 3 |}.
  split; [vm_compute; reflexivity|]. split; [reflexivity|].
  apply (upload_then_get_audio_file mp3 demo.empty_world).
  vm_compute. reflexivity.
Defined.

(** An id that was never uploaded. *)
Lemma get_audio_file_outcome_witness :
  let R := demo.runtime in
  let e := FileNotFoundError (lit "Audio with ID nope not found") in
  demo.empty_world = demo.empty_world
  ∧ is_FileNotFoundError e = true
    ∧ (audio_storage demo.empty_world !! lit "nope" = None
       ∨ ∃ a, audio_storage demo.empty_world !! lit "nope" = Some a
              ∧ fs demo.empty_world !! file_path a = None).
Proof.
  intros R e.
  apply (get_audio_file_outcome (lit "nope") demo.empty_world demo.empty_world
           (Raise e)).
  vm_compute. reflexivity.
Defined.

(** A Session that holds a raw transcript only. *)
Lemma utils_get_transcript_outcome_witness :
  let R := demo.runtime in
  let s := Session (Some (lit "xin chao cac ban")) None None None None in
  let w := demo.one_artifact "a.wav" (lit "RIFF") s in
  let e := FileNotFoundError (lit "No transcript content found for ID a1") in
  w = w
  ∧ is_FileNotFoundError e = true
    ∧ (transcript_storage w !! lit "a1" = None
       ∨ ∃ s, transcript_storage w !! lit "a1" = Some s
              ∧ truthy_opt (corrected_transcript s) = false).
Proof.
  intros R s w e.
  apply (utils_get_transcript_outcome (lit "a1") w w (Raise e)).
  vm_compute. reflexivity.
Defined.

(** ** The Synthesis Stage *)

Section synthesis_frame.
Context `{Runtime} `{Capabilities}.

(** What [synthesize] can touch: the call log and, by the write of the
    voice conversion, the files, of which it removes none. *)
Lemma synthesize_frame (text ref out language : str) (w w' : world)
    (r : result str) :
  conversion_service.synthesize text ref out language w = (r, w') →
  audio_storage w' = audio_storage w
  ∧ transcript_storage w' = transcript_storage w
  ∧ tick w' = tick w
  ∧ ∀ p, is_Some (fs w !! p) → is_Some (fs w' !! p).
Proof.
  unfold conversion_service.synthesize, conversion_service.call_latents,
    conversion_service.call_inference, conversion_service.call_voice_conversion,
    os_path_exists, write_file.
  run. intros Hs.
  repeat (case_match; run; simplify_eq); cbn; repeat split; try done;
    intros p Hp;
    match goal with
    | |- is_Some (<[?o := _]> _ !! _) =>
        apply lookup_insert_is_Some;
        destruct (decide (o = p)); [by left|by right]
    end.
Qed.

Lemma synthesize_success (text ref out language p : str) (w w' : world) :
  conversion_service.synthesize text ref out language w = (Ok p, w') →
  is_Some (fs w !! ref)
  ∧ calls w'
    = calls w ++ [CallLatents ref;
                  CallInference text
                    (conversion_service._normalize_language_code language);
                  CallVoiceConversion ref out].
Proof.
  unfold conversion_service.synthesize, conversion_service.call_latents,
    conversion_service.call_inference, conversion_service.call_voice_conversion,
    os_path_exists, write_file.
  run. intros Hs.
  repeat (case_match; run; simplify_eq); cbn; rewrite <- ?app_assoc;
    (split; [eauto|done]).
Qed.

(** X10. [synthesize] leaves the two stores untouched and removes no
    file: a path that held a file before the call holds one after it.
    When the reference audio does not exist it raises FileNotFoundError
    before any model is called, and the world is as it was.  When it
    returns, it returns the output path it was given, the reference
    audio existed, and the models were called three times, in order: the
    latents of the reference, XTTS inference on the text with the
    normalised language code, and the voice conversion to the output
    path. *)
Theorem synthesize_keeps_stores_and_files
    (text ref out language : str) (w w' : world) (r : result str) :
  conversion_service.synthesize text ref out language w = (r, w') →
  audio_storage w' = audio_storage w
  ∧ transcript_storage w' = transcript_storage w
  ∧ (∀ p, is_Some (fs w !! p) → is_Some (fs w' !! p))
  ∧ (fs w !! ref = None →
     r = Raise (FileNotFoundError (lit "Reference audio file not found: " ++ ref))
     ∧ w' = w)
  ∧ (∀ p, r = Ok p →
       p = out
       ∧ is_Some (fs w !! ref)
       ∧ calls w'
         = calls w ++ [CallLatents ref;
                       CallInference text
                         (conversion_service._normalize_language_code language);
                       CallVoiceConversion ref out]).
Proof.
  intros Hs. pose proof (synthesize_frame _ _ _ _ _ _ _ Hs) as (? & ? & _ & ?).
  split; [done|]. split; [done|]. split; [done|]. split.
  - intros Hn. revert Hs.
    unfold conversion_service.synthesize, os_path_exists. run. rewrite Hn.
    rewrite bool_decide_false by (by intros [? ?]). cbn. by intros [= <- <-].
  - intros p ->.
    pose proof (synthesize_returns_output_path _ _ _ _ _ _ _ Hs) as ->.
    split; [done|]. by apply synthesize_success in Hs.
Qed.

(** X11. Locale suffixes are tolerated: an input that, in lower case and
    trimmed, begins with en, ja, jp or fr normalises to en, ja, ja or
    fr, whatever follows. *)
Theorem normalize_language_code_ignores_suffix (language rest : str) :
  (strip (lower language) = lit "en" ++ rest →
   conversion_service._normalize_language_code language = lit "en")
  ∧ (strip (lower language) = lit "ja" ++ rest →
     conversion_service._normalize_language_code language = lit "ja")
  ∧ (strip (lower language) = lit "jp" ++ rest →
     conversion_service._normalize_language_code language = lit "ja")
  ∧ (strip (lower language) = lit "fr" ++ rest →
     conversion_service._normalize_language_code language = lit "fr").
Proof.
  assert (∀ code, strip (lower language) = code ++ rest → code ≠ [] →
                  truthy language = true) as Hne.
  { intros code Hc Hcode. apply truthy_true. intros ->.
    rewrite lower_nil in Hc. destruct code; [done|discriminate]. }
  assert (∀ l c, dict_get conversion_service.SUPPORTED_LANGUAGES l = Some c →
                 (l, c) ∈ conversion_service.SUPPORTED_LANGUAGES) as Hget.
  { intros l c. generalize conversion_service.SUPPORTED_LANGUAGES.
    intros d. induction d as [|[k v] d IH]; [done|]. cbn. unfold str_eqb.
    case_bool_decide; [intros [= <-]; subst; left|intros ?; right; auto]. }
  unfold conversion_service._normalize_language_code.
  repeat split; intros Hs; rewrite (Hne _ Hs) by done; cbn [negb]; rewrite Hs.
  all: destruct (dict_get _ _) as [c|] eqn:Hd;
    [ apply Hget in Hd; apply list_elem_of_In in Hd;
      vm_compute in Hd; vm_compute; intuition congruence
    | by vm_compute ].
Qed.

End synthesis_frame.

(** A synthesis that succeeds: the uploaded audio is still there, and
    the call log shows the three calls. *)
Lemma synthesize_keeps_stores_and_files_witness :
  let R := demo.runtime in
  let C := demo.capabilities demo.vc_writes in
  let w := demo.one_artifact "a.wav" (lit "RIFF") empty_session in
  let ref := demo.artifact_path "a.wav" in
  let out := lit "static/converted/out.wav" in
  let res := conversion_service.synthesize (lit "bonjour") ref out (lit "fr") w in
  res.1 = Ok out
  ∧ fs res.2 !! out = Some (lit "bonjour")
  ∧ audio_storage res.2 = audio_storage w
  ∧ transcript_storage res.2 = transcript_storage w
  ∧ (∀ p, is_Some (fs w !! p) → is_Some (fs res.2 !! p))
  ∧ (fs w !! ref = None →
     res.1 = Raise (FileNotFoundError
                      (lit "Reference audio file not found: " ++ ref))
     ∧ res.2 = w)
  ∧ (∀ p, res.1 = Ok p →
       p = out
       ∧ is_Some (fs w !! ref)
       ∧ calls res.2
         = calls w ++ [CallLatents ref;
                       CallInference (lit "bonjour")
                         (conversion_service._normalize_language_code (lit "fr"));
                       CallVoiceConversion ref out]).
Proof.
  intros R C w ref out res.
  split; [vm_compute; reflexivity|]. split; [vm_compute; reflexivity|].
  apply (synthesize_keeps_stores_and_files (lit "bonjour") ref out (lit "fr") w).
  vm_compute. reflexivity.
Defined.

(** The locale code FR-ca, with a trailing blank. *)
Lemma normalize_language_code_ignores_suffix_witness :
  let R := demo.runtime in
  strip (lower (lit "FR-ca ")) = lit "fr" ++ lit "-ca"
  ∧ conversion_service._normalize_language_code (lit "FR-ca ") = lit "fr".
Proof.
  intros R.
  assert (strip (lower (lit "FR-ca ")) = lit "fr" ++ lit "-ca") as Hs
    by (vm_compute; reflexivity).
  split; [exact Hs|].
  apply (proj2 (proj2 (proj2
           (normalize_language_code_ignores_suffix (lit "FR-ca ") (lit "-ca"))))).
  exact Hs.
Defined.

(** ** The transcript endpoints *)

Section transcript_endpoints.
Context `{Runtime} `{Capabilities}.
Variable service : transcript_service.TranscriptService.

Lemma process_audio_sync_outcome (audio_path : str) (w : world) :
  ∃ res w',
    transcript.process_audio_sync service audio_path w = (Ok res, w')
    ∧ transcript_service.process_audio service audio_path w = (Ok res, w')
    ∧ (transcript_service.res_status res = lit "success"
       ∨ transcript_service.res_status res = lit "error"
         ∧ is_Some (transcript_service.res_error res))
    ∧ audio_storage w' = audio_storage w
    ∧ transcript_storage w' = transcript_storage w
    ∧ facts.keeps_files w w'.
Proof.
  destruct (process_audio_outcome service audio_path w)
    as (res & w' & Hp & Hst & Ha & Ht & Hk).
  exists res, w'. unfold transcript.process_audio_sync, try_except.
  rewrite Hp. repeat split; try done.
  destruct Hst as [[? _]|(? & ? & _)]; [by left|by right].
Qed.

(** The cold path of [get_transcript], step by step. *)
Lemma get_transcript_cold (id : str) (w w' : world)
    (r : result transcript.TranscriptResponse) :
  transcript_storage w !! id = None →
  transcript.get_transcript service id w = (r, w') →
  audio_storage w' = audio_storage w
  ∧ facts.keeps_files w w'
  ∧ match r with
    | Ok resp =>
        is_Some (audio_storage w !! id)
        ∧ transcript_storage w'
          = <[id := Session (transcript.tr_raw_transcript resp)
                      (Some (transcript.tr_corrected_transcript resp))
                      (Some (lit "completed")) None None]>
              (transcript_storage w)
        ∧ is_Some (transcript.tr_raw_transcript resp)
        ∧ transcript.tr_status resp = lit "completed"
    | Raise e =>
        is_HTTPException e = true
        ∧ transcript_storage w' = transcript_storage w
    end.
Proof.
  intros Hid. unfold transcript.get_transcript, transcript.reraise_http.
  unfold try_except at 1. unfold bind at 1, gets at 1. unfold bind at 1, gets at 1.
  rewrite Hid.
  destruct (bool_decide (is_Some (audio_storage w !! id))) eqn:Ha; cbn [negb].
  2:{ run. intros [= <- <-]. repeat split; try done. by intros ? ?. }
  apply bool_decide_eq_true in Ha.
  unfold bind at 1, ret at 1. unfold bind at 1.
  destruct (utils.get_audio_file id w) as [[p|e] w0] eqn:Hg;
    pose proof (get_audio_file_frame _ _ _ _ Hg) as ->.
  2:{ destruct (is_HTTPException e) eqn:He; run; intros [= <- <-];
        repeat split; try done; by intros ? ?. }
  unfold bind at 1, os_path_exists at 1, gets at 1.
  destruct (bool_decide (is_Some (fs w !! p))); cbn [negb].
  2:{ run. intros [= <- <-]. repeat split; try done. by intros ? ?. }
  unfold bind at 1, ret at 1. unfold bind at 1.
  destruct (process_audio_sync_outcome p w)
    as (res & w1 & -> & _ & Hst & Hau & Hts & Hk).
  unfold transcript.result_error.
  destruct Hst as [Hs|[Hs [err Herr]]]; rewrite Hs.
  - change (str_eqb (lit "success") (lit "language_error")) with false.
    change (str_eqb (lit "success") (lit "error")) with false.
    run. intros [= <- <-]. cbn. rewrite Hts. repeat split; eauto.
  - change (str_eqb (lit "error") (lit "language_error")) with false.
    change (str_eqb (lit "error") (lit "error")) with true.
    rewrite Herr. run. intros [= <- <-]. by repeat split.
Qed.

(** X12. When an id has no Session, [get_transcript] creates one only by
    succeeding, and only for an id that has an Artifact: the new Session
    holds the raw and the corrected transcript of the response and the
    status "completed".  A failing request raises an HTTPException and
    leaves the Session store as it was.  In both cases the Artifact
    store is unchanged and no existing file is changed or deleted. *)
Theorem get_transcript_creates_session_on_success (id : str) (w w' : world)
    (r : result transcript.TranscriptResponse) :
  transcript_storage w !! id = None →
  transcript.get_transcript service id w = (r, w') →
  audio_storage w' = audio_storage w
  ∧ facts.keeps_files w w'
  ∧ match r with
    | Ok resp =>
        is_Some (audio_storage w !! id)
        ∧ transcript_storage w'
          = <[id := Session (transcript.tr_raw_transcript resp)
                      (Some (transcript.tr_corrected_transcript resp))
                      (Some (lit "completed")) None None]>
              (transcript_storage w)
        ∧ is_Some (transcript.tr_raw_transcript resp)
        ∧ transcript.tr_status resp = lit "completed"
    | Raise e =>
        is_HTTPException e = true
        ∧ transcript_storage w' = transcript_storage w
    end.
Proof. apply get_transcript_cold. Qed.

(** X13. The error statuses of a first transcript request: an id with
    no Artifact is answered 404; an Artifact whose file is gone is
    answered 500 (the FileNotFoundError of [get_audio_file] reaches the
    clause for Exception, so the 404 check after it is never reached);
    and when the ASR model is not loaded the answer is 500 with the
    message of the fail-fast branch.  In all three the world is as it
    was: no Session is created and no model is called. *)
Theorem get_transcript_error_statuses (id : str) (a : audio_data) (w : world) :
  transcript_storage w !! id = None →
  (audio_storage w !! id = None →
   transcript.get_transcript service id w
     = (Raise (HTTPException 404 (lit "Audio not found")), w))
  ∧ (audio_storage w !! id = Some a → fs w !! file_path a = None →
     transcript.get_transcript service id w
       = (Raise (HTTPException 500
                   (lit "Audio file not found on disk: " ++ file_path a)), w))
  ∧ (audio_storage w !! id = Some a → is_Some (fs w !! file_path a) →
     transcript_service.asr_loaded service = false →
     transcript.get_transcript service id w
       = (Raise (HTTPException 500
                   (lit "ASR model not loaded - cannot process audio")), w)).
Proof.
  intros Hid.
  assert (∀ k : gmap str audio_data → gmap str session
                → M transcript.TranscriptResponse,
            (audios <- gets audio_storage;;
             storage <- gets transcript_storage;; k audios storage) w
            = k (audio_storage w) (transcript_storage w) w) as Hstart by done.
  unfold transcript.get_transcript, transcript.reraise_http, try_except.
  rewrite Hstart, Hid. clear Hstart.
  unfold utils.get_audio_file, os_path_exists, transcript.process_audio_sync,
    transcript_service.process_audio, transcript.result_error.
  split; [|split].
  - intros Ha. rewrite Ha. rewrite bool_decide_false by (by intros [? ?]).
    by run.
  - intros Ha Hf. rewrite Ha. rewrite bool_decide_true by eauto. run.
    rewrite Ha. cbn. rewrite Hf.
    rewrite bool_decide_false by (by intros [? ?]). done.
  - intros Ha Hf Hl. rewrite Ha. rewrite bool_decide_true by eauto. run.
    rewrite Ha. cbn. rewrite bool_decide_true by done. cbn.
    rewrite bool_decide_true by done. cbn. rewrite Hl. cbn.
    change (str_eqb (lit "error") (lit "language_error")) with false.
    change (str_eqb (lit "error") (lit "error")) with true. done.
Qed.


(** X15. A transcript that is too short for the Language Guard is
    returned once and refused afterwards: when the first request for an
    id succeeds with a corrected transcript that is not empty and has
    fewer than ten characters after trimming, every later request for
    that id is answered 400 with the code of the short-text rule, and
    changes nothing. *)
Theorem get_transcript_refuses_short_cached_transcript
    (id : str) (resp : transcript.TranscriptResponse) (w w1 : world) :
  transcript_storage w !! id = None →
  transcript.get_transcript service id w = (Ok resp, w1) →
  transcript.tr_corrected_transcript resp ≠ [] →
  length (strip (transcript.tr_corrected_transcript resp)) < 10 →
  transcript.get_transcript service id w1
    = (Raise (HTTPException 400
                (lit "Transcript is not in Vietnamese. Detected: "
                   ++ upper (lit "text_too_short")
                   ++ lit ". Please provide Vietnamese transcript.")), w1).
Proof.
  intros Hid Hg Hne Hlen.
  apply (get_transcript_cold id w w1 (Ok resp) Hid) in Hg
    as (_ & _ & _ & Hts & _ & _).
  assert (transcript_storage w1 !! id
          = Some (Session (transcript.tr_raw_transcript resp)
                    (Some (transcript.tr_corrected_transcript resp))
                    (Some (lit "completed")) None None)) as Hid1
    by (rewrite Hts; apply lookup_insert_eq).
  assert (∀ k : gmap str audio_data → gmap str session
                → M transcript.TranscriptResponse,
            (audios <- gets audio_storage;;
             storage <- gets transcript_storage;; k audios storage) w1
            = k (audio_storage w1) (transcript_storage w1) w1) as Hstart by done.
  unfold transcript.get_transcript, transcript.reraise_http, try_except.
  rewrite Hstart, Hid1. clear Hstart.
  unfold default. cbn [from_option corrected_transcript Datatypes.id].
  rewrite (proj2 (truthy_true _) Hne).
  unfold utils.is_vietnamese_transcript.
  destruct (Nat.ltb_spec (length (strip (transcript.tr_corrected_transcript resp))) 10)
    as [_|?]; [|lia].
  rewrite orb_true_r. by run.
Qed.

End transcript_endpoints.

(** A first request for an uploaded a.wav: the Session is created. *)
Lemma get_transcript_creates_session_on_success_witness :
  let R := demo.runtime in
  let C := demo.capabilities demo.vc_writes in
  let w := set_transcript_storage (fun _ => ∅)
             (demo.one_artifact "a.wav" (lit "RIFF") empty_session) in
  let res := transcript.get_transcript demo.loaded (lit "a1") w in
  transcript_storage w !! lit "a1" = None
  ∧ is_Ok res.1 = true
  ∧ audio_storage res.2 = audio_storage w.
Proof.
  intros R C w res.
  assert (transcript_storage w !! lit "a1" = None) as Hid
    by (vm_compute; reflexivity).
  split; [exact Hid|]. split; [vm_compute; reflexivity|].
  apply (get_transcript_creates_session_on_success demo.loaded (lit "a1")
           w res.2 res.1 Hid).
  vm_compute. reflexivity.
Defined.

(** No upload at all: 404; an upload whose file was removed: 500. *)
Lemma get_transcript_error_statuses_witness :
  let R := demo.runtime in
  let C := demo.capabilities demo.vc_writes in
  let a := AudioData (lit "a1") (Some (lit "a.wav")) (lit "RIFF")
             (Some (lit "audio/wav")) (demo.artifact_path "a.wav") 1700000000 in
  let w := World ∅ {[ lit "a1" := a ]} ∅ [] 0 in
  transcript.get_transcript demo.loaded (lit "a1") demo.empty_world
    = (Raise (HTTPException 404 (lit "Audio not found")), demo.empty_world)
  ∧ transcript.get_transcript demo.loaded (lit "a1") w
    = (Raise (HTTPException 500
                (lit "Audio file not found on disk: " ++ file_path a)), w).
Proof.
  intros R C a w. split.
  - apply (get_transcript_error_statuses demo.loaded (lit "a1") a demo.empty_world);
      vm_compute; reflexivity.
  - apply (get_transcript_error_statuses demo.loaded (lit "a1") a w);
      vm_compute; reflexivity.
Defined.


(** The ASR model hears only "xin chao": the first request answers with
    it, the second is refused. *)
Lemma get_transcript_refuses_short_cached_transcript_witness :
  let R := demo.runtime in
  let C := demo.short_speech in
  let w := set_transcript_storage (fun _ => ∅)
             (demo.one_artifact "a.wav" (lit "RIFF") empty_session) in
  let res := transcript.get_transcript demo.loaded (lit "a1") w in
  let resp := transcript.Build_TranscriptResponse (lit "a1") (Some (lit "xin chao"))
                (lit "xin chao") (lit "completed")
                (lit "Transcript generated successfully") in
  res.1 = Ok resp
  ∧ (transcript.get_transcript demo.loaded (lit "a1") res.2).1
    = Raise (HTTPException 400
               (lit "Transcript is not in Vietnamese. Detected: "
                  ++ upper (lit "text_too_short")
                  ++ lit ". Please provide Vietnamese transcript.")).
Proof.
  intros R C w res resp.
  assert (transcript.get_transcript demo.loaded (lit "a1") w = (Ok resp, res.2))
    as Hfirst by (vm_compute; reflexivity).
  split; [vm_compute; reflexivity|].
  rewrite (get_transcript_refuses_short_cached_transcript demo.loaded (lit "a1")
             resp w res.2).
  - reflexivity.
  - vm_compute. reflexivity.
  - exact Hfirst.
  - vm_compute. discriminate.
  - vm_compute. lia.
Defined.

(** ** Edits and translations of a Session *)

Section session_writes.
Context `{Runtime} `{Capabilities}.
Variable service : translation_service.TranslatorService.

Lemma guard_accepts (t : str) (w w1 : world) (detected : pyobject) :
  utils.is_vietnamese_transcript t w = (Ok (true, detected), w1) →
  10 ≤ length (strip t)
  ∧ (∃ code, detect (strip t) = inr (PyStr code)
             ∧ code ∈ [lit "VI"; lit "VIE"])
  ∧ w1 = log_call (CallDetect (strip t)) w.
Proof.
  unfold utils.is_vietnamese_transcript, utils.call_detect.
  destruct (truthy t); cbn [negb orb]; [|by run].
  destruct (Nat.ltb_spec (length (strip t)) 10) as [?|Hlen]; [by run|].
  run. destruct (detect (strip t)) as [e|[c|ty]]; run; [done| |done].
  destruct (bool_decide (c ∈ [lit "VI"; lit "VIE"])) eqn:Hc; [|done].
  intros [= <- <-]. apply bool_decide_eq_true in Hc. eauto.
Qed.

Lemma update_transcript_success (id text : str) (w w' : world)
    (resp : transcript.TranscriptResponse) :
  transcript.update_transcript id text w = (Ok resp, w') →
  let new_transcript := strip text in
  let old := transcript_storage w !! id in
  is_Some (audio_storage w !! id)
  ∧ 10 ≤ length new_transcript
  ∧ (∃ code, detect new_transcript = inr (PyStr code)
             ∧ code ∈ [lit "VI"; lit "VIE"])
  ∧ calls w' = calls w ++ [CallDetect new_transcript]
  ∧ fs w' = fs w ∧ audio_storage w' = audio_storage w
  ∧ transcript_storage w'
    = <[id := Session (old ≫= raw_transcript) (Some new_transcript)
                (Some (lit "updated")) (old ≫= translated_transcript)
                (old ≫= voice_conversions)]> (transcript_storage w)
  ∧ resp = {| transcript.tr_id := id;
              transcript.tr_raw_transcript := old ≫= raw_transcript;
              transcript.tr_corrected_transcript := new_transcript;
              transcript.tr_status := lit "updated";
              transcript.tr_message := lit "Transcript updated successfully" |}.
Proof.
  unfold transcript.update_transcript, transcript.reraise_http. run.
  destruct (bool_decide (is_Some (audio_storage w !! id))) eqn:Ha; cbn;
    [|intros [=]].
  apply bool_decide_eq_true in Ha.
  destruct (truthy (strip text)); cbn; [|intros [=]].
  destruct (utils.is_vietnamese_transcript (strip text) w)
    as [[[is_vn code]|e] w1] eqn:Hg; cbn;
    [|by destruct (is_HTTPException e); intros [=]].
  destruct is_vn; cbn;
    [|unfold utils.py_upper; by destruct code; run; intros [=]].
  apply guard_accepts in Hg as (Hlen & Hd & ->).
  rewrite strip_idem in *. cbn.
  destruct (transcript_storage w !! id) as [s|] eqn:Hid; cbn.
  - rewrite lookup_alter_eq, Hid. cbn.
    intros [= <- <-]. cbn. rewrite (alter_alt_Some _ _ _ _ Hid).
    split; [done|]. split; [done|]. split; [done|].
    by repeat split.
  - rewrite lookup_alter_eq, lookup_insert_eq. cbn.
    intros [= <- <-]. cbn. rewrite alter_insert_eq.
    split; [done|]. split; [done|]. split; [done|].
    by repeat split.
Qed.

(** X16. A successful edit replaces the corrected transcript by the
    trimmed text and sets the status to "updated", for an id that has an
    Artifact and a text of at least ten characters that the detector
    called Vietnamese.  Everything else of the Session stays: the raw
    transcript, and also the translation and the voice conversions that
    were made from the text before the edit.  An id without a Session
    gets one with these two fields only.  Other Sessions, the Artifacts
    and the files are untouched, and the only call is the detection. *)
Theorem update_transcript_effect (id text : str) (w w' : world)
    (resp : transcript.TranscriptResponse) :
  transcript.update_transcript id text w = (Ok resp, w') →
  let new_transcript := strip text in
  let old := transcript_storage w !! id in
  is_Some (audio_storage w !! id)
  ∧ 10 ≤ length new_transcript
  ∧ (∃ code, detect new_transcript = inr (PyStr code)
             ∧ code ∈ [lit "VI"; lit "VIE"])
  ∧ calls w' = calls w ++ [CallDetect new_transcript]
  ∧ fs w' = fs w ∧ audio_storage w' = audio_storage w
  ∧ transcript_storage w'
    = <[id := Session (old ≫= raw_transcript) (Some new_transcript)
                (Some (lit "updated")) (old ≫= translated_transcript)
                (old ≫= voice_conversions)]> (transcript_storage w)
  ∧ resp = {| transcript.tr_id := id;
              transcript.tr_raw_transcript := old ≫= raw_transcript;
              transcript.tr_corrected_transcript := new_transcript;
              transcript.tr_status := lit "updated";
              transcript.tr_message := lit "Transcript updated successfully" |}.
Proof. apply update_transcript_success. Qed.

(** X17. What an edit is refused for, in the order of the checks: an id
    without an Artifact, 404; a text that is blank, 400 "Transcript
    cannot be empty"; a text of fewer than ten characters after trimming,
    400 with the code of the short-text rule.  None of them consults the
    detector or changes anything. *)
Theorem update_transcript_error_statuses (id text : str) (w : world) :
  (audio_storage w !! id = None →
   transcript.update_transcript id text w
     = (Raise (HTTPException 404 (lit "Audio not found")), w))
  ∧ (is_Some (audio_storage w !! id) → strip text = [] →
     transcript.update_transcript id text w
       = (Raise (HTTPException 400 (lit "Transcript cannot be empty")), w))
  ∧ (is_Some (audio_storage w !! id) → strip text ≠ [] →
     length (strip text) < 10 →
     transcript.update_transcript id text w
       = (Raise (HTTPException 400
                   (lit "Transcript is not in Vietnamese. Detected: "
                      ++ upper (lit "text_too_short")
                      ++ lit ". Please provide Vietnamese text.")), w)).
Proof.
  unfold transcript.update_transcript, transcript.reraise_http.
  split; [|split].
  - intros Ha. run. rewrite Ha.
    by rewrite bool_decide_false by (by intros [? ?]).
  - intros Ha Hs. run. rewrite bool_decide_true by done. cbn.
    by rewrite Hs.
  - intros Ha Hs Hlen. run. rewrite bool_decide_true by done. cbn.
    rewrite (proj2 (truthy_true _) Hs). cbn.
    unfold utils.is_vietnamese_transcript. rewrite strip_idem.
    destruct (Nat.ltb_spec (length (strip text)) 10) as [_|?]; [|lia].
    by rewrite orb_true_r.
Qed.

Lemma translate_text_only_success (id lang : str) (w w' : world)
    (resp : conversion.TranslationResponse) :
  conversion.translate_text_only service id lang w = (Ok resp, w') →
  ∃ stored tgt,
    let text := py_or (corrected_transcript stored)
                  (default [] (raw_transcript stored)) in
    let translated := conversion.tl_translated_text resp in
    transcript_storage w !! id = Some stored
    ∧ text ≠ []
    ∧ dict_get (translation_service.supported_languages service) lang = Some tgt
    ∧ translator text (translation_service.src_lang service) tgt = inr translated
    ∧ calls w'
      = calls w ++ [CallTranslator text (translation_service.src_lang service) tgt]
    ∧ fs w' = fs w ∧ audio_storage w' = audio_storage w
    ∧ transcript_storage w'
      = <[id := Session (raw_transcript stored) (corrected_transcript stored)
                  (status stored) (Some translated) (voice_conversions stored)]>
          (transcript_storage w)
    ∧ conversion.tl_id resp = id.
Proof.
  unfold conversion.translate_text_only, conversion.translate_sync,
    conversion.get_item, translation_service.translate,
    translation_service.call_translator.
  run.
  destruct (transcript_storage w !! id) as [stored|] eqn:Hid; [|intros [=]].
  destruct (truthy _) eqn:Ht; cbn; [|intros [=]].
  apply truthy_true in Ht.
  destruct (dict_get _ lang) as [tgt|] eqn:Hl; run; [|intros [=]].
  destruct (translator _ _ tgt) as [e|translated] eqn:Htr; run; [intros [=]|].
  rewrite Hid. cbn. intros [= <- <-]. cbn.
  exists stored, tgt. cbn. rewrite (alter_alt_Some _ _ _ _ Hid).
  by repeat split.
Qed.

(** X18. A successful translation is one call of the translator, on the
    corrected transcript of the Session or, when that is absent or
    empty, on the raw one, from the service's source language into the code
    that the service lists for the requested language.  Its result is returned and stored as the single
    translation of the Session, replacing one into any other language;
    the other fields, the other Sessions, the Artifacts and the files are
    as they were. *)
Theorem translate_text_only_effect (id lang : str) (w w' : world)
    (resp : conversion.TranslationResponse) :
  conversion.translate_text_only service id lang w = (Ok resp, w') →
  ∃ stored tgt,
    let text := py_or (corrected_transcript stored)
                  (default [] (raw_transcript stored)) in
    let translated := conversion.tl_translated_text resp in
    transcript_storage w !! id = Some stored
    ∧ text ≠ []
    ∧ dict_get (translation_service.supported_languages service) lang = Some tgt
    ∧ translator text (translation_service.src_lang service) tgt = inr translated
    ∧ calls w'
      = calls w ++ [CallTranslator text (translation_service.src_lang service) tgt]
    ∧ fs w' = fs w ∧ audio_storage w' = audio_storage w
    ∧ transcript_storage w'
      = <[id := Session (raw_transcript stored) (corrected_transcript stored)
                  (status stored) (Some translated) (voice_conversions stored)]>
          (transcript_storage w)
    ∧ conversion.tl_id resp = id.
Proof. apply translate_text_only_success. Qed.

(** X19. What a translation is refused for: an id without a Session,
    404; a Session whose corrected and raw transcript are both absent or
    empty, 400; and a target language that the translation service does
    not list, 500 "Translation failed": the service's own error names
    the language and the supported codes, and the handler replaces it.
    None of them calls the translator or changes anything. *)
Theorem translate_text_only_error_statuses
    (id lang : str) (stored : session) (w : world) :
  (transcript_storage w !! id = None →
   conversion.translate_text_only service id lang w
     = (Raise (HTTPException 404 (lit "Transcript not found")), w))
  ∧ (transcript_storage w !! id = Some stored →
     py_or (corrected_transcript stored) (default [] (raw_transcript stored)) = [] →
     conversion.translate_text_only service id lang w
       = (Raise (HTTPException 400 (lit "No transcript to translate")), w))
  ∧ (transcript_storage w !! id = Some stored →
     py_or (corrected_transcript stored) (default [] (raw_transcript stored)) ≠ [] →
     dict_get (translation_service.supported_languages service) lang = None →
     conversion.translate_text_only service id lang w
       = (Raise (HTTPException 500 (lit "Translation failed")), w)).
Proof.
  unfold conversion.translate_text_only, conversion.translate_sync,
    translation_service.translate.
  split; [|split].
  - intros Hid. run. by rewrite Hid.
  - intros Hid Ht. run. by rewrite Hid, Ht.
  - intros Hid Ht Hl. run. rewrite Hid. cbn.
    rewrite (proj2 (truthy_true _) Ht). cbn. by rewrite Hl.
Qed.

End session_writes.

(** An edit of a Session that has a French translation: the translation
    of the old text is still there. *)
Lemma update_transcript_effect_witness :
  let R := demo.runtime in
  let C := demo.capabilities demo.vc_writes in
  let stored := Session (Some (lit "xin chao cac ban")) (Some (lit "xin chao cac ban."))
                  (Some (lit "completed")) (Some (lit "bonjour tout le monde")) None in
  let w := demo.one_artifact "a.wav" (lit "RIFF") stored in
  let res := transcript.update_transcript (lit "a1") (lit "  toi la sinh vien moi ") w in
  is_Ok res.1 = true
  ∧ transcript_storage res.2 !! lit "a1"
    = Some (Session (Some (lit "xin chao cac ban")) (Some (lit "toi la sinh vien moi"))
              (Some (lit "updated")) (Some (lit "bonjour tout le monde")) None).
Proof.
  intros R C stored w res. split; [vm_compute; reflexivity|].
  subst res.
  destruct (transcript.update_transcript (lit "a1") (lit "  toi la sinh vien moi ") w)
    as [[resp|e] w'] eqn:Hres; [|vm_compute in Hres; discriminate].
  apply update_transcript_effect in Hres as (_ & _ & _ & _ & _ & _ & Hts & _).
  cbn [snd]. rewrite Hts, lookup_insert_eq. vm_compute. reflexivity.
Defined.

(** A blank text and a short one, on the uploaded id; any text on an id
    that was never uploaded. *)
Lemma update_transcript_error_statuses_witness :
  let R := demo.runtime in
  let C := demo.capabilities demo.vc_writes in
  let w := demo.one_artifact "a.wav" (lit "RIFF") empty_session in
  transcript.update_transcript (lit "zz") (lit "xin chao cac ban") w
    = (Raise (HTTPException 404 (lit "Audio not found")), w)
  ∧ transcript.update_transcript (lit "a1") (lit "   ") w
    = (Raise (HTTPException 400 (lit "Transcript cannot be empty")), w)
  ∧ transcript.update_transcript (lit "a1") (lit " xin chao ") w
    = (Raise (HTTPException 400
                (lit "Transcript is not in Vietnamese. Detected: "
                   ++ upper (lit "text_too_short")
                   ++ lit ". Please provide Vietnamese text.")), w).
Proof.
  intros R C w. split; [|split].
  - apply (update_transcript_error_statuses (lit "zz") (lit "xin chao cac ban") w).
    vm_compute. reflexivity.
  - apply (update_transcript_error_statuses (lit "a1") (lit "   ") w).
    + vm_compute. eauto.
    + vm_compute. reflexivity.
  - apply (update_transcript_error_statuses (lit "a1") (lit " xin chao ") w).
    + vm_compute. eauto.
    + vm_compute. discriminate.
    + vm_compute. lia.
Defined.

(** A translation into French of a Session that has voice conversions
    and an older translation. *)
Lemma translate_text_only_effect_witness :
  let R := demo.runtime in
  let C := demo.capabilities demo.vc_writes in
  let service := translation_service.TranslatorService_init in
  let stored := Session (Some (lit "xin chao cac ban")) (Some (lit "xin chao cac ban."))
                  (Some (lit "completed")) (Some (lit "hello everyone")) None in
  let w := demo.one_artifact "a.wav" (lit "RIFF") stored in
  let res := conversion.translate_text_only service (lit "a1") (lit "fr") w in
  is_Ok res.1 = true
  ∧ calls res.2 = [CallTranslator (lit "xin chao cac ban.") (lit "vie_Latn")
                     (lit "fra_Latn")].
Proof.
  intros R C service w0 w res. split; [vm_compute; reflexivity|].
  subst res.
  destruct (conversion.translate_text_only service (lit "a1") (lit "fr") w)
    as [[resp|e] w'] eqn:Hres; [|vm_compute in Hres; discriminate].
  apply translate_text_only_effect in Hres
    as (stored & tgt & Hid & _ & Hl & _ & Hc & _).
  cbn [snd]. rewrite Hc.
  assert (stored = w0) as -> by (vm_compute in Hid; vm_compute; congruence).
  assert (tgt = lit "fra_Latn") as -> by (vm_compute in Hl; vm_compute; congruence).
  vm_compute. reflexivity.
Defined.

(** German is not a language of the translation service. *)
Lemma translate_text_only_error_statuses_witness :
  let R := demo.runtime in
  let C := demo.capabilities demo.vc_writes in
  let service := translation_service.TranslatorService_init in
  let stored := demo.completed "xin chao cac ban" "xin chao cac ban." in
  let w := demo.one_artifact "a.wav" (lit "RIFF") stored in
  conversion.translate_text_only service (lit "zz") (lit "fr") w
    = (Raise (HTTPException 404 (lit "Transcript not found")), w)
  ∧ conversion.translate_text_only service (lit "a1") (lit "de") w
    = (Raise (HTTPException 500 (lit "Translation failed")), w).
Proof.
  intros R C service stored w. split.
  - apply (translate_text_only_error_statuses service (lit "zz") (lit "fr") stored w).
    vm_compute. reflexivity.
  - apply (translate_text_only_error_statuses service (lit "a1") (lit "de") stored w).
    + vm_compute. reflexivity.
    + vm_compute. discriminate.
    + vm_compute. reflexivity.
Defined.

(** ** The voice-conversion endpoint *)

Section voice_conversion_endpoint.
Context `{Runtime} `{Capabilities}.

Lemma get_audio_file_found (id p : str) (w w' : world) :
  utils.get_audio_file id w = (Ok p, w') →
  ∃ a, audio_storage w !! id = Some a ∧ p = file_path a
       ∧ is_Some (fs w !! p).
Proof.
  unfold utils.get_audio_file, os_path_exists. run.
  destruct (audio_storage w !! id) as [a|]; run; [|intros [=]].
  destruct (bool_decide (is_Some (fs w !! file_path a))) eqn:Hp; cbn;
    [|intros [=]].
  intros [= <- <-]. apply bool_decide_eq_true in Hp. eauto.
Qed.

Lemma synthesize_voice_run (ref text language : str) (w w' : world)
    (r : result str) :
  conversion.synthesize_voice ref text language w = (r, w') →
  let out := conversion.converted_output_path (uuid4 (tick w)) language in
  audio_storage w' = audio_storage w
  ∧ transcript_storage w' = transcript_storage w
  ∧ tick w' = S (tick w)
  ∧ (∀ p, is_Some (fs w !! p) → is_Some (fs w' !! p))
  ∧ (∀ p, r = Ok p →
       p = out ∧ is_Some (fs w' !! out) ∧ is_Some (fs w !! ref)
       ∧ calls w'
         = calls w ++ [CallLatents ref;
                       CallInference text
                         (conversion_service._normalize_language_code language);
                       CallVoiceConversion ref out]).
Proof.
  intros Hv out.
  assert (replace [92%N] [47%N] out = out) as Hout
    by apply replace_slash_idem.
  revert Hv.
  unfold conversion.synthesize_voice, draw, os_path_exists, os_path_getsize.
  run. fold out. clearbody out.
  destruct (conversion_service.synthesize text ref out language (next_tick w))
    as [[q|e] w1] eqn:Hs;
    pose proof (synthesize_frame _ _ _ _ _ _ _ Hs) as (Ha & Ht & Hk & Hfs).
  - pose proof (synthesize_returns_output_path _ _ _ _ _ _ _ Hs) as ->.
    apply synthesize_success in Hs as (Hr & Hc).
    rewrite Hout.
    destruct (fs w1 !! out) as [b|] eqn:Hf.
    + rewrite bool_decide_true by eauto. cbn. rewrite Hf. cbn.
      intros [= <- <-].
      split; [done|]. split; [done|]. split; [done|]. split; [done|].
      intros p [= <-]. split; [done|]. split; [eauto|]. by split.
    + rewrite bool_decide_false by (by intros [? ?]). cbn.
      intros [= <- <-]. by repeat split.
  - intros [= <- <-]. by repeat split.
Qed.

Lemma convert_voice_run (id target_language : str) (request_text : option str)
    (w w' : world) (r : result conversion.VoiceConversionResponse) :
  conversion.convert_voice_with_language id target_language request_text w
    = (r, w') →
  let out := conversion.converted_output_path (uuid4 (tick w)) target_language in
  audio_storage w' = audio_storage w
  ∧ (∀ p, is_Some (fs w !! p) → is_Some (fs w' !! p))
  ∧ match r with
    | Raise e =>
        http_status e ∈ [Some 400%N; Some 404%N; Some 500%N]
        ∧ transcript_storage w' = transcript_storage w
    | Ok resp =>
        ∃ stored a,
          let chosen := spec.text_priority request_text stored in
          let record :=
            ConversionRecord out chosen
              (lit "/static/"
                 ++ replace [92%N] [47%N] (replace (lit "static/") [] out)) in
          transcript_storage w !! id = Some stored
          ∧ audio_storage w !! id = Some a
          ∧ is_Some (fs w !! file_path a)
          ∧ is_Some (fs w' !! out)
          ∧ calls w'
            = calls w ++ [CallLatents (file_path a);
                          CallInference chosen
                            (conversion_service._normalize_language_code
                               target_language);
                          CallVoiceConversion (file_path a) out]
          ∧ transcript_storage w'
            = <[id := Session (raw_transcript stored)
                        (corrected_transcript stored) (status stored)
                        (translated_transcript stored)
                        (Some (<[target_language := record]>
                                 (default ∅ (voice_conversions stored))))]>
                (transcript_storage w)
          ∧ resp = {| conversion.vc_id := id;
                      conversion.vc_converted_audio_url := audio_url record;
                      conversion.vc_audio_file_path := out;
                      conversion.vc_target_language := target_language;
                      conversion.vc_synthesized_text := chosen;
                      conversion.vc_message := lit "Voice conversion successful" |}
    end.
Proof.
  intros Hrun out. revert Hrun.
  assert (∀ k : gmap str session → gmap str audio_data
                → M conversion.VoiceConversionResponse,
            (transcripts <- gets transcript_storage;;
             audios <- gets audio_storage;; k transcripts audios) w
            = k (transcript_storage w) (audio_storage w) w) as Hstart by done.
  unfold conversion.convert_voice_with_language.
  rewrite Hstart. clear Hstart.
  destruct (transcript_storage w !! id) as [stored|] eqn:Hid.
  2:{ run. intros [= <- <-]. cbn. repeat split; try done; repeat constructor. }
  destruct (bool_decide (is_Some (audio_storage w !! id))) eqn:Ha; cbn [negb].
  2:{ run. intros [= <- <-]. cbn. repeat split; try done; repeat constructor. }
  rewrite text_to_synthesize_priority.
  remember (spec.text_priority request_text stored) as chosen eqn:Hch.
  destruct (truthy chosen) eqn:Hc; cbn [negb].
  2:{ run. intros [= <- <-]. cbn. repeat split; try done; repeat constructor. }
  unfold try_except at 1.
  destruct (utils.get_audio_file id w) as [[audio_path|e] w0] eqn:Hg;
    pose proof (get_audio_file_frame _ _ _ _ Hg) as ->.
  2:{ rewrite (bind_raise _ _ _ _ _ Hg).
      destruct (is_FileNotFoundError e); run; intros [= <- <-]; cbn;
        repeat split; try done; repeat constructor. }
  rewrite (bind_run _ _ _ _ _ Hg).
  apply get_audio_file_found in Hg as (a & Hau & -> & Hfile).
  destruct (conversion.synthesize_voice (file_path a) chosen target_language w)
    as [[synth_path|e] w1] eqn:Hs;
    pose proof (synthesize_voice_run _ _ _ _ _ _ Hs)
      as (Ha1 & Ht1 & Hk1 & Hfs1 & Hok).
  2:{ rewrite (bind_raise _ _ _ _ _ Hs).
      destruct (is_FileNotFoundError e); run; intros [= <- <-]; cbn;
        repeat split; try done; repeat constructor. }
  rewrite (bind_run _ _ _ _ _ Hs).
  destruct (Hok _ eq_refl) as (-> & Hout & _ & Hcalls). fold out in Hout, Hcalls.
  fold out in Hfs1. fold out. clearbody out.
  unfold os_path_exists, os_path_getsize, conversion.get_item. run.
  rewrite bool_decide_true by done. cbn.
  destruct Hout as [b Hb]. rewrite Hb. cbn. rewrite Ht1, Hid. cbn.
  intros [= <- <-]. split; [done|]. split; [done|].
  exists stored, a. rewrite <- Hch.
  change (transcript_storage (set_transcript_storage ?f ?w0))
    with (f (transcript_storage w0)).
  rewrite Ht1, (alter_alt_Some _ _ _ _ Hid).
  split; [done|]. split; [done|]. split; [done|]. split; [eauto|].
  split; [done|]. split; reflexivity.
Qed.

(** X20. A successful voice conversion, for an id with a Session, an
    Artifact and its file: the models are called three times in order,
    on the uploaded file as the reference voice, and XTTS is given the
    normalised language code; the output path is built from a fresh uuid
    and the language as the caller wrote it, and a file is there
    afterwards; the record of the conversion is stored under that same
    unnormalised language, beside the records for other languages and
    replacing an earlier one for the same; the rest of the Session, the
    other Sessions and the Artifacts are untouched, and no file is
    removed. *)
Theorem convert_voice_effect (id target_language : str)
    (request_text : option str) (w w' : world)
    (resp : conversion.VoiceConversionResponse) :
  conversion.convert_voice_with_language id target_language request_text w
    = (Ok resp, w') →
  let out := conversion.converted_output_path (uuid4 (tick w)) target_language in
  ∃ stored a,
    let chosen := spec.text_priority request_text stored in
    let record :=
      ConversionRecord out chosen
        (lit "/static/"
           ++ replace [92%N] [47%N] (replace (lit "static/") [] out)) in
    transcript_storage w !! id = Some stored
    ∧ audio_storage w !! id = Some a
    ∧ is_Some (fs w !! file_path a)
    ∧ is_Some (fs w' !! out)
    ∧ (∀ p, is_Some (fs w !! p) → is_Some (fs w' !! p))
    ∧ calls w'
      = calls w ++ [CallLatents (file_path a);
                    CallInference chosen
                      (conversion_service._normalize_language_code
                         target_language);
                    CallVoiceConversion (file_path a) out]
    ∧ audio_storage w' = audio_storage w
    ∧ transcript_storage w'
      = <[id := Session (raw_transcript stored)
                  (corrected_transcript stored) (status stored)
                  (translated_transcript stored)
                  (Some (<[target_language := record]>
                           (default ∅ (voice_conversions stored))))]>
          (transcript_storage w)
    ∧ conversion.vc_audio_file_path resp = out
    ∧ conversion.vc_converted_audio_url resp = audio_url record
    ∧ conversion.vc_target_language resp = target_language.
Proof.
  intros Hrun out.
  apply convert_voice_run in Hrun
    as (Ha & Hfs & stored & a & Hid & Hau & Hf & Hout & Hc & Hts & ->).
  exists stored, a. by repeat split.
Qed.

(** X21. A voice conversion that fails answers 400, 404 or 500 and
    leaves the Session store and the Artifact store as they were; no
    file is removed (a voice conversion model that writes and then
    raises leaves what it wrote). *)
Theorem convert_voice_failure_frame (id target_language : str)
    (request_text : option str) (w w' : world) (e : exn) :
  conversion.convert_voice_with_language id target_language request_text w
    = (Raise e, w') →
  http_status e ∈ [Some 400%N; Some 404%N; Some 500%N]
  ∧ transcript_storage w' = transcript_storage w
  ∧ audio_storage w' = audio_storage w
  ∧ ∀ p, is_Some (fs w !! p) → is_Some (fs w' !! p).
Proof.
  intros Hrun. apply convert_voice_run in Hrun as (Ha & Hfs & Hs & Ht).
  by repeat split.
Qed.

(** X22. The 404s of a voice conversion: an id without a Session; a
    Session without an Artifact; an Artifact whose file is gone; and a
    synthesis that ran without error and wrote no output file, which is
    reported as "Audio file not found on disk" although the uploaded
    audio is on disk. *)
Theorem convert_voice_not_found (id target_language : str)
    (request_text : option str) (stored : session) (a : audio_data)
    (w : world) :
  (transcript_storage w !! id = None →
   conversion.convert_voice_with_language id target_language request_text w
     = (Raise (HTTPException 404 (lit "Transcript not found")), w))
  ∧ (transcript_storage w !! id = Some stored → audio_storage w !! id = None →
     conversion.convert_voice_with_language id target_language request_text w
       = (Raise (HTTPException 404 (lit "Audio not found")), w))
  ∧ (transcript_storage w !! id = Some stored → audio_storage w !! id = Some a →
     spec.text_priority request_text stored ≠ [] →
     fs w !! file_path a = None →
     conversion.convert_voice_with_language id target_language request_text w
       = (Raise (HTTPException 404 (lit "Audio file not found on disk")), w))
  ∧ (transcript_storage w !! id = Some stored → audio_storage w !! id = Some a →
     spec.text_priority request_text stored ≠ [] →
     is_Some (fs w !! file_path a) →
     ∀ p w1,
       conversion_service.synthesize (spec.text_priority request_text stored)
         (file_path a)
         (conversion.converted_output_path (uuid4 (tick w)) target_language)
         target_language (next_tick w) = (Ok p, w1) →
       fs w1 !! conversion.converted_output_path (uuid4 (tick w)) target_language
         = None →
       conversion.convert_voice_with_language id target_language request_text w
         = (Raise (HTTPException 404 (lit "Audio file not found on disk")), w1)).
Proof.
  assert (∀ k : gmap str session → gmap str audio_data
                → M conversion.VoiceConversionResponse,
            (transcripts <- gets transcript_storage;;
             audios <- gets audio_storage;; k transcripts audios) w
            = k (transcript_storage w) (audio_storage w) w) as Hstart by done.
  unfold conversion.convert_voice_with_language.
  rewrite Hstart. clear Hstart.
  split; [|split; [|split]].
  - by intros ->.
  - intros -> ->. by rewrite bool_decide_false by (by intros [? ?]).
  - intros -> Ha Hc Hf. rewrite Ha, bool_decide_true by eauto. cbn [negb].
    rewrite text_to_synthesize_priority, (proj2 (truthy_true _) Hc). cbn [negb].
    unfold utils.get_audio_file, os_path_exists. run. rewrite Ha. cbn.
    rewrite Hf. by rewrite bool_decide_false by (by intros [? ?]).
  - intros -> Ha Hc Hf p w1 Hs Hnone.
    rewrite Ha, bool_decide_true by eauto. cbn [negb].
    rewrite text_to_synthesize_priority, (proj2 (truthy_true _) Hc). cbn [negb].
    pose proof (synthesize_returns_output_path _ _ _ _ _ _ _ Hs) as ->.
    assert (replace [92%N] [47%N]
              (conversion.converted_output_path (uuid4 (tick w)) target_language)
            = conversion.converted_output_path (uuid4 (tick w)) target_language)
      as Hout by apply replace_slash_idem.
    unfold utils.get_audio_file, conversion.synthesize_voice, draw,
      os_path_exists. run. rewrite Ha. cbn.
    rewrite bool_decide_true by done. cbn. rewrite Hs. cbn.
    rewrite Hout, Hnone.
    by rewrite bool_decide_false by (by intros [? ?]).
Qed.

End voice_conversion_endpoint.

(** A conversion into "FR" of the stored corrected transcript: XTTS is
    given the code fr, the file and the record carry FR. *)
Lemma convert_voice_effect_witness :
  let R := demo.runtime in
  let C := demo.capabilities demo.vc_writes in
  let stored := demo.completed "xin chao cac ban" "xin chao cac ban." in
  let w := demo.one_artifact "a.wav" (lit "RIFF") stored in
  let out := lit "static/converted/converted_0f3a91c0_FR.wav" in
  let res := conversion.convert_voice_with_language (lit "a1") (lit "FR") None w in
  is_Ok res.1 = true
  ∧ calls res.2
    = [CallLatents (demo.artifact_path "a.wav");
       CallInference (lit "xin chao cac ban.") (lit "fr");
       CallVoiceConversion (demo.artifact_path "a.wav") out]
  ∧ (transcript_storage res.2 !! lit "a1") ≫= voice_conversions
    = Some {[ lit "FR" := ConversionRecord out (lit "xin chao cac ban.")
                            (lit "/static/converted/converted_0f3a91c0_FR.wav") ]}.
Proof.
  intros R C stored0 w out res. split; [vm_compute; reflexivity|].
  subst res.
  destruct (conversion.convert_voice_with_language (lit "a1") (lit "FR") None w)
    as [[resp|e] w'] eqn:Hres; [|vm_compute in Hres; discriminate].
  apply convert_voice_effect in Hres
    as (stored & a & Hid & Hau & _ & _ & _ & Hc & _ & Hts & _).
  assert (stored = stored0) as -> by (vm_compute in Hid; vm_compute; congruence).
  assert (file_path a = demo.artifact_path "a.wav") as Hp
    by (vm_compute in Hau; injection Hau as <-; vm_compute; reflexivity).
  cbn [snd]. rewrite Hc, Hts, Hp, lookup_insert_eq. split.
  - vm_compute. reflexivity.
  - reflexivity.
Defined.

(** A voice conversion model that raises: the request fails with 500
    and the Session is as it was. *)
Lemma convert_voice_failure_frame_witness :
  let R := demo.runtime in
  let C := demo.capabilities demo.vc_raises in
  let stored := demo.completed "xin chao cac ban" "xin chao cac ban." in
  let w := demo.one_artifact "a.wav" (lit "RIFF") stored in
  let res := conversion.convert_voice_with_language (lit "a1") (lit "fr") None w in
  res.1 = Raise (HTTPException 500 (lit "Voice conversion failed: CUDA out of memory"))
  ∧ transcript_storage res.2 = transcript_storage w.
Proof.
  intros R C stored w res.
  assert (conversion.convert_voice_with_language (lit "a1") (lit "fr") None w
          = (Raise (HTTPException 500
                      (lit "Voice conversion failed: CUDA out of memory")), res.2))
    as Hres by (vm_compute; reflexivity).
  split; [vm_compute; reflexivity|].
  apply (convert_voice_failure_frame (lit "a1") (lit "fr") None w res.2 _ Hres).
Defined.

(** A voice conversion model that returns without writing: the answer
    is 404 although a.wav is on disk. *)
Lemma convert_voice_not_found_witness :
  let R := demo.runtime in
  let C := demo.capabilities demo.vc_silent in
  let stored := demo.completed "xin chao cac ban" "xin chao cac ban." in
  let w := demo.one_artifact "a.wav" (lit "RIFF") stored in
  is_Some (fs w !! demo.artifact_path "a.wav")
  ∧ (conversion.convert_voice_with_language (lit "a1") (lit "fr") None w).1
    = Raise (HTTPException 404 (lit "Audio file not found on disk")).
Proof.
  intros R C stored w.
  assert (is_Some (fs w !! demo.artifact_path "a.wav")) as Hf
    by (vm_compute; eauto).
  split; [exact Hf|].
  pose (a := AudioData (lit "a1") (Some (lit "a.wav")) (lit "RIFF")
               (Some (lit "audio/wav")) (demo.artifact_path "a.wav") 1700000000).
  pose (out := conversion.converted_output_path (uuid4 (tick w)) (lit "fr")).
  pose (w1 := (conversion_service.synthesize (spec.text_priority None stored)
                 (file_path a) out (lit "fr") (next_tick w)).2).
  rewrite (proj2 (proj2 (proj2
             (convert_voice_not_found (lit "a1") (lit "fr") None stored a w)))
             eq_refl eq_refl) with (p := out) (w1 := w1).
  - reflexivity.
  - vm_compute. discriminate.
  - exact Hf.
  - vm_compute. reflexivity.
  - vm_compute. reflexivity.
Defined.

(** ** C9: the chosen text reaches the synthesis *)

Section voice_conversion_text.
Context `{Runtime} `{Capabilities}.

(** With the reference audio on disk and its latents extracted, XTTS
    inference is called, on [text] and the normalised language; and when
    inference and the voice conversion do their work, [synthesize]
    returns the output path with the file written. *)
Lemma synthesize_progress (text ref out language : str) (w w' : world)
    (r : result str) (audio lat : bytes) :
  conversion_service.synthesize text ref out language w = (r, w') →
  fs w !! ref = Some audio →
  get_conditioning_latents audio = inr lat →
  let normalized := conversion_service._normalize_language_code language in
  (∃ l, calls w' = calls w ++ CallLatents ref :: CallInference text normalized :: l)
  ∧ (∀ wav b, inference text normalized lat = inr wav →
              voice_conversion_to_file wav audio = (Some b, None) →
              r = Ok out ∧ fs w' !! out = Some b).
Proof.
  intros Hs Hf Hl normalized. revert Hs. subst normalized.
  unfold conversion_service.synthesize, conversion_service.call_latents,
    conversion_service.call_inference, conversion_service.call_voice_conversion,
    os_path_exists, write_file.
  run. rewrite ?Hf. cbn. rewrite ?Hf. cbn. rewrite Hl. cbn.
  destruct (inference text _ lat) as [e|wav] eqn:Hi; cbn.
  { intros [= <- <-]. cbn. rewrite <- ?app_assoc. cbn.
    split; [by exists []|]. intros ? ? [=]. }
  rewrite Hf. cbn.
  destruct (voice_conversion_to_file wav audio) as [[b|] [e|]] eqn:Hv; cbn;
    intros [= <- <-]; cbn; rewrite <- ?app_assoc; cbn;
    (split; [by eexists|]); intros wav' b' [= <-]; rewrite Hv; intros [=].
  subst. split; [done|]. apply lookup_insert_eq.
Qed.

Lemma synthesize_voice_progress (ref text language : str) (w w' : world)
    (r : result str) (audio lat : bytes) :
  conversion.synthesize_voice ref text language w = (r, w') →
  fs w !! ref = Some audio →
  get_conditioning_latents audio = inr lat →
  let normalized := conversion_service._normalize_language_code language in
  (∃ l, calls w' = calls w ++ CallLatents ref :: CallInference text normalized :: l)
  ∧ (∀ wav b, inference text normalized lat = inr wav →
              voice_conversion_to_file wav audio = (Some b, None) →
              is_Ok r = true).
Proof.
  intros Hv Hf Hl normalized. revert Hv.
  pose (out := conversion.converted_output_path (uuid4 (tick w)) language).
  assert (replace [92%N] [47%N] out = out) as Hout
    by apply replace_slash_idem.
  unfold conversion.synthesize_voice, draw, os_path_exists, os_path_getsize.
  run. fold out. clearbody out.
  destruct (conversion_service.synthesize text ref out language (next_tick w))
    as [r0 w0] eqn:Hs.
  destruct (synthesize_progress _ _ _ _ _ _ _ _ _ Hs Hf Hl) as [[l Hc] Hok].
  fold normalized in Hc, Hok.
  destruct r0 as [p|e].
  - pose proof (synthesize_returns_output_path _ _ _ _ _ _ _ Hs) as ->.
    rewrite Hout.
    destruct (fs w0 !! out) as [b0|] eqn:Hf0.
    + rewrite bool_decide_true by eauto. cbn. rewrite Hf0. cbn.
      intros [= <- <-]. split; [by exists l|done].
    + rewrite bool_decide_false by (by intros [? ?]). cbn.
      intros [= <- <-]. split; [by exists l|].
      intros wav b Hi Hw. destruct (Hok wav b Hi Hw) as [_ Hb]. congruence.
  - intros [= <- <-]. split; [by exists l|].
    intros wav b Hi Hw. by destruct (Hok wav b Hi Hw) as [[=] _].
Qed.

(** C9. On an id that has both an Artifact and a Session, the text to
    speak is the first non-empty one of the caller's text, the stored
    translation, the corrected and the raw transcript.  When there is
    none, the request fails with status 400 and the world, call log
    included, is as it was: no synthesis is attempted.  When there is
    one, the request is not refused for want of a text (a failure is a
    404 or a 500); whatever it gives to XTTS inference is that text;
    with the uploaded file on disk and its latents extracted, inference
    is called, on that text and the normalised language, whatever
    happens later; and when inference and the voice conversion do their
    work the request succeeds.  A successful request has given the text
    to inference, names it in its response and stores it under the
    target language. *)
Theorem voice_conversion_text_priority
    (id target_language : str) (request_text : option str)
    (stored : session) (w : world) :
  transcript_storage w !! id = Some stored →
  is_Some (audio_storage w !! id) →
  let chosen := spec.text_priority request_text stored in
  let language := conversion_service._normalize_language_code target_language in
  (chosen = [] →
   conversion.convert_voice_with_language id target_language request_text w
     = (Raise (HTTPException 400
                 (lit "No text available for synthesis. Please provide text or translate first.")),
        w))
  ∧ (chosen ≠ [] →
     ∃ r w' l,
       conversion.convert_voice_with_language id target_language request_text w
         = (r, w')
       ∧ calls w' = calls w ++ l
       ∧ (spec.inference_texts l = [] ∨ spec.inference_texts l = [chosen])
       ∧ (∀ e, r = Raise e →
               http_status e = Some 404%N ∨ http_status e = Some 500%N)
       ∧ (∀ a audio lat,
            audio_storage w !! id = Some a →
            fs w !! file_path a = Some audio →
            get_conditioning_latents audio = inr lat →
            spec.inference_texts l = [chosen]
            ∧ CallInference chosen language ∈ l
            ∧ ∀ wav b, inference chosen language lat = inr wav →
                       voice_conversion_to_file wav audio = (Some b, None) →
                       is_Ok r = true)
       ∧ ∀ resp, r = Ok resp →
           spec.inference_texts l = [chosen]
           ∧ conversion.vc_synthesized_text resp = chosen
           ∧ ∃ s' records record,
               transcript_storage w' !! id = Some s'
               ∧ voice_conversions s' = Some records
               ∧ records !! target_language = Some record
               ∧ text record = chosen).
Proof.
  intros Hid [a Ha] chosen language. subst chosen.
  assert (∀ k : gmap str session → gmap str audio_data → M conversion.VoiceConversionResponse,
            (transcripts <- gets transcript_storage;;
             audios <- gets audio_storage;; k transcripts audios) w
            = k (transcript_storage w) (audio_storage w) w) as Hstart by done.
  unfold conversion.convert_voice_with_language.
  rewrite Hstart, Hid, bool_decide_true by eauto. cbn [negb].
  rewrite text_to_synthesize_priority.
  generalize (spec.text_priority request_text stored). intros chosen.
  split.
  - by intros ->.
  - intros Hc. rewrite (proj2 (truthy_true chosen) Hc). cbn [negb].
    unfold try_except at 1.
    destruct (fs w !! file_path a) as [audio|] eqn:Hfile.
    2:{ (* the uploaded file is gone *)
        unfold utils.get_audio_file, os_path_exists. run. rewrite Ha. cbn.
        rewrite Hfile. rewrite bool_decide_false by (by intros [? ?]). cbn.
        eexists _, _, []. split; [reflexivity|]. rewrite app_nil_r.
        split; [done|]. split; [by left|]. split; [intros e [= <-]; by left|].
        split; [|done]. intros a' audio' lat Ha'. congruence. }
    assert (utils.get_audio_file id w = (Ok (file_path a), w)) as Hg.
    { unfold utils.get_audio_file, os_path_exists. run. rewrite Ha. cbn.
      rewrite Hfile. by rewrite bool_decide_true by eauto. }
    rewrite (bind_run _ _ _ _ _ Hg).
    destruct (conversion.synthesize_voice (file_path a) chosen target_language w)
      as [[synth_path|e] w1] eqn:Hs;
      pose proof (synthesize_voice_calls _ _ _ _ _ _ Hs)
        as (l & Hl & Hcases & Hok & Ht & Hau);
      pose proof (synthesize_voice_run _ _ _ _ _ _ Hs)
        as (_ & _ & _ & _ & Hrun).
    2:{ rewrite (bind_raise _ _ _ _ _ Hs).
        assert (∃ e', (if is_FileNotFoundError e
                       then raise (HTTPException 404 (lit "Audio file not found on disk"))
                       else raise (HTTPException 500
                                     (lit "Voice conversion failed: " ++ exn_str e)))
                        w1
                      = (@Raise conversion.VoiceConversionResponse e', w1)
                      ∧ (http_status e' = Some 404%N ∨ http_status e' = Some 500%N))
          as (e' & -> & He').
        { destruct (is_FileNotFoundError e); eexists; (split; [reflexivity|]);
            [by left|by right]. }
        exists (Raise e'), w1, l. split; [reflexivity|]. split; [done|].
        split; [done|]. split; [by intros ? [= <-]|]. split; [|done].
        intros a' audio' lat Ha' Hf' Hlat.
        assert (a' = a) as -> by congruence.
        assert (audio' = audio) as -> by congruence.
        destruct (synthesize_voice_progress _ _ _ _ _ _ _ _ Hs Hfile Hlat)
          as [[l' Hl'] Hdone].
        rewrite Hl in Hl'. apply app_inv_head in Hl'. subst l.
        split; [by destruct Hcases as [Hn|Hn]; [discriminate Hn|]|].
        split; [by constructor; constructor|]. done. }
    rewrite (bind_run _ _ _ _ _ Hs).
    destruct (Hrun _ eq_refl) as (-> & [b Hb] & _ & _).
    unfold os_path_exists, os_path_getsize, conversion.get_item. run.
    rewrite bool_decide_true by eauto. cbn. rewrite Hb. cbn.
    rewrite Ht, Hid. cbn.
    eexists _, _, l. split; [reflexivity|]. cbn.
    split; [done|]. split; [done|]. split; [done|]. split.
    + intros a' audio' lat Ha' Hf' Hlat.
      assert (a' = a) as -> by congruence.
      assert (audio' = audio) as -> by congruence.
      destruct (synthesize_voice_progress _ _ _ _ _ _ _ _ Hs Hfile Hlat)
        as [[l' Hl'] _].
      rewrite Hl in Hl'. apply app_inv_head in Hl'. subst l.
      split; [by apply Hok|]. split; [by constructor; constructor|done].
    + intros resp [= <-]. cbn. split; [by apply Hok|]. split; [done|].
      rewrite Ht, lookup_alter_eq, Hid. cbn.
      eexists _, _, _. split; [reflexivity|]. cbn. split; [reflexivity|].
      split; [apply lookup_insert_eq|done].
Qed.

End voice_conversion_text.

(** Without any text the request is refused; with a stored translation
    and no caller text, the translation is what XTTS is given, and the
    request succeeds. *)
Lemma voice_conversion_text_priority_witness :
  let R := demo.runtime in
  let C := demo.capabilities demo.vc_writes in
  let translated :=
    Session (Some (lit "xin chao cac ban")) (Some (lit "xin chao cac ban."))
      (Some (lit "completed")) (Some (lit "bonjour tout le monde")) None in
  let w0 := demo.one_artifact "a.wav" (lit "RIFF") empty_session in
  let w1 := demo.one_artifact "a.wav" (lit "RIFF") translated in
  let chosen := spec.text_priority None translated in
  conversion.convert_voice_with_language (lit "a1") (lit "fr") None w0
    = (Raise (HTTPException 400
                (lit "No text available for synthesis. Please provide text or translate first.")),
       w0)
  ∧ chosen = lit "bonjour tout le monde"
  ∧ ∃ r w' l,
      conversion.convert_voice_with_language (lit "a1") (lit "fr") None w1
        = (r, w')
      ∧ calls w' = calls w1 ++ l
      ∧ is_Ok r = true
      ∧ spec.inference_texts l = [chosen]
      ∧ CallInference chosen (lit "fr") ∈ l.
Proof.
  intros R C translated w0 w1 chosen.
  assert (is_Some (audio_storage w0 !! lit "a1")) as Ha
    by (apply (bool_decide_unpack _); vm_compute; reflexivity).
  split; [|split; [vm_compute; reflexivity|]].
  - apply (proj1 (voice_conversion_text_priority (lit "a1") (lit "fr") None
                    empty_session w0 ltac:(vm_compute; reflexivity) Ha)).
    vm_compute. reflexivity.
  - destruct (proj2 (voice_conversion_text_priority (lit "a1") (lit "fr") None
                       translated w1 ltac:(vm_compute; reflexivity) Ha))
      as (r & w' & l & Hrun & Hl & _ & _ & Hgo & _).
    { vm_compute. discriminate. }
    exists r, w', l. split; [exact Hrun|]. split; [exact Hl|].
    destruct (Hgo (AudioData (lit "a1") (Some (lit "a.wav")) (lit "RIFF")
                     (Some (lit "audio/wav")) (demo.artifact_path "a.wav")
                     1700000000)
                (lit "RIFF") (lit "RIFF"))
      as (Hi & Hin & Hok); [vm_compute; reflexivity..|].
    split; [|split; [exact Hi|exact Hin]].
    apply (Hok (lit "bonjourtoutlemonde") (lit "bonjourtoutlemonde"));
      vm_compute; reflexivity.
Defined.

(** ** Invariants of the two stores over any sequence of requests *)

Section store_invariants.
Context `{Runtime} `{Capabilities}.
Variable transcript_service : transcript_service.TranscriptService.
Variable translation_service : translation_service.TranslatorService.

Lemma upload_audio_stores (file : audios.UploadFile) (w w' : world)
    (r : result audios.upload_response) :
  audios.upload_audio file w = (r, w') →
  transcript_storage w' = transcript_storage w
  ∧ (audio_storage w' = audio_storage w
     ∨ ∃ id a, audio_storage w' = <[id := a]> (audio_storage w)).
Proof.
  unfold audios.upload_audio, try_except at 1. intros Hu.
  pose proof (check_audio_format_frame
                (py_or (audios.upload_filename file) []) w) as Hf.
  destruct (utils.check_audio_format _ w) as [[[]|e] w0] eqn:Hc;
    cbn in Hf; subst w0.
  - rewrite (bind_run _ _ _ _ _ Hc) in Hu.
    unfold utils.save_audio_in_memory_and_disk, utils.generate_audio_id,
      draw, write_file in Hu.
    destruct (audios.upload_body file) as [|b body] eqn:Hb; run;
      simplify_eq; [by split; [|left]|].
    cbn. split; [done|]. right. by eexists _, _.
  - rewrite (bind_raise _ _ _ _ _ Hc) in Hu.
    by destruct e; run; simplify_eq; (split; [|left]).
Qed.

Lemma download_audio_frame (id : str) (w : world) :
  (audios.download_audio id w).2 = w.
Proof.
  unfold audios.download_audio, audios.try_finally, try_except.
  unfold bind at 1.
  destruct (utils.get_audio_file id w) as [[p|e] w0] eqn:Hg;
    pose proof (get_audio_file_frame _ _ _ _ Hg) as ->; [done|].
  by destruct (is_FileNotFoundError e).
Qed.

Lemma get_transcript_cached (id : str) (stored : session) (w w' : world)
    (r : result transcript.TranscriptResponse) :
  transcript_storage w !! id = Some stored →
  transcript.get_transcript transcript_service id w = (r, w') →
  facts.same_state w w'.
Proof.
  intros Hid.
  assert (∀ k : gmap str audio_data → gmap str session
                → M transcript.TranscriptResponse,
            (audios <- gets audio_storage;;
             storage <- gets transcript_storage;; k audios storage) w
            = k (audio_storage w) (transcript_storage w) w) as Hstart by done.
  unfold transcript.get_transcript, transcript.reraise_http, try_except.
  rewrite Hstart, Hid. clear Hstart.
  generalize (default [] (corrected_transcript stored)). intros corrected.
  destruct (truthy corrected); [|by run; intros [= <- <-]].
  destruct (guard_frame corrected w)
    as (b & c & w1 & Hg & Hfs & Ha & Ht & _).
  unfold bind at 1. unfold bind at 1. rewrite Hg.
  destruct b; [run; by intros [= <- <-]|].
  unfold utils.py_upper. destruct c; run; by intros [= <- <-].
Qed.

(** What one request can do to the two stores. *)
Lemma serve_stores (req : main.request) (w : world) :
  let w' := main.serve transcript_service translation_service req w in
  (∀ id, is_Some (audio_storage w !! id) → is_Some (audio_storage w' !! id))
  ∧ (spec.artifacts_nonempty w → spec.artifacts_nonempty w')
  ∧ (∀ id, is_Some (transcript_storage w' !! id) →
           is_Some (transcript_storage w !! id)
           ∨ is_Some (audio_storage w !! id))
  ∧ (∀ id s, transcript_storage w !! id = Some s →
             ∃ s', transcript_storage w' !! id = Some s'
                   ∧ raw_transcript s' = raw_transcript s).
Proof.
  assert (∀ w' : world,
            audio_storage w' = audio_storage w →
            transcript_storage w' = transcript_storage w →
            (∀ id, is_Some (audio_storage w !! id) → is_Some (audio_storage w' !! id))
            ∧ (spec.artifacts_nonempty w → spec.artifacts_nonempty w')
            ∧ (∀ id, is_Some (transcript_storage w' !! id) →
                     is_Some (transcript_storage w !! id)
                     ∨ is_Some (audio_storage w !! id))
            ∧ (∀ id s, transcript_storage w !! id = Some s →
                       ∃ s', transcript_storage w' !! id = Some s'
                             ∧ raw_transcript s' = raw_transcript s)) as Hsame.
  { intros w' Ha Ht. unfold spec.artifacts_nonempty. rewrite Ha, Ht.
    repeat split; eauto. }
  assert (∀ (w' : world) (id0 : str) (s0 : session),
            audio_storage w' = audio_storage w →
            transcript_storage w' = <[id0 := s0]> (transcript_storage w) →
            is_Some (audio_storage w !! id0) →
            raw_transcript s0 = transcript_storage w !! id0 ≫= raw_transcript
            ∨ transcript_storage w !! id0 = None →
            (∀ id, is_Some (audio_storage w !! id) → is_Some (audio_storage w' !! id))
            ∧ (spec.artifacts_nonempty w → spec.artifacts_nonempty w')
            ∧ (∀ id, is_Some (transcript_storage w' !! id) →
                     is_Some (transcript_storage w !! id)
                     ∨ is_Some (audio_storage w !! id))
            ∧ (∀ id s, transcript_storage w !! id = Some s →
                       ∃ s', transcript_storage w' !! id = Some s'
                             ∧ raw_transcript s' = raw_transcript s)) as Hins.
  { intros w' id0 s0 Ha Ht Hart Hraw. unfold spec.artifacts_nonempty.
    rewrite Ha, Ht. split; [done|]. split; [done|]. split.
    - intros id. destruct (decide (id = id0)) as [->|Hne]; [by right|].
      rewrite lookup_insert_ne by done. by left.
    - intros id s Hs. destruct (decide (id = id0)) as [->|Hne].
      + rewrite lookup_insert_eq. eexists. split; [done|].
        destruct Hraw as [Hraw|Hraw]; [|congruence].
        by rewrite Hraw, Hs.
      + rewrite lookup_insert_ne by done. eauto. }
  destruct req as [file|id|id|id text|id lang|id lang text];
    unfold main.serve.
  - destruct (audios.upload_audio file w) as [r w'] eqn:Hu. cbn [snd].
    pose proof (upload_audio_keeps_artifacts_nonempty _ _ _ _ Hu) as Hne.
    apply upload_audio_stores in Hu as [Ht Ha].
    split; [|split; [done|]].
    + destruct Ha as [->|(id0 & a & ->)]; [done|].
      intros id Hid. destruct (decide (id = id0)) as [->|?].
      * rewrite lookup_insert_eq. eauto.
      * by rewrite lookup_insert_ne.
    + rewrite Ht. split; eauto.
  - rewrite download_audio_frame. by apply Hsame.
  - destruct (transcript.get_transcript transcript_service id w)
      as [r w'] eqn:Hg. cbn [snd].
    destruct (transcript_storage w !! id) as [stored|] eqn:Hid.
    + apply (get_transcript_cached _ _ _ _ _ Hid) in Hg as (_ & Ha & Ht).
      by apply Hsame.
    + apply (get_transcript_cold _ _ _ _ _ Hid) in Hg as (Ha & _ & Hr).
      destruct r as [resp|e].
      * destruct Hr as (Hart & Hts & _).
        apply (Hins _ _ _ Ha Hts Hart). by right.
      * destruct Hr as (_ & Hts). by apply Hsame.
  - destruct (transcript.update_transcript id text w) as [[resp|e] w'] eqn:Hu;
      cbn [snd].
    + apply update_transcript_success in Hu
        as (Hart & _ & _ & _ & _ & Ha & Hts & _).
      apply (Hins _ _ _ Ha Hts Hart). by left.
    + apply update_transcript_failure in Hu as (_ & Ht & Ha & _).
      by apply Hsame.
  - destruct (conversion.translate_text_only translation_service id lang w)
      as [[resp|e] w'] eqn:Hu; cbn [snd].
    + apply translate_text_only_success in Hu
        as (stored & tgt & Hid & _ & _ & _ & _ & _ & Ha & Hts & _).
      unfold spec.artifacts_nonempty. rewrite Ha, Hts.
      split; [done|]. split; [done|]. split.
      * intros id0. destruct (decide (id0 = id)) as [->|Hne].
        -- rewrite Hid. left. eauto.
        -- rewrite lookup_insert_ne by done. by left.
      * intros id0 s Hs. destruct (decide (id0 = id)) as [->|Hne].
        -- rewrite lookup_insert_eq. eexists. split; [done|]. cbn. congruence.
        -- rewrite lookup_insert_ne by done. eauto.
    + apply translate_text_only_failure in Hu as (_ & Ht & Ha & _).
      by apply Hsame.
  - destruct (conversion.convert_voice_with_language id lang text w)
      as [r w'] eqn:Hu; cbn [snd].
    apply convert_voice_run in Hu as (Ha & _ & Hr).
    destruct r as [resp|e].
    + destruct Hr as (stored & a & Hid & Hau & _ & _ & _ & Hts & _).
      apply (Hins _ _ _ Ha Hts); [by rewrite Hau|].
      left. by rewrite Hid.
    + destruct Hr as (_ & Ht). by apply Hsame.
Qed.

Lemma serve_all_stores (reqs : list main.request) (w : world) :
  let w' := main.serve_all transcript_service translation_service reqs w in
  (facts.sessions_have_artifacts w → facts.sessions_have_artifacts w')
  ∧ (∀ id, is_Some (audio_storage w !! id) → is_Some (audio_storage w' !! id))
  ∧ (spec.artifacts_nonempty w → spec.artifacts_nonempty w')
  ∧ (∀ id s, transcript_storage w !! id = Some s →
             ∃ s', transcript_storage w' !! id = Some s'
                   ∧ raw_transcript s' = raw_transcript s).
Proof.
  revert w. induction reqs as [|req reqs IH]; intros w; cbn.
  { repeat split; eauto. }
  destruct (serve_stores req w) as (Ha & Hne & Hnew & Hraw).
  destruct (IH (main.serve transcript_service translation_service req w))
    as (IHs & IHa & IHne & IHraw).
  unfold main.serve_all in *. cbn in *.
  split; [|split; [|split]].
  - intros Hinv. apply IHs. intros id Hs.
    destruct (Hnew id Hs) as [?|?]; eauto.
  - eauto.
  - eauto.
  - intros id s Hs. destruct (Hraw id s Hs) as (s1 & Hs1 & Hr1).
    destruct (IHraw id s1 Hs1) as (s2 & Hs2 & Hr2).
    exists s2. split; [done|]. congruence.
Qed.

(** X23. Whatever requests to the six routes of the routers are served,
    in whatever order and with whatever outcome, every Session belongs
    to a stored Artifact: when this holds before, it holds after.  It
    holds at start-up, when both stores are empty. *)
Theorem sessions_always_have_artifacts (reqs : list main.request) (w : world) :
  facts.sessions_have_artifacts w →
  facts.sessions_have_artifacts
    (main.serve_all transcript_service translation_service reqs w).
Proof. apply serve_all_stores. Qed.

(** X24. No request to the six routes of the routers removes an
    Artifact, and none stores an empty one: an id that has an Artifact
    has one after any sequence of such requests, and when every stored
    Artifact holds some bytes before, so it is after. *)
Theorem artifacts_are_kept_and_nonempty (reqs : list main.request) (w : world) :
  let w' := main.serve_all transcript_service translation_service reqs w in
  (∀ id, is_Some (audio_storage w !! id) → is_Some (audio_storage w' !! id))
  ∧ (spec.artifacts_nonempty w → spec.artifacts_nonempty w').
Proof.
  destruct (serve_all_stores reqs w) as (_ & Ha & Hne & _). by split.
Qed.

(** X25. No request to the six routes of the routers removes a Session,
    and the raw transcript of a Session never changes once the Session
    exists: it is written only when the first transcript request creates
    the Session.  So a Session that an edit created before any
    transcription has no raw transcript, and no later request gives it
    one. *)
Theorem raw_transcript_is_written_once
    (reqs : list main.request) (id : str) (s : session) (w : world) :
  transcript_storage w !! id = Some s →
  ∃ s', transcript_storage
          (main.serve_all transcript_service translation_service reqs w) !! id
        = Some s'
        ∧ raw_transcript s' = raw_transcript s.
Proof. apply serve_all_stores. Qed.

End store_invariants.

(** From start-up: an upload, its transcription, an edit, a translation
    and a voice conversion, and an edit of an id that was never
    uploaded. *)
Lemma sessions_always_have_artifacts_witness :
  let R := demo.runtime in
  let C := demo.capabilities demo.vc_writes in
  let file := {| audios.upload_filename := Some (lit "a.wav");
                 audios.upload_content_type := Some (lit "audio/wav");
                 audios.upload_body := lit "RIFF" |} in
  let id := uuid_str (uuid4 0) in
  let reqs := [main.PostAudio file; main.GetTranscript id;
               main.PutTranscript id (lit "toi la sinh vien moi");
               main.PostTranslate id (lit "fr");
               main.PostVoiceConversion id (lit "fr") None;
               main.PutTranscript (lit "zz") (lit "toi la sinh vien moi")] in
  facts.sessions_have_artifacts demo.empty_world
  ∧ facts.sessions_have_artifacts
      (main.serve_all demo.loaded translation_service.TranslatorService_init
         reqs demo.empty_world).
Proof.
  intros R C file id reqs.
  assert (facts.sessions_have_artifacts demo.empty_world) as Hstart.
  { intros k [s Hs]. cbn in Hs. by rewrite lookup_empty in Hs. }
  split; [exact Hstart|].
  apply (sessions_always_have_artifacts demo.loaded
           translation_service.TranslatorService_init reqs demo.empty_world
           Hstart).
Defined.

(** The same requests keep the uploaded Artifact. *)
Lemma artifacts_are_kept_and_nonempty_witness :
  let R := demo.runtime in
  let C := demo.capabilities demo.vc_writes in
  let w := demo.one_artifact "a.wav" (lit "RIFF") empty_session in
  let reqs := [main.GetTranscript (lit "a1");
               main.PostVoiceConversion (lit "a1") (lit "fr") None;
               main.GetConversion (lit "a1")] in
  spec.artifacts_nonempty w
  ∧ spec.artifacts_nonempty
      (main.serve_all demo.loaded translation_service.TranslatorService_init
         reqs w).
Proof.
  intros R C w reqs.
  assert (spec.artifacts_nonempty w) as Hstart.
  { intros k a. unfold w, demo.one_artifact. cbn [audio_storage].
    intros Hk. apply lookup_singleton_Some in Hk as [_ <-]. by vm_compute. }
  split; [exact Hstart|].
  apply (artifacts_are_kept_and_nonempty demo.loaded
           translation_service.TranslatorService_init reqs w).
  exact Hstart.
Defined.

(** A Session that an edit created: the transcript request that follows
    serves it from the store, and its raw transcript stays absent. *)
Lemma raw_transcript_is_written_once_witness :
  let R := demo.runtime in
  let C := demo.capabilities demo.vc_writes in
  let edited := Session None (Some (lit "toi la sinh vien moi"))
                  (Some (lit "updated")) None None in
  let w := demo.one_artifact "a.wav" (lit "RIFF") edited in
  let reqs := [main.GetTranscript (lit "a1"); main.PostTranslate (lit "a1") (lit "fr")] in
  ∃ s', transcript_storage
          (main.serve_all demo.loaded translation_service.TranslatorService_init
             reqs w) !! lit "a1" = Some s'
        ∧ raw_transcript s' = None.
Proof.
  intros R C edited w reqs.
  apply (raw_transcript_is_written_once demo.loaded
           translation_service.TranslatorService_init reqs (lit "a1") edited w).
  vm_compute. reflexivity.
Defined.

(** ** An edited transcript and the stages that follow *)

Section after_an_edit.
Context `{Runtime} `{Capabilities}.
Variable service : translation_service.TranslatorService.

(** X26. After a successful edit, a translation request translates the
    edited text, trimmed: the one call of the translator is given it. *)
Theorem translation_follows_edit (id text lang : str) (w w1 w2 : world)
    (resp : transcript.TranscriptResponse)
    (tresp : conversion.TranslationResponse) :
  transcript.update_transcript id text w = (Ok resp, w1) →
  conversion.translate_text_only service id lang w1 = (Ok tresp, w2) →
  ∃ tgt,
    dict_get (translation_service.supported_languages service) lang = Some tgt
    ∧ calls w2
      = calls w1 ++ [CallTranslator (strip text)
                       (translation_service.src_lang service) tgt]
    ∧ translator (strip text) (translation_service.src_lang service) tgt
      = inr (conversion.tl_translated_text tresp).
Proof.
  intros Hu Ht.
  apply update_transcript_success in Hu as (_ & Hlen & _ & _ & _ & _ & Hts & _).
  apply translate_text_only_success in Ht
    as (stored & tgt & Hid & _ & Hl & Htr & Hc & _).
  rewrite Hts, lookup_insert_eq in Hid. injection Hid as <-.
  cbn [corrected_transcript py_or] in Hc, Htr.
  assert (truthy (strip text) = true) as Hne.
  { apply truthy_true. intros E. rewrite E in Hlen. cbn in Hlen. lia. }
  rewrite Hne in Hc, Htr. by exists tgt.
Qed.

(** X27. An edit does not reach a translation made before it: when the
    Session holds a non-empty translation, a successful edit leaves it
    there, and a voice conversion without a text of its own that follows
    the edit speaks that translation of the old transcript, not the
    edited text. *)
Theorem voice_conversion_speaks_stale_translation
    (id text lang old_translation : str) (stored : session) (w w1 w2 : world)
    (resp : transcript.TranscriptResponse)
    (vresp : conversion.VoiceConversionResponse) :
  transcript_storage w !! id = Some stored →
  translated_transcript stored = Some old_translation →
  old_translation ≠ [] →
  transcript.update_transcript id text w = (Ok resp, w1) →
  conversion.convert_voice_with_language id lang None w1 = (Ok vresp, w2) →
  (transcript_storage w1 !! id) ≫= translated_transcript = Some old_translation
  ∧ conversion.vc_synthesized_text vresp = old_translation
  ∧ CallInference old_translation
      (conversion_service._normalize_language_code lang) ∈ calls w2.
Proof.
  intros Hid Ho Hne Hu Hv.
  apply update_transcript_success in Hu as (_ & _ & _ & _ & _ & _ & Hts & _).
  rewrite Hid in Hts. cbn [mbind option_bind] in Hts.
  apply convert_voice_run in Hv
    as (_ & _ & stored1 & a & Hid1 & _ & _ & _ & Hc & _ & ->).
  rewrite Hts, lookup_insert_eq in Hid1. injection Hid1 as <-.
  assert (spec.text_priority None
            (Session (raw_transcript stored) (Some (strip text))
               (Some (lit "updated")) (translated_transcript stored)
               (voice_conversions stored)) = old_translation) as Hp.
  { rewrite <- text_to_synthesize_priority. cbn. rewrite Ho. cbn.
    by rewrite (proj2 (truthy_true _) Hne). }
  rewrite Hp in Hc. cbn [conversion.vc_synthesized_text].
  split; [by rewrite Hts, lookup_insert_eq; cbn; rewrite Ho|].
  split; [done|].
  rewrite Hc. apply elem_of_app. right. set_solver.
Qed.

End after_an_edit.

(** An edit, then a translation into French. *)
Lemma translation_follows_edit_witness :
  let R := demo.runtime in
  let C := demo.capabilities demo.vc_writes in
  let service := translation_service.TranslatorService_init in
  let w := demo.one_artifact "a.wav" (lit "RIFF")
             (demo.completed "xin chao cac ban" "xin chao cac ban.") in
  let w1 := (transcript.update_transcript (lit "a1") (lit " toi la sinh vien moi ") w).2 in
  let w2 := (conversion.translate_text_only service (lit "a1") (lit "fr") w1).2 in
  calls w2 = calls w1 ++ [CallTranslator (lit "toi la sinh vien moi")
                            (lit "vie_Latn") (lit "fra_Latn")].
Proof.
  intros R C service w w1 w2.
  destruct (transcript.update_transcript (lit "a1") (lit " toi la sinh vien moi ") w)
    as [[resp|e] w1'] eqn:Hu; [|vm_compute in Hu; discriminate].
  assert (w1 = w1') as Hw1 by reflexivity.
  clearbody w1. subst w1'.
  destruct (conversion.translate_text_only service (lit "a1") (lit "fr") w1)
    as [[tresp|e] w2'] eqn:Ht;
    [|pose proof Hu as Hw; vm_compute in Hw; injection Hw as _ <-;
      vm_compute in Ht; discriminate].
  assert (w2 = w2') as Hw2 by reflexivity.
  clearbody w2. subst w2'.
  destruct (translation_follows_edit service _ _ _ _ _ _ _ _ Hu Ht)
    as (tgt & Hl & Hc & _).
  rewrite Hc.
  assert (tgt = lit "fra_Latn") as -> by (vm_compute in Hl; vm_compute; congruence).
  reflexivity.
Defined.

(** A Session with a French translation is edited; the voice conversion
    that follows speaks the old translation. *)
Lemma voice_conversion_speaks_stale_translation_witness :
  let R := demo.runtime in
  let C := demo.capabilities demo.vc_writes in
  let stored := Session (Some (lit "xin chao cac ban")) (Some (lit "xin chao cac ban."))
                  (Some (lit "completed")) (Some (lit "bonjour tout le monde")) None in
  let w := demo.one_artifact "a.wav" (lit "RIFF") stored in
  let w1 := (transcript.update_transcript (lit "a1") (lit " toi la sinh vien moi ") w).2 in
  let res := conversion.convert_voice_with_language (lit "a1") (lit "fr") None w1 in
  is_Ok res.1 = true
  ∧ CallInference (lit "bonjour tout le monde")
      (conversion_service._normalize_language_code (lit "fr")) ∈ calls res.2.
Proof.
  intros R C stored w w1 res. split; [vm_compute; reflexivity|].
  destruct (transcript.update_transcript (lit "a1") (lit " toi la sinh vien moi ") w)
    as [[resp|e] w1'] eqn:Hu; [|vm_compute in Hu; discriminate].
  assert (w1 = w1') as Hw1 by reflexivity.
  clearbody w1. subst w1' res.
  destruct (conversion.convert_voice_with_language (lit "a1") (lit "fr") None w1)
    as [[vresp|e] w2] eqn:Hv;
    [|pose proof Hu as Hw; vm_compute in Hw; injection Hw as _ <-;
      vm_compute in Hv; discriminate].
  cbn [snd].
  apply (voice_conversion_speaks_stale_translation (lit "a1")
           (lit " toi la sinh vien moi ") (lit "fr") (lit "bonjour tout le monde")
           stored w w1 w2 resp vresp).
  - vm_compute. reflexivity.
  - reflexivity.
  - vm_compute. discriminate.
  - exact Hu.
  - exact Hv.
Defined.
